(** * NK Solar Tech backend: the admin server and the migration script

    A shallow embedding of [server.js] and [migrate-data.js].

    - JavaScript strings are sequences of UTF-16 code units ([list N]).
    - JavaScript values are the inductive type [value]. An object is the
      list of its own properties in insertion order. The numbers of the
      model are the integers: the only number the handlers compute is
      [parseInt(comments) || 0]. A JSON text with a fraction or an exponent
      denotes no value of the model and [JSON.parse] of the model rejects
      it; the files and the request bodies of a [world] are meant without
      such numbers.
    - [JSON.stringify(data, null, 2)] and [JSON.parse] are functions on text.
    - Handlers run in a state-and-exception monad over a [world]: the local
      files, the remote store, the clock and the entropy source. An [await]
      is a bind of the monad: one request runs at a time.
    - The Supabase client is outside the two programs. Its tables are
      sequences of rows with [id] as primary key, its calls resolve to
      [{ data, error }] and reject only when the network does; the [net]
      field of the world says what happens to each call. *)

From Stdlib Require Import ZArith NArith List String Ascii Bool Lia.
From Stdlib.Strings Require Import Byte.
From stdpp Require Import base option list gmap.

Local Open Scope N_scope.

(** ** Strings: UTF-16 code units *)

Module Str.

Abbreviation jsstring := (list N).

Definition utf16_encode (cp : N) : jsstring :=
  if cp <? 0x10000 then [cp]
  else [0xD800 + N.shiftr (cp - 0x10000) 10; 0xDC00 + N.land (cp - 0x10000) 0x3FF].

(** Decoder of the UTF-8 bytes of a source literal into code points. *)
Fixpoint utf8_decode (bs : list N) : list N :=
  match bs with
  | [] => []
  | b0 :: t0 =>
    if b0 <? 0x80 then b0 :: utf8_decode t0
    else match t0 with
      | [] => [0xFFFD]
      | b1 :: t1 =>
        if b0 <? 0xE0 then
          N.lor (N.shiftl (N.land b0 0x1F) 6) (N.land b1 0x3F) :: utf8_decode t1
        else match t1 with
          | [] => [0xFFFD]
          | b2 :: t2 =>
            if b0 <? 0xF0 then
              N.lor (N.shiftl (N.land b0 0x0F) 12)
                (N.lor (N.shiftl (N.land b1 0x3F) 6) (N.land b2 0x3F)) :: utf8_decode t2
            else match t2 with
              | [] => [0xFFFD]
              | b3 :: t3 =>
                N.lor (N.shiftl (N.land b0 0x07) 18)
                  (N.lor (N.shiftl (N.land b1 0x3F) 12)
                     (N.lor (N.shiftl (N.land b2 0x3F) 6) (N.land b3 0x3F)))
                  :: utf8_decode t3
              end
          end
      end
  end.

(** A literal of the source text as a JavaScript string. *)
Definition js (s : string) : jsstring :=
  flat_map utf16_encode (utf8_decode (map Byte.to_N (list_byte_of_string s))).

Definition is_high_surrogate (c : N) : bool := (0xD800 <=? c) && (c <=? 0xDBFF).
Definition is_low_surrogate (c : N) : bool := (0xDC00 <=? c) && (c <=? 0xDFFF).
Definition is_surrogate (c : N) : bool := (0xD800 <=? c) && (c <=? 0xDFFF).

(** [String.prototype.startsWith]. *)
Fixpoint startsWith (s p : jsstring) : bool :=
  match p, s with
  | [], _ => true
  | c :: p', d :: s' => (c =? d) && startsWith s' p'
  | _ :: _, [] => false
  end.

(** [String.prototype.substring(0, n)]. *)
Definition substring0 (n : nat) (s : jsstring) : jsstring := take n s.

(** [Array.prototype.join] on strings. *)
Fixpoint join (sep : jsstring) (parts : list jsstring) : jsstring :=
  match parts with
  | [] => []
  | [p] => p
  | p :: ps => p ++ sep ++ join sep ps
  end.

(** Whether [needle] occurs in [s] (a regular expression that is an
    alternation of literals tests for this). *)
Fixpoint contains (s needle : jsstring) : bool :=
  startsWith s needle ||
  match s with
  | [] => false
  | _ :: s' => contains s' needle
  end.

Definition endsWith (s suffix : jsstring) : bool :=
  startsWith (rev s) (rev suffix).

(** Decimal digits of a natural number, most significant first. *)
Fixpoint digits_aux (fuel : nat) (n : N) (acc : jsstring) : jsstring :=
  match fuel with
  | O => acc
  | S fuel' =>
    let acc' := (48 + n mod 10) :: acc in
    if n <? 10 then acc' else digits_aux fuel' (n / 10) acc'
  end.

Definition digits (n : N) : jsstring := digits_aux (S (N.to_nat (N.log2 n))) n [].

(** [Number.prototype.toString] on an integer. *)
Definition Z_to_string (z : Z) : jsstring :=
  match z with
  | Zneg p => 45 :: digits (Npos p)
  | _ => digits (Z.to_N z)
  end.

Definition hex_lower (d : N) : N := if d <? 10 then 48 + d else 87 + d.
Definition hex_upper (d : N) : N := if d <? 10 then 48 + d else 55 + d.

End Str.
Import Str.

(** ** Values *)

Unset Elimination Schemes.
Inductive value : Type :=
| VUndefined
| VNull
| VBool (b : bool)
| VNum (n : Z)
| VStr (s : jsstring)
| VArr (elems : list value)
| VObj (props : list (jsstring * value)).
Set Elimination Schemes.

Abbreviation object := (list (jsstring * value)).

(** Induction on values, through the elements and the properties. *)
Fixpoint value_ind (P : value -> Prop)
    (HUndefined : P VUndefined) (HNull : P VNull)
    (HBool : forall b, P (VBool b)) (HNum : forall n, P (VNum n))
    (HStr : forall s, P (VStr s))
    (HArr : forall l, Forall P l -> P (VArr l))
    (HObj : forall ps, Forall (fun kv => P kv.2) ps -> P (VObj ps))
    (v : value) : P v :=
  let rec := value_ind P HUndefined HNull HBool HNum HStr HArr HObj in
  match v with
  | VUndefined => HUndefined
  | VNull => HNull
  | VBool b => HBool b
  | VNum n => HNum n
  | VStr s => HStr s
  | VArr l =>
    HArr l ((fix go (l : list value) : Forall P l :=
               match l with
               | [] => @List.Forall_nil _ P
               | x :: l' => @List.Forall_cons _ P x l' (rec x) (go l')
               end) l)
  | VObj ps =>
    HObj ps ((fix go (ps : object) : Forall (fun kv => P kv.2) ps :=
                match ps with
                | [] => @List.Forall_nil _ _
                | kv :: ps' => @List.Forall_cons _ _ kv ps' (rec kv.2) (go ps')
                end) ps)
  end.

(** Errors carry the [message] the route layer puts in its 500 responses. *)
Inductive error_kind := TypeError | SyntaxError | URIError | SystemError | PlainError.

Record error := mkError { kind : error_kind; message : jsstring }.

Inductive result (A : Type) : Type :=
| Ok (a : A)
| Throw (e : error).
Arguments Ok {A} a.
Arguments Throw {A} e.

#[global] Instance result_ret : MRet result := fun A a => Ok a.
#[global] Instance result_bind : MBind result := fun A B f r =>
  match r with
  | Ok a => f a
  | Throw e => Throw e
  end.

(** ToBoolean. *)
Definition truthy (v : value) : bool :=
  match v with
  | VUndefined | VNull => false
  | VBool b => b
  | VNum n => negb (n =? 0)%Z
  | VStr s => match s with [] => false | _ => true end
  | VArr _ | VObj _ => true
  end.

(** [a || b] and [a && b]. *)
Definition js_or (a b : value) : value := if truthy a then a else b.
Definition js_and (a b : value) : value := if truthy a then b else a.

(** [a === b]. Two objects are never the same reference here: every
    comparison of the program has a route parameter or a request field on
    one side. *)
Definition strict_eq (a b : value) : bool :=
  match a, b with
  | VUndefined, VUndefined => true
  | VNull, VNull => true
  | VBool x, VBool y => eqb x y
  | VNum x, VNum y => (x =? y)%Z
  | VStr x, VStr y => bool_decide (x = y)
  | _, _ => false
  end.

(** Own property lookup of an object. *)
Fixpoint lookup_prop (o : object) (k : jsstring) : option value :=
  match o with
  | [] => None
  | (k', v) :: o' => if decide (k' = k) then Some v else lookup_prop o' k
  end.

(** [o[k] = v] on an object: an existing key keeps its place. *)
Fixpoint obj_set (o : object) (k : jsstring) (v : value) : object :=
  match o with
  | [] => [(k, v)]
  | (k', v') :: o' =>
    if decide (k' = k) then (k, v) :: o' else (k', v') :: obj_set o' k v
  end.

(** [{ ...o, k1: v1, ... }]: later properties overwrite. *)
Definition obj_assign (o : object) (ps : object) : object :=
  fold_left (fun acc kv => obj_set acc kv.1 kv.2) ps o.

(** An object literal. *)
Definition obj_lit (ps : object) : object := obj_assign [] ps.

(** [v.k]: a read of a property that the prototypes do not define. *)
Definition get (v : value) (k : jsstring) : result value :=
  match v with
  | VUndefined =>
    Throw (mkError TypeError
      (js "Cannot read properties of undefined (reading '" ++ k ++ js "')"))
  | VNull =>
    Throw (mkError TypeError
      (js "Cannot read properties of null (reading '" ++ k ++ js "')"))
  | VObj o => Ok (default VUndefined (lookup_prop o k))
  | _ => Ok VUndefined
  end.

(** [v?.k]. *)
Definition get_opt (v : value) (k : jsstring) : value :=
  match v with
  | VObj o => default VUndefined (lookup_prop o k)
  | _ => VUndefined
  end.

(** A field of a record, [undefined] when absent. *)
Definition field (o : object) (k : jsstring) : value :=
  default VUndefined (lookup_prop o k).

(** ToString. *)
Fixpoint to_string (v : value) : jsstring :=
  match v with
  | VUndefined => js "undefined"
  | VNull => js "null"
  | VBool true => js "true"
  | VBool false => js "false"
  | VNum n => Z_to_string n
  | VStr s => s
  | VArr l =>
    join [44] (map (fun x => match x with
                             | VUndefined | VNull => []
                             | _ => to_string x
                             end) l)
  | VObj _ => js "[object Object]"
  end.

(** [v.startsWith(p)] for an arbitrary [v]: only strings have the method. *)
Definition call_startsWith (v : value) (name p : jsstring) : result bool :=
  match v with
  | VStr s => Ok (startsWith s p)
  | _ => Throw (mkError TypeError (name ++ js ".startsWith is not a function"))
  end.

(** ** encodeURIComponent *)

Definition utf8_encode (cp : N) : list N :=
  if cp <? 0x80 then [cp]
  else if cp <? 0x800 then
    [N.lor 0xC0 (N.shiftr cp 6); N.lor 0x80 (N.land cp 0x3F)]
  else if cp <? 0x10000 then
    [N.lor 0xE0 (N.shiftr cp 12); N.lor 0x80 (N.land (N.shiftr cp 6) 0x3F);
     N.lor 0x80 (N.land cp 0x3F)]
  else
    [N.lor 0xF0 (N.shiftr cp 18); N.lor 0x80 (N.land (N.shiftr cp 12) 0x3F);
     N.lor 0x80 (N.land (N.shiftr cp 6) 0x3F); N.lor 0x80 (N.land cp 0x3F)].

Definition percent (b : N) : jsstring :=
  [37; hex_upper (N.shiftr b 4); hex_upper (N.land b 0xF)].

Definition is_alnum (c : N) : bool :=
  ((48 <=? c) && (c <=? 57)) || ((65 <=? c) && (c <=? 90)) || ((97 <=? c) && (c <=? 122)).

(** The characters [encodeURIComponent] leaves alone: alphanumerics and
    [- _ . ! ~ * ' ( )]. *)
Definition uri_unreserved (c : N) : bool :=
  is_alnum c || bool_decide (c ∈ [45; 95; 46; 33; 126; 42; 39; 40; 41]).

Fixpoint encode_units (s : jsstring) : option jsstring :=
  match s with
  | [] => Some []
  | c :: r =>
    if uri_unreserved c then cons c <$> encode_units r
    else if is_low_surrogate c then None
    else if is_high_surrogate c then
      match r with
      | d :: r' =>
        if is_low_surrogate d then
          let cp := 0x10000 + N.shiftl (c - 0xD800) 10 + (d - 0xDC00) in
          app (flat_map percent (utf8_encode cp)) <$> encode_units r'
        else None
      | [] => None
      end
    else app (flat_map percent (utf8_encode c)) <$> encode_units r
  end.

Definition encodeURIComponent (v : value) : result jsstring :=
  match encode_units (to_string v) with
  | Some s => Ok s
  | None => Throw (mkError URIError (js "URI malformed"))
  end.

(** ** JSON *)

Module JSON.

Definition is_ws (c : N) : bool :=
  (c =? 32) || (c =? 10) || (c =? 13) || (c =? 9).

Definition is_digit (c : N) : bool := (48 <=? c) && (c <=? 57).

Definition hex4 (c : N) : jsstring :=
  [hex_lower (N.shiftr c 12 mod 16); hex_lower (N.shiftr c 8 mod 16);
   hex_lower (N.shiftr c 4 mod 16); hex_lower (c mod 16)].

(** One code unit of QuoteJSONString that is not half of a surrogate pair. *)
Definition quote_unit (c : N) : jsstring :=
  if c =? 8 then [92; 98]
  else if c =? 9 then [92; 116]
  else if c =? 10 then [92; 110]
  else if c =? 12 then [92; 102]
  else if c =? 13 then [92; 114]
  else if c =? 34 then [92; 34]
  else if c =? 92 then [92; 92]
  else if (c <? 32) || is_surrogate c then 92 :: 117 :: hex4 c
  else [c].

Fixpoint quote_body (s : jsstring) : jsstring :=
  match s with
  | [] => []
  | c :: r =>
    if is_high_surrogate c then
      match r with
      | d :: r' =>
        if is_low_surrogate d then c :: d :: quote_body r'
        else quote_unit c ++ quote_body r
      | [] => quote_unit c
      end
    else quote_unit c ++ quote_body r
  end.

(** QuoteJSONString. *)
Definition quote (s : jsstring) : jsstring := 34 :: quote_body s ++ [34].

(** The indentation at nesting depth [d] with a gap of two spaces. *)
Definition indent (d : nat) : jsstring := repeat 32 (2 * d).

(** The closing steps of SerializeJSONArray and SerializeJSONObject. *)
Definition wrap (opening closing : N) (d : nat) (parts : list jsstring) : jsstring :=
  match parts with
  | [] => [opening; closing]
  | _ =>
    opening :: 10 :: indent (S d) ++ join (44 :: 10 :: indent (S d)) parts
      ++ 10 :: indent d ++ [closing]
  end.

(** SerializeJSONProperty at depth [d]; [None] is [undefined]. *)
Fixpoint serialize (d : nat) (v : value) : option jsstring :=
  match v with
  | VUndefined => None
  | VNull => Some (js "null")
  | VBool true => Some (js "true")
  | VBool false => Some (js "false")
  | VNum n => Some (Z_to_string n)
  | VStr s => Some (quote s)
  | VArr l =>
    Some (wrap 91 93 d (map (fun x => default (js "null") (serialize (S d) x)) l))
  | VObj ps =>
    Some (wrap 123 125 d
      ((fix members (ps : object) : list jsstring :=
          match ps with
          | [] => []
          | (k, x) :: ps' =>
            match serialize (S d) x with
            | Some t => (quote k ++ 58 :: 32 :: t) :: members ps'
            | None => members ps'
            end
          end) ps))
  end.

(** [JSON.stringify(v, null, 2)]. *)
Definition stringify (v : value) : option jsstring := serialize 0 v.

Fixpoint skip_ws (s : jsstring) : jsstring :=
  match s with
  | c :: r => if is_ws c then skip_ws r else s
  | [] => []
  end.

Definition hex_val (c : N) : option N :=
  if (48 <=? c) && (c <=? 57) then Some (c - 48)
  else if (97 <=? c) && (c <=? 102) then Some (c - 87)
  else if (65 <=? c) && (c <=? 70) then Some (c - 55)
  else None.

Definition simple_escape (e : N) : option N :=
  if e =? 34 then Some 34
  else if e =? 92 then Some 92
  else if e =? 47 then Some 47
  else if e =? 98 then Some 8
  else if e =? 102 then Some 12
  else if e =? 110 then Some 10
  else if e =? 114 then Some 13
  else if e =? 116 then Some 9
  else None.

(** The characters of a string literal after its opening quote. *)
Fixpoint parse_string_body (s : jsstring) : option (jsstring * jsstring) :=
  match s with
  | [] => None
  | c :: r =>
    if c =? 34 then Some ([], r)
    else if c =? 92 then
      match r with
      | [] => None
      | e :: r' =>
        if e =? 117 then
          match r' with
          | h1 :: h2 :: h3 :: h4 :: r'' =>
            a ← hex_val h1; b ← hex_val h2; c' ← hex_val h3; d ← hex_val h4;
            '(t, rest) ← parse_string_body r'';
            Some (((a * 16 + b) * 16 + c') * 16 + d :: t, rest)
          | _ => None
          end
        else
          u ← simple_escape e;
          '(t, rest) ← parse_string_body r';
          Some (u :: t, rest)
      end
    else if c <? 32 then None
    else '(t, rest) ← parse_string_body r; Some (c :: t, rest)
  end.

Fixpoint parse_digits (acc : N) (s : jsstring) : N * jsstring :=
  match s with
  | c :: r => if is_digit c then parse_digits (acc * 10 + (c - 48)) r else (acc, s)
  | [] => (acc, [])
  end.

(** A fraction or an exponent follows: such a number is not an integer
    and is outside the numbers of the model. *)
Definition continues_number (s : jsstring) : bool :=
  match s with
  | c :: _ => (c =? 46) || (c =? 101) || (c =? 69)
  | [] => false
  end.

(** An integer literal without its sign: [0] or a digit sequence that does
    not start with [0]. *)
Definition parse_int (s : jsstring) : option (N * jsstring) :=
  match s with
  | c :: r =>
    if c =? 48 then (if continues_number r then None else Some (0, r))
    else if is_digit c then
      let '(n, rest) := parse_digits 0 s in
      if continues_number rest then None else Some (n, rest)
    else None
  | [] => None
  end.

Definition parse_number (s : jsstring) : option (value * jsstring) :=
  match s with
  | c :: r =>
    if c =? 45 then '(n, rest) ← parse_int r; Some (VNum (- Z.of_N n), rest)
    else '(n, rest) ← parse_int s; Some (VNum (Z.of_N n), rest)
  | [] => None
  end.

(** The rest of [s] after the character [c]. *)
Definition expect (c : N) (s : jsstring) : option jsstring :=
  match s with
  | c' :: r => if c' =? c then Some r else None
  | [] => None
  end.

Fixpoint strip_prefix (p s : jsstring) : option jsstring :=
  match p, s with
  | [], _ => Some s
  | c :: p', d :: s' => if c =? d then strip_prefix p' s' else None
  | _ :: _, [] => None
  end.

Abbreviation parser A := (jsstring -> option (A * jsstring)).

(** The elements of an array after the first check for [[]]. *)
Fixpoint parse_elems (pv : parser value) (fuel : nat) (s : jsstring)
  : option (list value * jsstring) :=
  match fuel with
  | O => None
  | S fuel' =>
    '(v, r) ← pv s;
    match skip_ws r with
    | c :: r' =>
      if c =? 44 then '(vs, r'') ← parse_elems pv fuel' r'; Some (v :: vs, r'')
      else if c =? 93 then Some ([v], r')
      else None
    | [] => None
    end
  end.

(** The members of an object; a repeated key overwrites. *)
Fixpoint parse_members (pv : parser value) (fuel : nat) (acc : object) (s : jsstring)
  : option (object * jsstring) :=
  match fuel with
  | O => None
  | S fuel' =>
    r ← expect 34 (skip_ws s);
    '(k, r1) ← parse_string_body r;
    r2 ← expect 58 (skip_ws r1);
    '(v, r3) ← pv r2;
    match skip_ws r3 with
    | c :: r4 =>
      if c =? 44 then parse_members pv fuel' (obj_set acc k v) r4
      else if c =? 125 then Some (obj_set acc k v, r4)
      else None
    | [] => None
    end
  end.

Fixpoint parse_value (fuel : nat) (s : jsstring) : option (value * jsstring) :=
  match fuel with
  | O => None
  | S fuel' =>
    match skip_ws s with
    | [] => None
    | c :: r =>
      if c =? 123 then
        match expect 125 (skip_ws r) with
        | Some r' => Some (VObj [], r')
        | None => '(o, r') ← parse_members (parse_value fuel') fuel' [] r; Some (VObj o, r')
        end
      else if c =? 91 then
        match expect 93 (skip_ws r) with
        | Some r' => Some (VArr [], r')
        | None => '(l, r') ← parse_elems (parse_value fuel') fuel' r; Some (VArr l, r')
        end
      else if c =? 34 then
        '(t, r') ← parse_string_body r; Some (VStr t, r')
      else if c =? 116 then
        r' ← strip_prefix (js "true") (c :: r); Some (VBool true, r')
      else if c =? 102 then
        r' ← strip_prefix (js "false") (c :: r); Some (VBool false, r')
      else if c =? 110 then
        r' ← strip_prefix (js "null") (c :: r); Some (VNull, r')
      else parse_number (c :: r)
    end
  end.

(** [JSON.parse]; [None] is a SyntaxError. *)
Definition parse (s : jsstring) : option value :=
  match parse_value (S (length s)) s with
  | Some (v, r) => match skip_ws r with [] => Some v | _ => None end
  | None => None
  end.

(** What a value becomes by being serialised and parsed again: [undefined]
    elements become [null], [undefined] properties disappear. *)
Fixpoint normalize (v : value) : value :=
  match v with
  | VArr l =>
    VArr (map (fun x => match x with VUndefined => VNull | _ => normalize x end) l)
  | VObj ps =>
    VObj (obj_lit
      ((fix members (ps : object) : object :=
          match ps with
          | [] => []
          | (k, x) :: ps' =>
            match x with
            | VUndefined => members ps'
            | _ => (k, normalize x) :: members ps'
            end
          end) ps))
  | _ => v
  end.

End JSON.

(** ** The world of a process *)

(** What the network does to the next call of the remote store: the call
    goes through, or it resolves to an [{ error }] result, or its promise
    rejects. *)
Inductive net_outcome :=
| NetOk
| NetError (msg : jsstring)
| NetThrow (msg : jsstring).

(** A file received in a multipart request. *)
Record upload_file := mkFile {
  originalname : jsstring;
  mimetype : jsstring;
  buffer : list byte
}.

Record config := mkConfig {
  SUPABASE_URL : value;
  SUPABASE_SERVICE_KEY : value
}.

Record world := mkWorld {
  env : config;
  files : gmap jsstring jsstring;
  tables : gmap jsstring (list object);
  bucket : gmap jsstring upload_file;
  net : list net_outcome;
  clock : nat -> jsstring;
  calendar : nat -> jsstring;
  ticks : nat;
  entropy : nat -> byte;
  drawn : nat;
  stdout : list jsstring;
  stderr : list jsstring
}.

Definition set_files (f : gmap jsstring jsstring) (w : world) : world :=
  mkWorld (env w) f (tables w) (bucket w) (net w) (clock w) (calendar w)
    (ticks w) (entropy w) (drawn w) (stdout w) (stderr w).
Definition set_tables (t : gmap jsstring (list object)) (w : world) : world :=
  mkWorld (env w) (files w) t (bucket w) (net w) (clock w) (calendar w)
    (ticks w) (entropy w) (drawn w) (stdout w) (stderr w).
Definition set_bucket (b : gmap jsstring upload_file) (w : world) : world :=
  mkWorld (env w) (files w) (tables w) b (net w) (clock w) (calendar w)
    (ticks w) (entropy w) (drawn w) (stdout w) (stderr w).
Definition set_net (n : list net_outcome) (w : world) : world :=
  mkWorld (env w) (files w) (tables w) (bucket w) n (clock w) (calendar w)
    (ticks w) (entropy w) (drawn w) (stdout w) (stderr w).
Definition set_ticks (n : nat) (w : world) : world :=
  mkWorld (env w) (files w) (tables w) (bucket w) (net w) (clock w) (calendar w)
    n (entropy w) (drawn w) (stdout w) (stderr w).
Definition set_drawn (n : nat) (w : world) : world :=
  mkWorld (env w) (files w) (tables w) (bucket w) (net w) (clock w) (calendar w)
    (ticks w) (entropy w) n (stdout w) (stderr w).
Definition set_stdout (l : list jsstring) (w : world) : world :=
  mkWorld (env w) (files w) (tables w) (bucket w) (net w) (clock w) (calendar w)
    (ticks w) (entropy w) (drawn w) l (stderr w).
Definition set_stderr (l : list jsstring) (w : world) : world :=
  mkWorld (env w) (files w) (tables w) (bucket w) (net w) (clock w) (calendar w)
    (ticks w) (entropy w) (drawn w) (stdout w) l.

(** ** The monad of effects: state, and exceptions that keep the state *)

Definition M (A : Type) : Type := world -> result A * world.

#[global] Instance M_ret : MRet M := fun A a w => (Ok a, w).
#[global] Instance M_bind : MBind M := fun A B f m w =>
  match m w with
  | (Ok a, w') => f a w'
  | (Throw e, w') => (Throw e, w')
  end.

Definition throw {A} (e : error) : M A := fun w => (Throw e, w).
Definition lift {A} (r : result A) : M A := fun w => (r, w).
Definition gets {A} (f : world -> A) : M A := fun w => (Ok (f w), w).
Definition modify (f : world -> world) : M unit := fun w => (Ok tt, f w).

(** [try { m } catch (e) { h e }]. *)
Definition try_catch {A} (m : M A) (h : error -> M A) : M A := fun w =>
  match m w with
  | (Ok a, w') => (Ok a, w')
  | (Throw e, w') => h e w'
  end.

(** [for (const x of l) { await f x }]. *)
Fixpoint for_each (l : list value) (f : value -> M unit) : M unit :=
  match l with
  | [] => mret tt
  | x :: l' => f x;; for_each l' f
  end.

Definition console_log (line : jsstring) : M unit :=
  modify (fun w => set_stdout (stdout w ++ [line]) w).
Definition console_warn (line : jsstring) : M unit :=
  modify (fun w => set_stderr (stderr w ++ [line]) w).
Definition console_error (line : jsstring) : M unit := console_warn line.

(** [new Date().toISOString()]. *)
Definition now_iso : M jsstring := fun w =>
  (Ok (clock w (ticks w)), set_ticks (S (ticks w)) w).

(** [new Date().toLocaleDateString('en-US', { month: 'short', ... })]. *)
Definition now_short_date : M jsstring := fun w =>
  (Ok (calendar w (ticks w)), set_ticks (S (ticks w)) w).

(** ** The uuid package *)

Definition byte_hex (b : N) : jsstring :=
  [hex_lower (N.shiftr b 4); hex_lower (N.land b 0xF)].

(** [v4()] on its sixteen random bytes: the version and variant bits are
    set, then the bytes are written in hexadecimal, 8-4-4-4-12. *)
Definition uuid_of_bytes (rnds : list N) : jsstring :=
  let b i := nth i rnds 0 in
  let b6 := N.lor (N.land (b 6%nat) 0x0F) 0x40 in
  let b8 := N.lor (N.land (b 8%nat) 0x3F) 0x80 in
  byte_hex (b 0%nat) ++ byte_hex (b 1%nat) ++ byte_hex (b 2%nat) ++ byte_hex (b 3%nat)
    ++ 45 :: byte_hex (b 4%nat) ++ byte_hex (b 5%nat)
    ++ 45 :: byte_hex b6 ++ byte_hex (b 7%nat)
    ++ 45 :: byte_hex b8 ++ byte_hex (b 9%nat)
    ++ 45 :: byte_hex (b 10%nat) ++ byte_hex (b 11%nat) ++ byte_hex (b 12%nat)
    ++ byte_hex (b 13%nat) ++ byte_hex (b 14%nat) ++ byte_hex (b 15%nat).

Definition uuidv4 : M jsstring := fun w =>
  (Ok (uuid_of_bytes (map (fun i => Byte.to_N (entropy w (drawn w + i)%nat)) (seq 0 16))),
   set_drawn (drawn w + 16)%nat w).

(** ** Paths and the file system *)

Fixpoint split_aux (sep : N) (s cur : jsstring) : list jsstring :=
  match s with
  | [] => [rev cur]
  | c :: r => if c =? sep then rev cur :: split_aux sep r [] else split_aux sep r (c :: cur)
  end.

(** [s.split(sep)] for a separator of one character. *)
Definition split (sep : N) (s : jsstring) : list jsstring := split_aux sep s [].

Fixpoint resolve_segments (segs stack : list jsstring) : list jsstring :=
  match segs with
  | [] => rev stack
  | seg :: segs' =>
    if bool_decide (seg = [] \/ seg = [46]) then resolve_segments segs' stack
    else if bool_decide (seg = [46; 46]) then
      match stack with
      | top :: stack' =>
        if bool_decide (top = [46; 46]) then resolve_segments segs' (seg :: stack)
        else resolve_segments segs' stack'
      | [] => resolve_segments segs' [seg]
      end
    else resolve_segments segs' (seg :: stack)
  end.

(** [path.join(__dirname, ...parts)], as a path relative to [__dirname]. *)
Definition path_join (parts : list jsstring) : jsstring :=
  let joined := join [47] (filter (fun p => p <> []) parts) in
  let body := join [47] (resolve_segments (split 47 joined) []) in
  match body with
  | [] => []
  | _ => if endsWith joined [47] then body ++ [47] else body
  end.

Definition enoent (syscall path : jsstring) : error :=
  mkError SystemError
    (js "ENOENT: no such file or directory, " ++ syscall ++ js " '" ++ path ++ js "'").

(** [fs.readFileSync(path, 'utf8')]. *)
Definition readFileSync (path : jsstring) : M jsstring := fun w =>
  match files w !! path with
  | Some s => (Ok s, w)
  | None => (Throw (enoent (js "open") path), w)
  end.

(** [fs.writeFileSync(path, data)]. *)
Definition writeFileSync (path : jsstring) (data : option jsstring) : M unit :=
  match data with
  | Some s => modify (fun w => set_files (<[path := s]> (files w)) w)
  | None =>
    throw (mkError TypeError
      (js "The " ++ 34 :: js "data" ++ 34 :: js " argument must be of type string or an instance of Buffer, TypedArray, or DataView. Received undefined"))
  end.

(** [fs.unlinkSync(path)]. *)
Definition unlinkSync (path : jsstring) : M unit := fun w =>
  match files w !! path with
  | Some _ => (Ok tt, set_files (delete path (files w)) w)
  | None => (Throw (enoent (js "unlink") path), w)
  end.

(** [JSON.parse(text)]. *)
Definition JSON_parse (text : jsstring) : M value :=
  match JSON.parse text with
  | Some v => mret v
  | None => throw (mkError SyntaxError (js "Unexpected token in JSON"))
  end.

(** ** server.js: helper functions *)

Definition useSupabase (w : world) : bool :=
  truthy (js_and (SUPABASE_URL (env w)) (SUPABASE_SERVICE_KEY (env w))).

(** <<
const readData = (filename) => {
    try {
        return JSON.parse(fs.readFileSync(path.join(__dirname, 'data', filename), 'utf8'));
    } catch (err) {
        return [];
    }
};
>> *)
Definition readData (filename : jsstring) : M value :=
  try_catch
    (text ← readFileSync (path_join [js "data"; filename]); JSON_parse text)
    (fun err => mret (VArr [])).

(** <<
const writeData = (filename, data) => {
    fs.writeFileSync(path.join(__dirname, 'data', filename), JSON.stringify(data, null, 2));
};
>> *)
Definition writeData (filename : jsstring) (data : value) : M unit :=
  writeFileSync (path_join [js "data"; filename]) (JSON.stringify data).

(** ** The remote store

    A table is a sequence of rows with [id] as its primary key; a payload
    reaches the store as JSON, so its [undefined] fields are not sent. *)

Record reply := mkReply { data : value; error_of : option error }.

Definition wire (row : object) : object :=
  match JSON.normalize (VObj row) with
  | VObj o => o
  | _ => []
  end.

Definition table (t : jsstring) (w : world) : list object :=
  default [] (tables w !! t).

Definition set_table (t : jsstring) (rows : list object) : M unit :=
  modify (fun w => set_tables (<[t := rows]> (tables w)) w).

Definition row_matches (col : jsstring) (x : value) (row : object) : bool :=
  strict_eq (field row col) x.

(** The answer of the network to the next call. *)
Definition net_next : M (option error) := fun w =>
  match net w with
  | [] => (Ok None, w)
  | NetOk :: r => (Ok None, set_net r w)
  | NetError msg :: r => (Ok (Some (mkError PlainError msg)), set_net r w)
  | NetThrow msg :: r => (Throw (mkError PlainError msg), set_net r w)
  end.

Definition failed (e : error) : reply := mkReply VNull (Some e).
Definition store_error (msg : string) : reply := failed (mkError PlainError (js msg)).

Definition has_key (row : object) : bool :=
  match field row (js "id") with
  | VUndefined | VNull => false
  | _ => true
  end.

(** [from(t).select(cols).eq(col, x).single()]. *)
Definition remote_select_single (t : jsstring) (cols : option (list jsstring))
    (col : jsstring) (x : value) : M reply :=
  e ← net_next;
  match e with
  | Some err => mret (failed err)
  | None =>
    rows ← gets (table t);
    match List.filter (row_matches col x) rows with
    | [row] =>
      mret (mkReply
        (VObj match cols with
              | None => row
              | Some cs => map (fun c => (c, default VNull (lookup_prop row c))) cs
              end) None)
    | _ => mret (store_error "JSON object requested, multiple (or no) rows returned")
    end
  end.

(** [from(t).insert([row]).select().single()]. *)
Definition remote_insert (t : jsstring) (row : object) : M reply :=
  e ← net_next;
  match e with
  | Some err => mret (failed err)
  | None =>
    rows ← gets (table t);
    let row' := wire row in
    if negb (has_key row') then
      mret (store_error "null value in column id violates not-null constraint")
    else if existsb (row_matches (js "id") (field row' (js "id"))) rows then
      mret (store_error "duplicate key value violates unique constraint")
    else set_table t (rows ++ [row']);; mret (mkReply (VObj row') None)
  end.

(** [from(t).update(patch).eq(col, x).select().single()]. *)
Definition remote_update (t : jsstring) (patch : object) (col : jsstring) (x : value)
    : M reply :=
  e ← net_next;
  match e with
  | Some err => mret (failed err)
  | None =>
    rows ← gets (table t);
    match List.filter (row_matches col x) rows with
    | [row] =>
      let row' := obj_assign row (wire patch) in
      set_table t (map (fun r => if row_matches col x r then row' else r) rows);;
      mret (mkReply (VObj row') None)
    | _ => mret (store_error "JSON object requested, multiple (or no) rows returned")
    end
  end.

(** [from(t).delete().eq(col, x)]. *)
Definition remote_delete (t : jsstring) (col : jsstring) (x : value) : M reply :=
  e ← net_next;
  match e with
  | Some err => mret (failed err)
  | None =>
    rows ← gets (table t);
    set_table t (List.filter (fun r => negb (row_matches col x r)) rows);;
    mret (mkReply VNull None)
  end.

(** [from(t).upsert([row])]: insert, or update the row of the same [id]. *)
Definition remote_upsert (t : jsstring) (row : object) : M reply :=
  e ← net_next;
  match e with
  | Some err => mret (failed err)
  | None =>
    rows ← gets (table t);
    let row' := wire row in
    let k := field row' (js "id") in
    if negb (has_key row') then
      mret (store_error "null value in column id violates not-null constraint")
    else if existsb (row_matches (js "id") k) rows then
      set_table t
        (map (fun r => if row_matches (js "id") k r then obj_assign r row' else r) rows);;
      mret (mkReply VNull None)
    else set_table t (rows ++ [row']);; mret (mkReply VNull None)
  end.

(** [storage.from('product-images').upload(path, buffer, ...)]. *)
Definition storage_upload (path : jsstring) (f : upload_file) : M reply :=
  e ← net_next;
  match e with
  | Some err => mret (failed err)
  | None =>
    b ← gets bucket;
    match b !! path with
    | Some _ => mret (store_error "The resource already exists")
    | None =>
      modify (fun w => set_bucket (<[path := f]> (bucket w)) w);;
      mret (mkReply (VObj [(js "path", VStr path)]) None)
    end
  end.

(** [storage.from('product-images').getPublicUrl(path).data.publicUrl]. *)
Definition storage_public_url (path : jsstring) : M jsstring :=
  url ← gets (fun w => SUPABASE_URL (env w));
  mret (to_string url ++ js "/storage/v1/object/public/product-images/" ++ path).

(** [storage.from('product-images').remove([path])]. *)
Definition storage_remove (path : jsstring) : M reply :=
  e ← net_next;
  match e with
  | Some err => mret (failed err)
  | None =>
    modify (fun w => set_bucket (delete path (bucket w)) w);;
    mret (mkReply VNull None)
  end.

(** ** Requests and responses *)

Record request := mkRequest {
  session : option object;
  params_id : jsstring;
  body : object;
  upload : option upload_file
}.

Record response := mkResponse { status : N; payload : value }.

(** [res.json(v)] and [res.status(n).json(v)]. *)
Definition res_json (v : value) : response := mkResponse 200 v.
Definition res_status_json (n : N) (v : value) : response := mkResponse n v.

Definition error_body (msg : jsstring) : value := VObj [(js "error", VStr msg)].

(** [if (error) throw error]. *)
Definition throw_if_error (r : reply) : M unit :=
  match error_of r with
  | Some e => throw e
  | None => mret tt
  end.

(** ** server.js: uploads *)

(** [req.file.filename]: the storage is [multer.memoryStorage()], whose
    files have a [buffer] and no [filename]. *)
Definition file_filename (f : upload_file) : value := VUndefined.

Definition to_lower (s : jsstring) : jsstring :=
  map (fun c => if (65 <=? c) && (c <=? 90) then c + 32 else c) s.

Fixpoint drop_slashes (s : jsstring) : jsstring :=
  match s with
  | 47 :: r => drop_slashes r
  | _ => s
  end.

Fixpoint take_until (x : N) (s : jsstring) : jsstring * option jsstring :=
  match s with
  | [] => ([], None)
  | c :: r =>
    if c =? x then ([], Some r)
    else let '(a, b) := take_until x r in (c :: a, b)
  end.

(** [path.extname]: from the last dot of the last segment, unless that
    dot starts the segment or the segment is [..]. *)
Definition extname (s : jsstring) : jsstring :=
  let rbase := (take_until 47 (drop_slashes (rev s))).1 in
  match take_until 46 rbase with
  | (_, None) => []
  | (_, Some []) => []
  | (rext, Some _) =>
    if bool_decide (rbase = [46; 46]) then [] else 46 :: rev rext
  end.

(** [/jpeg|jpg|png|gif|webp/.test(s)]. *)
Definition allowedTypes (s : jsstring) : bool :=
  existsb (contains s) [js "jpeg"; js "jpg"; js "png"; js "gif"; js "webp"].

(** <<
fileFilter: (req, file, cb) => {
    if (!file) return cb(null, true);
    const allowedTypes = /jpeg|jpg|png|gif|webp/;
    const extname = allowedTypes.test(path.extname(file.originalname).toLowerCase());
    const mimetype = allowedTypes.test(file.mimetype);
    if (extname && mimetype) return cb(null, true);
    cb(new Error('Only image files are allowed!'));
}
>> *)
Definition fileFilter (file : upload_file) : result bool :=
  let extname_ok := allowedTypes (to_lower (extname (originalname file))) in
  let mimetype_ok := allowedTypes (mimetype file) in
  if extname_ok && mimetype_ok then Ok true
  else Throw (mkError PlainError (js "Only image files are allowed!")).

Definition fileSize_limit : nat := 5 * 1024 * 1024.

(** [upload.single('image')] followed by the rest of the route; an error of
    the upload goes to the error handler at the end of the file:
<<
app.use((err, req, res, next) => {
    console.error(err.message);
    res.status(500).json({ error: err.message });
});
>> *)
Definition upload_single (req : request) (next : option upload_file -> M response)
    : M response :=
  let rejected (e : error) : M response :=
    console_error (message e);;
    mret (res_status_json 500 (error_body (message e))) in
  match upload req with
  | None => next None
  | Some f =>
    match fileFilter f with
    | Throw e => rejected e
    | Ok _ =>
      if decide (length (buffer f) <= fileSize_limit)%nat then next (Some f)
      else rejected (mkError PlainError (js "File too large"))
    end
  end.

(** <<
async function uploadToSupabase(buffer, originalName, mimeType) {
    if (!supabaseClient) throw new Error('Supabase not configured');
    const fileId = uuidv4();
    const ext = path.extname(originalName);
    const filePath = `products/${fileId}${ext}`;
    const { data, error } = await supabaseClient.storage
        .from('product-images')
        .upload(filePath, buffer, { contentType: mimeType });
    if (error) throw error;
    const { data: urlData } = supabaseClient.storage
        .from('product-images')
        .getPublicUrl(filePath);
    return urlData.publicUrl;
}
>> *)
Definition uploadToSupabase (f : upload_file) : M jsstring :=
  use ← gets useSupabase;
  if negb use then throw (mkError PlainError (js "Supabase not configured"))
  else
    fileId ← uuidv4;
    let ext := extname (originalname f) in
    let filePath := js "products/" ++ fileId ++ ext in
    r ← storage_upload filePath f;
    throw_if_error r;;
    storage_public_url filePath.

(** [parts.slice(-2)]. *)
Definition last_two (l : list jsstring) : list jsstring :=
  drop (length l - 2) l.

(** <<
async function deleteFromSupabase(imageUrl) {
    if (!supabaseClient || !imageUrl) return;
    try {
        const parts = imageUrl.split('/');
        const filename = parts.slice(-2).join('/');
        await supabaseClient.storage.from('product-images').remove([filename]);
    } catch (err) {
        console.warn('Could not delete image:', err.message);
    }
}
>> *)
Definition deleteFromSupabase (imageUrl : value) : M unit :=
  use ← gets useSupabase;
  if negb use || negb (truthy imageUrl) then mret tt
  else
    try_catch
      (parts ← lift match imageUrl with
                    | VStr s => Ok (split 47 s)
                    | _ => Throw (mkError TypeError (js "imageUrl.split is not a function"))
                    end;
       let filename := join [47] (last_two parts) in
       storage_remove filename;; mret tt)
      (fun err => console_warn (js "Could not delete image: " ++ message err)).

(** <<
const requireAuth = (req, res, next) => {
    if (req.session && req.session.userId) {
        next();
    } else {
        res.status(401).json({ error: 'Unauthorized. Please login.' });
    }
};
>> *)
Definition authenticated (req : request) : bool :=
  match session req with
  | Some s => truthy (field s (js "userId"))
  | None => false
  end.

Definition requireAuth (req : request) (next : M response) : M response :=
  if authenticated req then next
  else mret (res_status_json 401 (error_body (js "Unauthorized. Please login."))).

(** The [catch] block of every route. *)
Definition catch_500 (err : error) : M response :=
  mret (res_status_json 500 (error_body (message err))).

(** ** server.js: array methods on the value read from a file *)

(** The receiver of [name.method(...)]. *)
Definition method_target (v : value) (name method : jsstring) : result (list value) :=
  match v with
  | VArr l => Ok l
  | VUndefined =>
    Throw (mkError TypeError
      (js "Cannot read properties of undefined (reading '" ++ method ++ js "')"))
  | VNull =>
    Throw (mkError TypeError
      (js "Cannot read properties of null (reading '" ++ method ++ js "')"))
  | _ => Throw (mkError TypeError (name ++ 46 :: method ++ js " is not a function"))
  end.

(** [p => p.id === id]. *)
Definition id_is (id : jsstring) (p : value) : result bool :=
  x ← get p (js "id"); Ok (strict_eq x (VStr id)).

(** [p => p.id !== id]. *)
Definition id_is_not (id : jsstring) (p : value) : result bool :=
  x ← get p (js "id"); Ok (negb (strict_eq x (VStr id))).

(** [l.findIndex(f)]; [None] is [-1]. *)
Fixpoint findIndex (f : value -> result bool) (l : list value) : result (option nat) :=
  match l with
  | [] => Ok None
  | x :: l' =>
    b ← f x;
    if b : bool then Ok (Some O)
    else i ← findIndex f l'; Ok (option_map S i)
  end.

(** [l.find(f)]. *)
Fixpoint find (f : value -> result bool) (l : list value) : result value :=
  match l with
  | [] => Ok VUndefined
  | x :: l' => b ← f x; if b : bool then Ok x else find f l'
  end.

(** [l.filter(f)]. *)
Fixpoint filter_values (f : value -> result bool) (l : list value) : result (list value) :=
  match l with
  | [] => Ok []
  | x :: l' =>
    b ← f x;
    rest ← filter_values f l';
    Ok (if b : bool then x :: rest else rest)
  end.

(** [{ ...v }]. *)
Definition spread (v : value) : object :=
  match v with
  | VObj o => o
  | VArr l => imap (fun i x => (digits (N.of_nat i), x)) l
  | VStr s => imap (fun i c => (digits (N.of_nat i), VStr [c])) s
  | _ => []
  end.

(** [v.k = x]; a write to a primitive is dropped. *)
Definition set_prop (v : value) (k : jsstring) (x : value) : value :=
  match v with
  | VObj o => VObj (obj_set o k x)
  | _ => v
  end.

(** The removal of an image of the local [public/uploads] directory:
<<
if (image && image.startsWith('/uploads/')) {
    try { fs.unlinkSync(path.join(__dirname, 'public', image)); } catch (e) {}
}
>> *)
Definition unlink_local_image (image : value) (name : jsstring) : M unit :=
  if truthy image then
    b ← lift (call_startsWith image name (js "/uploads/"));
    if b : bool then
      try_catch (unlinkSync (path_join [js "public"; to_string image]))
        (fun e => mret tt)
    else mret tt
  else mret tt.

Definition success_with (k : jsstring) (v : value) : response :=
  res_json (VObj [(js "success", VBool true); (k, v)]).

Definition deleted : response :=
  res_json (VObj [(js "success", VBool true); (js "message", VStr (js "Deleted"))]).

Definition not_found : response :=
  res_status_json 404 (error_body (js "Not found")).

(** ** server.js: the product routes *)

Definition whatsapp_prefix : jsstring :=
  js "https://wa.me/233501234567?text=Hello%20NK%20Solar%2C%20I%20want%20to%20buy%20".

(** [app.post('/api/products', requireAuth, upload.single('image'), ...)]. *)
Definition post_products_handler (req : request) (file : option upload_file) : M response :=
  try_catch
    (let title := field (body req) (js "title") in
     let price := field (body req) (js "price") in
     let description := field (body req) (js "description") in
     let whatsappLink := field (body req) (js "whatsappLink") in
     let imageUrl0 := js_or (field (body req) (js "image")) (VStr []) in
     use ← gets useSupabase;
     imageUrl ← match file with
                | Some f =>
                  if use : bool then url ← uploadToSupabase f; mret (VStr url) else mret imageUrl0
                | None => mret imageUrl0
                end;
     uuid ← uuidv4;
     let id := VStr (js "prod-" ++ substring0 8 uuid) in
     link ← (if truthy whatsappLink then mret whatsappLink
             else enc ← lift (encodeURIComponent title);
                  mret (VStr (whatsapp_prefix ++ enc)));
     createdAt ← now_iso;
     let newProduct :=
       VObj (obj_lit [(js "id", id); (js "title", title);
                      (js "price", js_or price (VStr []));
                      (js "description", js_or description (VStr []));
                      (js "image", imageUrl); (js "whatsappLink", link);
                      (js "createdAt", VStr createdAt)]) in
     if use : bool then
       created_at ← now_iso;
       r ← remote_insert (js "products")
             (obj_lit [(js "id", id); (js "title", title);
                       (js "price", js_or price (VStr []));
                       (js "description", js_or description (VStr []));
                       (js "image", imageUrl); (js "whatsapp_link", link);
                       (js "created_at", VStr created_at)]);
       throw_if_error r;;
       mret (success_with (js "product") (data r))
     else
       products ← readData (js "products.json");
       l ← lift (method_target products (js "products") (js "push"));
       writeData (js "products.json") (VArr (l ++ [newProduct]));;
       mret (success_with (js "product") newProduct))
    catch_500.

Definition post_products (req : request) : M response :=
  requireAuth req (upload_single req (post_products_handler req)).

(** [app.put('/api/products/:id', requireAuth, upload.single('image'), ...)]. *)
Definition put_products_handler (req : request) (file : option upload_file) : M response :=
  try_catch
    (let id := params_id req in
     let title := field (body req) (js "title") in
     let price := field (body req) (js "price") in
     let description := field (body req) (js "description") in
     let whatsappLink := field (body req) (js "whatsappLink") in
     use ← gets useSupabase;
     if use : bool then
       r ← remote_select_single (js "products") None (js "id") (VStr id);
       let existing := data r in
       if negb (truthy existing) then mret not_found
       else
         imageUrl0 ← lift (get existing (js "image"));
         imageUrl ← match file with
                    | Some f =>
                      (if truthy imageUrl0 then deleteFromSupabase imageUrl0 else mret tt);;
                      url ← uploadToSupabase f; mret (VStr url)
                    | None => mret imageUrl0
                    end;
         updated_at ← now_iso;
         r ← remote_update (js "products")
               (obj_lit [(js "title", title); (js "price", price);
                         (js "description", description); (js "image", imageUrl);
                         (js "whatsapp_link", whatsappLink);
                         (js "updated_at", VStr updated_at)])
               (js "id") (VStr id);
         throw_if_error r;;
         mret (success_with (js "product") (data r))
     else
       products ← readData (js "products.json");
       l ← lift (method_target products (js "products") (js "findIndex"));
       index ← lift (findIndex (id_is id) l);
       match index with
       | None => mret not_found
       | Some i =>
         l1 ← match file with
              | Some f =>
                let p := nth i l VUndefined in
                oldImage ← lift (get p (js "image"));
                unlink_local_image oldImage (js "oldImage");;
                mret (<[i := set_prop p (js "image")
                                (VStr (js "/uploads/" ++ to_string (file_filename f)))]> l)
              | None => mret l
              end;
         updatedAt ← now_iso;
         let p' :=
           VObj (obj_assign (spread (nth i l1 VUndefined))
                   [(js "title", title); (js "price", price);
                    (js "description", description); (js "whatsappLink", whatsappLink);
                    (js "updatedAt", VStr updatedAt)]) in
         writeData (js "products.json") (VArr (<[i := p']> l1));;
         mret (success_with (js "product") p')
       end)
    catch_500.

Definition put_products (req : request) : M response :=
  requireAuth req (upload_single req (put_products_handler req)).

(** The two [DELETE] routes differ in the names only: the table, the file
    and the variables [products]/[product] or [courses]/[course]. *)
Definition delete_handler (tbl file_name plural singular : jsstring) (req : request)
    : M response :=
  try_catch
    (let id := params_id req in
     use ← gets useSupabase;
     if use : bool then
       r ← remote_select_single tbl (Some [js "image"]) (js "id") (VStr id);
       let image := get_opt (data r) (js "image") in
       (if truthy image then deleteFromSupabase image else mret tt);;
       r ← remote_delete tbl (js "id") (VStr id);
       throw_if_error r;;
       mret deleted
     else
       records ← readData file_name;
       l ← lift (method_target records plural (js "find"));
       record ← lift (find (id_is id) l);
       unlink_local_image (get_opt record (js "image")) (singular ++ js ".image");;
       l' ← lift (filter_values (id_is_not id) l);
       writeData file_name (VArr l');;
       mret deleted)
    catch_500.

(** [app.delete('/api/products/:id', requireAuth, ...)]. *)
Definition delete_products (req : request) : M response :=
  requireAuth req
    (delete_handler (js "products") (js "products.json") (js "products") (js "product") req).

(** ** server.js: the course routes *)

Definition is_str_ws (c : N) : bool :=
  bool_decide (c ∈ [9; 10; 11; 12; 13; 32; 160; 0x1680; 0x2028; 0x2029; 0x202F;
                    0x205F; 0x3000; 0xFEFF])
  || ((0x2000 <=? c) && (c <=? 0x200A)).

Fixpoint trim_start (s : jsstring) : jsstring :=
  match s with
  | c :: r => if is_str_ws c then trim_start r else s
  | [] => []
  end.

Fixpoint read_radix (radix acc : N) (seen : bool) (s : jsstring) : option N :=
  match s with
  | c :: r =>
    match JSON.hex_val c with
    | Some d => if d <? radix then read_radix radix (acc * radix + d) true r
                else if seen then Some acc else None
    | None => if seen then Some acc else None
    end
  | [] => if seen then Some acc else None
  end.

(** [parseInt(v)]; [None] is [NaN]. *)
Definition parseInt (v : value) : option Z :=
  let s := trim_start (to_string v) in
  let '(neg, s1) := match s with
                    | 45 :: r => (true, r)
                    | 43 :: r => (false, r)
                    | _ => (false, s)
                    end in
  n ← match s1 with
      | 48 :: 120 :: r | 48 :: 88 :: r => read_radix 16 0 false r
      | _ => read_radix 10 0 false s1
      end;
  Some (if neg : bool then (- Z.of_N n)%Z else Z.of_N n).

(** [app.post('/api/courses', requireAuth, upload.single('image'), ...)]. *)
Definition post_courses_handler (req : request) (file : option upload_file) : M response :=
  try_catch
    (let title := field (body req) (js "title") in
     let date := field (body req) (js "date") in
     let comments := field (body req) (js "comments") in
     let description := field (body req) (js "description") in
     let content := field (body req) (js "content") in
     let imageUrl0 := js_or (field (body req) (js "image")) (VStr []) in
     use ← gets useSupabase;
     imageUrl ← match file with
                | Some f =>
                  if use : bool then url ← uploadToSupabase f; mret (VStr url) else mret imageUrl0
                | None => mret imageUrl0
                end;
     uuid ← uuidv4;
     let id := VStr (js "course-" ++ substring0 8 uuid) in
     date' ← (if truthy date then mret date else d ← now_short_date; mret (VStr d));
     let comments' := js_or (match parseInt comments with
                             | Some n => VNum n
                             | None => VNum 0
                             end) (VNum 0) in
     createdAt ← now_iso;
     let newCourse :=
       VObj (obj_lit [(js "id", id); (js "title", title); (js "date", date');
                      (js "comments", comments');
                      (js "description", js_or description (VStr []));
                      (js "content", js_or content (VStr []));
                      (js "image", imageUrl); (js "createdAt", VStr createdAt)]) in
     if use : bool then
       created_at ← now_iso;
       r ← remote_insert (js "courses")
             (obj_lit [(js "id", id); (js "title", title); (js "date", date');
                       (js "comments", comments'); (js "description", description);
                       (js "content", content); (js "image", imageUrl);
                       (js "created_at", VStr created_at)]);
       throw_if_error r;;
       mret (success_with (js "course") (data r))
     else
       courses ← readData (js "courses.json");
       l ← lift (method_target courses (js "courses") (js "push"));
       writeData (js "courses.json") (VArr (l ++ [newCourse]));;
       mret (success_with (js "course") newCourse))
    catch_500.

Definition post_courses (req : request) : M response :=
  requireAuth req (upload_single req (post_courses_handler req)).

(** [app.delete('/api/courses/:id', requireAuth, ...)]. *)
Definition delete_courses (req : request) : M response :=
  requireAuth req
    (delete_handler (js "courses") (js "courses.json") (js "courses") (js "course") req).

(** ** migrate-data.js *)

Fixpoint code_points (s : jsstring) : list jsstring :=
  match s with
  | [] => []
  | c :: r =>
    match r with
    | d :: r' =>
      if is_high_surrogate c && is_low_surrogate d then [c; d] :: code_points r'
      else [c] :: code_points r
    | [] => [[c]]
    end
  end.

(** The values [for (const x of v)] goes through. *)
Definition iterate (v : value) (name : jsstring) : result (list value) :=
  match v with
  | VArr l => Ok l
  | VStr s => Ok (map VStr (code_points s))
  | _ => Throw (mkError TypeError (name ++ js " is not iterable"))
  end.

(** [v.length] of what [iterate] accepted. *)
Definition length_of (v : value) : value :=
  match v with
  | VArr l => VNum (Z.of_nat (length l))
  | VStr s => VNum (Z.of_nat (length s))
  | _ => VUndefined
  end.

(** [x || new Date().toISOString()]. *)
Definition or_now (x : value) : M value :=
  if truthy x then mret x else t ← now_iso; mret (VStr t).

(** <<
for (const user of users) {
    await supabase.from('users').upsert([{
        id: user.id,
        username: user.username,
        password: user.password,
        role: user.role || 'admin',
        created_at: user.createdAt || new Date().toISOString()
    }]);
}
>> *)
Definition upsert_user (user : value) : M unit :=
  id ← lift (get user (js "id"));
  username ← lift (get user (js "username"));
  password ← lift (get user (js "password"));
  role ← lift (get user (js "role"));
  createdAt ← lift (get user (js "createdAt"));
  created_at ← or_now createdAt;
  remote_upsert (js "users")
    (obj_lit [(js "id", id); (js "username", username); (js "password", password);
              (js "role", js_or role (VStr (js "admin")));
              (js "created_at", created_at)]);;
  mret tt.

Definition upsert_product (product : value) : M unit :=
  id ← lift (get product (js "id"));
  title ← lift (get product (js "title"));
  price ← lift (get product (js "price"));
  description ← lift (get product (js "description"));
  image ← lift (get product (js "image"));
  whatsappLink ← lift (get product (js "whatsappLink"));
  createdAt ← lift (get product (js "createdAt"));
  created_at ← or_now createdAt;
  remote_upsert (js "products")
    (obj_lit [(js "id", id); (js "title", title);
              (js "price", js_or price (VStr []));
              (js "description", js_or description (VStr []));
              (js "image", js_or image (VStr []));
              (js "whatsapp_link", js_or whatsappLink (VStr []));
              (js "created_at", created_at)]);;
  mret tt.

Definition upsert_course (course : value) : M unit :=
  id ← lift (get course (js "id"));
  title ← lift (get course (js "title"));
  date ← lift (get course (js "date"));
  comments ← lift (get course (js "comments"));
  description ← lift (get course (js "description"));
  content ← lift (get course (js "content"));
  image ← lift (get course (js "image"));
  createdAt ← lift (get course (js "createdAt"));
  created_at ← or_now createdAt;
  remote_upsert (js "courses")
    (obj_lit [(js "id", id); (js "title", title);
              (js "date", js_or date (VStr []));
              (js "comments", js_or comments (VNum 0));
              (js "description", js_or description (VStr []));
              (js "content", js_or content (VStr []));
              (js "image", js_or image (VStr []));
              (js "created_at", created_at)]);;
  mret tt.

(** One of the three blocks of [migrate]:
<<
console.log('📦 Migrating users...');
try {
    const usersData = fs.readFileSync(path.join(DATA_DIR, 'users.json'), 'utf8');
    const users = JSON.parse(usersData);
    for (const user of users) { ... }
    console.log(`✓ Migrated ${users.length} users`);
} catch (e) {
    console.log('  No users.json or empty');
}
>> *)
Definition migrate_collection (name : jsstring) (upsert_one : value -> M unit) : M unit :=
  console_log (js "📦 Migrating " ++ name ++ js "...");;
  try_catch
    (text ← readFileSync (path_join [js "data"; name ++ js ".json"]);
     records ← JSON_parse text;
     l ← lift (iterate records name);
     for_each l upsert_one;;
     console_log (js "✓ Migrated " ++ to_string (length_of records) ++ 32 :: name))
    (fun e => console_log (js "  No " ++ name ++ js ".json or empty")).

Definition banner : jsstring := 10 :: js "✅ Migration complete!".

Definition migrate : M unit :=
  console_log (js "Starting migration..." ++ [10]);;
  migrate_collection (js "users") upsert_user;;
  migrate_collection (js "products") upsert_product;;
  migrate_collection (js "courses") upsert_course;;
  console_log banner.

(** The process: the configuration check at the head of the script, then
    [migrate().catch(console.error)]. The exit status is the argument of
    [process.exit], or zero when the script runs to its end. *)
Definition script (w : world) : world * N :=
  if negb (truthy (SUPABASE_URL (env w))) || negb (truthy (SUPABASE_SERVICE_KEY (env w)))
  then
    let '(_, w') :=
      (console_log (js "⚠️  Supabase not configured!");;
       console_log (js "Please add SUPABASE_URL and SUPABASE_SERVICE_KEY to .env file");;
       console_log (js "See SETUP.md for instructions.")) w in
    (w', 1)
  else
    let '(_, w') := try_catch migrate (fun e => console_error (message e)) w in
    (w', 0).

(** ** Vocabulary of the statements about JSON *)

Module JsonSpec.
Import JSON.

(** What may follow a number: not a digit, a point or an exponent. *)
Definition ends_number (rest : jsstring) : Prop :=
  match rest with
  | [] => True
  | c :: _ => is_digit c = false /\ continues_number rest = false
  end.

(** The text of an array element: an [undefined] element is written [null]. *)
Definition text (d : nat) (x : value) : jsstring := default (js "null") (serialize d x).

Definition norm_elem (x : value) : value :=
  match x with
  | VUndefined => VNull
  | _ => normalize x
  end.

Definition is_defined (x : value) : bool :=
  match x with
  | VUndefined => false
  | _ => true
  end.

Definition defined_props (ps : object) : object :=
  List.filter (fun kv => is_defined kv.2) ps.

Definition member_text (d : nat) (kv : jsstring * value) : jsstring :=
  quote kv.1 ++ 58 :: 32 :: text d kv.2.

(** A value that JSON represents: no [undefined] in it, the keys of every
    object distinct. *)
Fixpoint is_json (v : value) : bool :=
  match v with
  | VUndefined => false
  | VArr l => forallb is_json l
  | VObj ps => bool_decide (NoDup (map fst ps)) && forallb (fun kv => is_json kv.2) ps
  | _ => true
  end.

End JsonSpec.
Import JsonSpec.

(** ** server.js: the session routes *)

(** [req.session.k = v]. *)
Definition session_set (s : option object) (k : jsstring) (v : value)
    : result (option object) :=
  match s with
  | Some o => Ok (Some (obj_set o k v))
  | None =>
    Throw (mkError TypeError
      (js "Cannot set properties of undefined (setting '" ++ k ++ js "')"))
  end.

(** What a synchronous handler throws reaches the error handler at the end
    of the file; the session stays as it was:
<<
app.use((err, req, res, next) => {
    console.error(err.message);
    res.status(500).json({ error: err.message });
});
>> *)
Definition error_handler (s : option object) (err : error)
    : M (response * option object) :=
  console_error (message err);;
  mret (res_status_json 500 (error_body (message err)), s).

Definition invalid_credentials : response :=
  res_status_json 401
    (VObj [(js "success", VBool false); (js "error", VStr (js "Invalid credentials"))]).

Definition login_successful : response :=
  res_json (VObj [(js "success", VBool true); (js "message", VStr (js "Login successful"))]).

(** [u => u.username === username && u.password === password]. *)
Definition has_credentials (username password : value) (u : value) : result bool :=
  x ← get u (js "username");
  if strict_eq x username then y ← get u (js "password"); Ok (strict_eq y password)
  else Ok false.

(** [from(t).select('*').eq(col, x).limit(n)]: the client writes [x] into
    the query as a string. *)
Definition remote_select_limit (t col : jsstring) (x : value) (n : nat) : M reply :=
  e ← net_next;
  match e with
  | Some err => mret (failed err)
  | None =>
    rows ← gets (table t);
    mret (mkReply
      (VArr (map VObj (take n (List.filter (row_matches col (VStr (to_string x))) rows))))
      None)
  end.

(** [req.session.userId = user.id; req.session.username = user.username;
    res.json({ success: true, message: 'Login successful' })]. *)
Definition open_session (s : option object) (user : value)
    : result (response * option object) :=
  id ← get user (js "id");
  s1 ← session_set s (js "userId") id;
  username ← get user (js "username");
  s2 ← session_set s1 (js "username") username;
  Ok (login_successful, s2).

(** [app.post('/api/login', ...)]: the response and the session after the
    request. With Supabase the answer is written by the [then] of a promise
    that nothing catches: what is thrown there leaves the request without
    answer. *)
Definition post_login (req : request) : M (response * option object) :=
  let username := field (body req) (js "username") in
  let password := field (body req) (js "password") in
  use ← gets useSupabase;
  if use : bool then
    r ← remote_select_limit (js "users") (js "username") username 1;
    match error_of r with
    | Some _ => mret (invalid_credentials, session req)
    | None =>
      rows ← lift (method_target (data r) (js "data") (js "length"));
      match rows with
      | [] => mret (invalid_credentials, session req)
      | row :: _ =>
        p ← lift (get row (js "password"));
        if negb (strict_eq p password) then mret (invalid_credentials, session req)
        else lift (open_session (session req) row)
      end
    end
  else
    try_catch
      (users ← readData (js "users.json");
       l ← lift (method_target users (js "users") (js "find"));
       user ← lift (find (has_credentials username password) l);
       if truthy user then lift (open_session (session req) user)
       else mret (invalid_credentials, session req))
      (error_handler (session req)).

(** [app.post('/api/logout', ...)]: [req.session.destroy()] removes the
    session; the next request of the client comes with a new, empty one. *)
Definition post_logout (req : request) : M (response * option object) :=
  match session req with
  | Some _ =>
    mret (res_json (VObj [(js "success", VBool true);
                          (js "message", VStr (js "Logged out successfully"))]),
          Some [])
  | None =>
    error_handler None
      (mkError TypeError (js "Cannot read properties of undefined (reading 'destroy')"))
  end.

(** [app.get('/api/auth/status', ...)]. *)
Definition get_auth_status (req : request) : response :=
  if authenticated req then
    res_json (VObj (obj_lit [(js "authenticated", VBool true);
                             (js "username",
                              match session req with
                              | Some s => field s (js "username")
                              | None => VUndefined
                              end)]))
  else res_json (VObj [(js "authenticated", VBool false)]).

(** The answer of a page route. *)
Inductive page :=
| SendFile (path : jsstring)
| Redirect (location : jsstring).

(** [app.get('/admin', ...)]. *)
Definition get_admin (req : request) : page :=
  if authenticated req then SendFile (path_join [js "public"; js "admin-dashboard.html"])
  else Redirect (js "/admin-login.html").

(** ** server.js: the listings *)

(** Code units compared as the store compares timestamps of one format. *)
Fixpoint str_ltb (a b : jsstring) : bool :=
  match a, b with
  | _, [] => false
  | [], _ :: _ => true
  | c :: a', d :: b' => (c <? d) || ((c =? d) && str_ltb a' b')
  end.

(** [a] comes before [b] in descending order of [col]; rows without the
    column come first. *)
Definition precedes (col : jsstring) (a b : object) : bool :=
  match field a col, field b col with
  | VStr x, VStr y => negb (str_ltb x y)
  | VStr _, _ => false
  | _, _ => true
  end.

Fixpoint insert_row (col : jsstring) (r : object) (rows : list object) : list object :=
  match rows with
  | [] => [r]
  | r' :: rows' =>
    if precedes col r r' then r :: rows else r' :: insert_row col r rows'
  end.

(** [from(t).select('*').order(col, { ascending: false })]. *)
Definition remote_select_all (t col : jsstring) : M reply :=
  e ← net_next;
  match e with
  | Some err => mret (failed err)
  | None =>
    rows ← gets (table t);
    mret (mkReply (VArr (map VObj (foldr (insert_row col) [] rows))) None)
  end.

(** [app.get('/api/products', ...)] and [app.get('/api/courses', ...)];
    they differ in the table and the file. With Supabase a rejected promise
    is caught by nothing and leaves the request without answer. *)
Definition get_collection (tbl file_name : jsstring) : M response :=
  use ← gets useSupabase;
  if use : bool then
    r ← remote_select_all tbl (js "created_at");
    match error_of r with
    | Some e => mret (res_status_json 500 (error_body (message e)))
    | None => mret (res_json (js_or (data r) (VArr [])))
    end
  else
    records ← readData file_name;
    mret (res_json records).

Definition get_products : M response := get_collection (js "products") (js "products.json").
Definition get_courses : M response := get_collection (js "courses") (js "courses.json").

(** ** Vocabulary of the statements about the routes *)

Definition data_path (filename : jsstring) : jsstring := path_join [js "data"; filename].

(** What [readData] returns, as a function of the files. *)
Definition stored (fs : gmap jsstring jsstring) (filename : jsstring) : value :=
  match fs !! data_path filename with
  | Some text =>
    match JSON.parse text with
    | Some v => v
    | None => VArr []
    end
  | None => VArr []
  end.

Definition upload_accepted (req : request) : Prop :=
  match upload req with
  | None => True
  | Some f => fileFilter f = Ok true /\ (length (buffer f) <= fileSize_limit)%nat
  end.

(** The record [newProduct]. *)
Definition product_record (id title price description image link createdAt : value) : object :=
  [(js "id", id); (js "title", title); (js "price", js_or price (VStr []));
   (js "description", js_or description (VStr [])); (js "image", image);
   (js "whatsappLink", link); (js "createdAt", createdAt)].

(** The link of a new product. *)
Definition product_link (b : object) : result value :=
  if truthy (field b (js "whatsappLink")) then Ok (field b (js "whatsappLink"))
  else match encodeURIComponent (field b (js "title")) with
       | Ok enc => Ok (VStr (whatsapp_prefix ++ enc))
       | Throw e => Throw e
       end.

Definition fresh_uuid (w : world) : jsstring :=
  uuid_of_bytes (map (fun i => Byte.to_N (entropy w (drawn w + i)%nat)) (seq 0 16)).

(** Two worlds with the same configuration, files and tables. *)
Definition same_data (w w' : world) : Prop :=
  env w' = env w /\ files w' = files w /\ tables w' = tables w.

(** The row [post_products] inserts in the remote table. *)
Definition product_row (id title price description image link created_at : value) : object :=
  [(js "id", id); (js "title", title); (js "price", js_or price (VStr []));
   (js "description", js_or description (VStr [])); (js "image", image);
   (js "whatsapp_link", link); (js "created_at", created_at)].

(** The properties of a record after it went through JSON. *)
Definition normalize_props (ps : object) : object :=
  obj_lit (map (fun kv => (kv.1, JSON.normalize kv.2)) (defined_props ps)).

(** The records of a collection, in either mode. *)
Definition collection (w : world) (name : jsstring) : list value :=
  if useSupabase w then map VObj (table name w)
  else match stored (files w) (name ++ js ".json") with
       | VArr l => l
       | _ => []
       end.

(** The key of the link of a product: the column of the remote table is
    [whatsapp_link], the field of the local record [whatsappLink]. *)
Definition link_key (w : world) : jsstring :=
  if useSupabase w then js "whatsapp_link" else js "whatsappLink".

Definition is_lower_hex (c : N) : bool :=
  ((48 <=? c) && (c <=? 57)) || ((97 <=? c) && (c <=? 102)).

(** [/^<prefix>[0-9a-f]{8}$/.test(s)]. *)
Definition matches_id (prefix s : jsstring) : bool :=
  match JSON.strip_prefix prefix s with
  | Some h => (length h =? 8)%nat && forallb is_lower_hex h
  | None => false
  end.

Definition is_record (v : value) : bool :=
  match v with
  | VObj _ => true
  | _ => false
  end.

(** The record [v] has the identifier [id]. *)
Definition has_id (id : jsstring) (v : value) : bool :=
  strict_eq (get_opt v (js "id")) (VStr id).

(** No record of the collection has the identifier [id]. *)
Definition no_record (w : world) (name id : jsstring) : Prop :=
  Forall (fun v => has_id id v = false) (collection w name).

(** Every pending call of the remote store goes through. *)
Definition online (w : world) : Prop := Forall (fun o => o = NetOk) (net w).

(** The collection can be read: its local file holds an array of records,
    or the remote store is reachable. *)
Definition readable (w : world) (name : jsstring) : Prop :=
  if useSupabase w then online w
  else exists l, stored (files w) (name ++ js ".json") = VArr l /\ forallb is_record l = true.

(** The fields [PUT /products/:id] assigns to the record in a file. *)
Definition put_fields (b : object) (updatedAt : value) : object :=
  [(js "title", field b (js "title")); (js "price", field b (js "price"));
   (js "description", field b (js "description"));
   (js "whatsappLink", field b (js "whatsappLink")); (js "updatedAt", updatedAt)].

(** A step that leaves the configuration, the files, the tables and the
    clock as they were. *)
Definition quiet {A} (m : M A) : Prop :=
  forall w r w', m w = (r, w') ->
    same_data w w' /\ ticks w' = ticks w /\ clock w' = clock w.

(** The patch [PUT /products/:id] sends to the remote table. *)
Definition put_patch (b : object) (image updated_at : value) : object :=
  [(js "title", field b (js "title")); (js "price", field b (js "price"));
   (js "description", field b (js "description")); (js "image", image);
   (js "whatsapp_link", field b (js "whatsappLink")); (js "updated_at", updated_at)].

(** A step of the migration of the table [name]: it keeps the
    configuration and the files, writes to no other table, reaches the
    store when it was reachable and writes nothing to the error stream. *)
Definition migrates (name : jsstring) {A} (m : M A) : Prop :=
  forall w r w', m w = (r, w') ->
    env w' = env w /\ files w' = files w /\ stderr w' = stderr w
    /\ (online w -> online w')
    /\ (forall t, t <> name -> table t w' = table t w).

(** The script is configured: both variables of the environment are set. *)
Definition configured (w : world) : Prop :=
  truthy (SUPABASE_URL (env w)) = true /\ truthy (SUPABASE_SERVICE_KEY (env w)) = true.

(** The primary key of a row. *)
Definition row_id (row : object) : value := field row (js "id").

(** A record with a string as its identifier. *)
Definition keyed (v : value) : bool :=
  match get_opt v (js "id") with
  | VStr _ => is_record v
  | _ => false
  end.

(** What the loop of a collection needs of its body, on a keyed record. *)
Definition upserts (name : jsstring) (f : value -> M unit) : Prop :=
  forall o id w,
    field o (js "id") = VStr id ->
    online w ->
    NoDup (map row_id (table name w)) ->
    exists w',
      f (VObj o) w = (Ok tt, w')
      /\ NoDup (map row_id (table name w'))
      /\ incl (map row_id (table name w)) (map row_id (table name w'))
      /\ In (VStr id) (map row_id (table name w')).

(** ** Sample worlds and requests *)

Module Sample.

Definition instant : nat -> jsstring := fun _ => js "2025-01-01T00:00:00.000Z".
Definition day : nat -> jsstring := fun _ => js "Jan 1, 2025".
Definition dice : nat -> byte := fun _ => x2a.

(** A server without Supabase and without files. *)
Definition local_world : world :=
  mkWorld (mkConfig VUndefined VUndefined) ∅ ∅ ∅ [] instant day 0 dice 0 [] [].

(** The session of a logged-in administrator. *)
Definition admin : option object :=
  Some [(js "userId", VStr (js "user-1")); (js "username", VStr (js "admin"))].

Definition panel : object :=
  [(js "id", VStr (js "prod-2a2a2a2a")); (js "title", VStr (js "Panel A"));
   (js "price", VStr (js "100")); (js "image", VStr (js "/uploads/a.png"))].

(** A server without Supabase whose [products.json] holds one product. *)
Definition shop_world : world :=
  mkWorld (mkConfig VUndefined VUndefined)
    {[ js "data/products.json" := default [] (JSON.stringify (VArr [VObj panel])) ]}
    ∅ ∅ [] instant day 0 dice 0 [] [].

Definition supabase : config :=
  mkConfig (VStr (js "https://nk.supabase.co")) (VStr (js "service-key")).

Definition user1 : object :=
  [(js "id", VStr (js "user-1")); (js "username", VStr (js "admin"));
   (js "password", VStr (js "secret"))].
Definition user2 : object :=
  [(js "id", VStr (js "user-2")); (js "username", VStr (js "clerk"));
   (js "password", VStr (js "hidden"))].

(** The migration script with two users to migrate, on a store that
    answers every call. *)
Definition migration_world : world :=
  mkWorld supabase
    {[ js "data/users.json" := default [] (JSON.stringify (VArr [VObj user1; VObj user2])) ]}
    ∅ ∅ [] instant day 0 dice 0 [] [].


(** [POST /products] with a title only. *)
Definition post_panel : request :=
  mkRequest admin [] [(js "title", VStr (js "Panel A"))] None.

(** [POST /products] with a price only. *)
Definition post_untitled : request :=
  mkRequest admin [] [(js "price", VStr (js "100"))] None.

(** A request of an anonymous visitor. *)
Definition anonymous_post : request :=
  mkRequest None [] [(js "title", VStr (js "Panel A"))] None.

(** A request on the identifier of no product. *)
Definition missing : request := mkRequest admin (js "prod-00000000") [] None.

(** [PUT /products/prod-2a2a2a2a] with a new title and price, without file. *)
Definition put_panel : request :=
  mkRequest admin (js "prod-2a2a2a2a")
    [(js "title", VStr (js "Panel B")); (js "price", VStr (js "120"))] None.

(** A record whose title is [undefined], as [POST /products] builds it
    from a body without title. *)
Definition untitled : value :=
  VObj [(js "id", VStr (js "prod-1")); (js "title", VUndefined)].

(** A server with Supabase, whose table of products has one row. *)
Definition remote_shop : world :=
  mkWorld supabase ∅ {[ js "products" := [panel] ]} ∅ [] instant day 0 dice 0 [] [].

(** The response of a handler, or a blank response when it throws. *)
Definition answer (r : result response * world) : response :=
  match r.1 with
  | Ok resp => resp
  | Throw _ => res_json VUndefined
  end.

End Sample.
Import Sample.

(** ** Vocabulary of the statements about every route *)

Definition unauthorized : response :=
  res_status_json 401 (error_body (js "Unauthorized. Please login.")).

(** Whatever [m] returns satisfies [P]. *)
Definition returns {A} (P : A -> Prop) (m : M A) : Prop :=
  forall w a w', m w = (Ok a, w') -> P a.

(** [m] always answers, with one of the statuses [l]. *)
Definition answers (l : list N) (m : M response) : Prop :=
  forall w, exists resp w', m w = (Ok resp, w') /\ In (status resp) l.

(** The answer to a file that the filter of the uploads refuses. *)
Definition only_images : jsstring := js "Only image files are allowed!".

(** The file of the [public] directory that a record points to, when its
    [image] is a local upload. *)
Definition local_upload (record : value) : option jsstring :=
  match get_opt record (js "image") with
  | VStr s => if startsWith s (js "/uploads/") then Some (path_join [js "public"; s]) else None
  | _ => None
  end.

(** The first record with the identifier [id], or [undefined]. *)
Definition first_with_id (id : jsstring) (l : list value) : value :=
  default VUndefined (List.find (has_id id) l).

(** ** Vocabulary of the statements about the sessions *)

(** The record [v] has the user name and the password of a login. *)
Definition credentials_match (username password : value) (v : value) : bool :=
  strict_eq (get_opt v (js "username")) username
  && strict_eq (get_opt v (js "password")) password.

(** A record that is not the one a login looks for. *)
Definition other_user (username password : value) (v : value) : bool :=
  is_record v && negb (credentials_match username password v).

(** The session that [open_session] leaves for the user [u]. *)
Definition session_for (s u : object) : object :=
  obj_set (obj_set s (js "userId") (field u (js "id")))
    (js "username") (field u (js "username")).

(** A request that comes with the session [s]. *)
Definition with_session (s : option object) (req : request) : request :=
  mkRequest s (params_id req) (body req) (upload req).

Definition logged_out : response :=
  res_json (VObj [(js "success", VBool true);
                  (js "message", VStr (js "Logged out successfully"))]).

(** ** Vocabulary of the statements about a whole exchange *)

(** A string, or a value that counts as false. *)
Definition string_or_falsy (x : value) : bool :=
  match x with
  | VStr _ => true
  | _ => negb (truthy x)
  end.

(** A record whose [image], if it has one, is a string. *)
Definition plain_record (v : value) : bool :=
  is_record v && string_or_falsy (get_opt v (js "image")).

(** The identifier in the answer of a POST. *)
Definition answered_id (kind : jsstring) (resp : response) : value :=
  get_opt (get_opt (payload resp) kind) (js "id").

(** ** Vocabulary of the statements about a store that fails *)

(** The next call of the store fails with [msg]: it resolves to an error,
    or its promise rejects. *)
Definition store_fails (w : world) (msg : jsstring) : Prop :=
  exists rest, net w = NetError msg :: rest \/ net w = NetThrow msg :: rest.

(** ** Vocabulary of the statements about the courses *)

(** The number of comments of a new course: [parseInt(comments) || 0]. *)
Definition comments_of (b : object) : Z :=
  default 0%Z (parseInt (field b (js "comments"))).

(** ** Vocabulary of the statements about a refused migration *)

(** The store answers the call with an error. *)
Definition refusal (o : net_outcome) : Prop := exists msg, o = NetError msg.

(** The body of a loop of the migration, when the store refuses its
    upsert: it goes on, and changes neither the tables nor the output. *)
Definition goes_on (f : value -> M unit) : Prop :=
  forall o w msg rest,
    net w = NetError msg :: rest ->
    exists w',
      f (VObj o) w = (Ok tt, w')
      /\ net w' = rest /\ tables w' = tables w /\ stdout w' = stdout w.

(** ** Vocabulary of the statement about the link of a product *)

(** A character that needs no escape in a query string, or the percent
    sign of an escape. *)
Definition url_safe (c : N) : bool := uri_unreserved c || (c =? 37).

(** ** Vocabulary of the statements about paths *)

(** The name of a file: not empty, no slash in it, and neither [.] nor
    [..]. *)
Definition file_name (n : jsstring) : Prop :=
  n <> [] /\ n <> [46] /\ n <> [46; 46] /\ Forall (fun c => c <> 47) n.

(** ** More sample worlds and requests *)

Module Scenes.

Definition photo : upload_file := mkFile (js "a.png") (js "image/png") [].

(** A server without Supabase with one product and its uploaded image. *)
Definition gallery_world : world :=
  set_files (<[js "public/uploads/a.png" := js "PNG"]> (files shop_world)) shop_world.

(** A server without Supabase whose [users.json] holds two users. *)
Definition office_world : world :=
  set_files
    {[ js "data/users.json" := default [] (JSON.stringify (VArr [VObj user1; VObj user2])) ]}
    local_world.

(** A server with Supabase, whose table of users has one row. *)
Definition remote_office : world :=
  mkWorld supabase ∅ {[ js "users" := [user1] ]} ∅ [] instant day 0 dice 0 [] [].

(** A server with Supabase whose store answers the next call with an
    error. *)
Definition refusing_shop : world := set_net [NetError (js "timeout")] remote_shop.

(** The migration of two users, on a store that refuses both upserts. *)
Definition refusing_world : world :=
  set_net [NetError (js "timeout"); NetError (js "timeout")] migration_world.

(** A login with the name and the password of [user2], then with a wrong
    password, from a client with an empty session. *)
Definition login_clerk : request :=
  mkRequest (Some [])
    [] [(js "username", VStr (js "clerk")); (js "password", VStr (js "hidden"))] None.
Definition login_wrong : request :=
  mkRequest (Some [])
    [] [(js "username", VStr (js "clerk")); (js "password", VStr (js "guess"))] None.

(** DELETE and PUT on the product of the samples. *)
Definition delete_panel : request := mkRequest admin (js "prod-2a2a2a2a") [] None.
Definition put_photo : request :=
  mkRequest admin (js "prod-2a2a2a2a") [(js "title", VStr (js "Panel B"))] (Some photo).

(** POST requests: with an upload, with a title that has a lone
    surrogate, and for a course. *)
Definition post_photo : request :=
  mkRequest admin [] [(js "title", VStr (js "Panel A"))] (Some photo).
Definition post_course : request :=
  mkRequest admin []
    [(js "title", VStr (js "Wiring")); (js "comments", VStr (js "3 so far"))] None.

End Scenes.
Import Scenes.

(** ** Sample worlds with Supabase *)

Module RemoteScenes.

(** A server with Supabase and nothing in its store. *)
Definition remote_empty : world :=
  mkWorld supabase ∅ ∅ ∅ [] instant day 0 dice 0 [] [].

(** The same after a POST with a file: one product, one image. *)
Definition remote_gallery : world := (post_products post_photo remote_empty).2.

(** The address of the image of [remote_gallery]. *)
Definition photo_url : jsstring :=
  js "https://nk.supabase.co/storage/v1/object/public/product-images/products/2a2a2a2a-2a2a-4a2a-aa2a-2a2a2a2a2a2a.png".

(** The row of the product of [remote_gallery]. *)
Definition photo_row : object :=
  [(js "id", VStr (js "prod-2a2a2a2a")); (js "title", VStr (js "Panel A"));
   (js "price", VStr []); (js "description", VStr []); (js "image", VStr photo_url);
   (js "whatsapp_link", VStr (whatsapp_prefix ++ js "Panel%20A"));
   (js "created_at", VStr (js "2025-01-01T00:00:00.000Z"))].

End RemoteScenes.
Import RemoteScenes.

(** ** Sample worlds with an odd file *)

Module OddScenes.

(** A POST whose [image] points outside [public/uploads]. *)
Definition post_trap : request :=
  mkRequest admin []
    [(js "title", VStr (js "Panel A"));
     (js "image", VStr (js "/uploads/../../data/users.json"))] None.

(** The server of [office_world] after that POST. *)
Definition trap_world : world := (post_products post_trap office_world).2.

(** A server without Supabase whose [products.json] is [[null]]. *)
Definition broken_world : world :=
  set_files {[ js "data/products.json" := js "[null]" ]} local_world.

End OddScenes.
Import OddScenes.

(** ** Sample worlds for the edges of PUT and of the migration *)

Module EdgeScenes.



(** The migration of a [users.json] that holds [null] before a user, on a
    store that answers every call. *)
Definition gapped_world : world :=
  mkWorld supabase
    {[ js "data/users.json" := default [] (JSON.stringify (VArr [VNull; VObj user1])) ]}
    ∅ ∅ [] instant day 0 dice 0 [] [].

End EdgeScenes.
Import EdgeScenes.

(** * Part II: theorems *)

(** * The model on concrete inputs *)

Example js_ascii : js "prod-" = [112; 114; 111; 100; 45].
Proof. reflexivity. Qed.

Example js_astral : js "📦" = [0xD83D; 0xDCE6].
Proof. reflexivity. Qed.

Example encode_title :
  encodeURIComponent (VStr (js "Panel A & Co/é"))
  = Ok (js "Panel%20A%20%26%20Co%2F%C3%A9").
Proof. vm_compute. reflexivity. Qed.

Example encode_astral :
  encodeURIComponent (VStr (js "📦")) = Ok (js "%F0%9F%93%A6").
Proof. vm_compute. reflexivity. Qed.

Example encode_lone_surrogate :
  encodeURIComponent (VStr [0xD83D]) = Throw (mkError URIError (js "URI malformed")).
Proof. vm_compute. reflexivity. Qed.

Example encode_undefined : encodeURIComponent VUndefined = Ok (js "undefined").
Proof. vm_compute. reflexivity. Qed.

Example extname_examples :
  extname (js "photo.PNG") = js ".PNG"
  /\ extname (js "archive.tar.gz") = js ".gz"
  /\ extname (js ".bashrc") = []
  /\ extname (js "dir.d/readme") = []
  /\ extname (js "name.") = js ".".
Proof. repeat split; vm_compute; reflexivity. Qed.

Example path_join_examples :
  path_join [js "data"; js "products.json"] = js "data/products.json"
  /\ path_join [js "public"; js "/uploads/a.png"] = js "public/uploads/a.png"
  /\ path_join [js "public"; js "/uploads/../../data/users.json"] = js "data/users.json".
Proof. repeat split; vm_compute; reflexivity. Qed.

Example parse_examples :
  JSON.parse (js "[]") = Some (VArr [])
  /\ JSON.parse (js " [ 1 , -20 , true , null ] ") = Some (VArr [VNum 1; VNum (-20); VBool true; VNull])
  /\ JSON.parse (34 :: js "aé\n" ++ [34]) = Some (VStr [97; 233; 10])
  /\ JSON.parse (js "[1, 2") = None
  /\ JSON.parse (js "[01]") = None
  /\ JSON.parse [] = None.
Proof. repeat split; vm_compute; reflexivity. Qed.

Example parseInt_examples :
  parseInt (VStr (js " 42px")) = Some 42%Z
  /\ parseInt (VStr (js "-7")) = Some (-7)%Z
  /\ parseInt (VStr (js "0x1f")) = Some 31%Z
  /\ parseInt (VStr (js "many")) = None
  /\ parseInt VUndefined = None.
Proof. repeat split; vm_compute; reflexivity. Qed.

Example uuid_example :
  uuid_of_bytes (repeat 0x2a 16) = js "2a2a2a2a-2a2a-4a2a-aa2a-2a2a2a2a2a2a".
Proof. vm_compute. reflexivity. Qed.

Example post_course_example :
  get_opt (payload (answer (post_courses
     (mkRequest admin [] [(js "title", VStr (js "Wiring")); (js "comments", VStr (js "3"))] None)
     local_world))) (js "course")
  = VObj [(js "id", VStr (js "course-2a2a2a2a")); (js "title", VStr (js "Wiring"));
          (js "date", VStr (js "Jan 1, 2025")); (js "comments", VNum 3);
          (js "description", VStr []); (js "content", VStr []); (js "image", VStr []);
          (js "createdAt", VStr (js "2025-01-01T00:00:00.000Z"))].
Proof. vm_compute. reflexivity. Qed.

Example upload_rejected :
  answer (post_products
    (mkRequest admin [] [] (Some (mkFile (js "notes.txt") (js "text/plain") [])))
    local_world)
  = mkResponse 500 (VObj [(js "error", VStr (js "Only image files are allowed!"))]).
Proof. vm_compute. reflexivity. Qed.

Example put_with_file :
  stored (files (put_products
    (mkRequest admin (js "prod-2a2a2a2a") [(js "title", VStr (js "Panel B"))]
       (Some (mkFile (js "b.png") (js "image/png") [])))
    shop_world).2) (js "products.json")
  = VArr [VObj [(js "id", VStr (js "prod-2a2a2a2a")); (js "title", VStr (js "Panel B"));
                (js "image", VStr (js "/uploads/undefined"));
                (js "updatedAt", VStr (js "2025-01-01T00:00:00.000Z"))]].
Proof. vm_compute. reflexivity. Qed.

(** * Facts about the JSON text format *)

Section JsonStrings.
Import JSON.

Lemma hex_val_lower d : d < 16 -> hex_val (hex_lower d) = Some d.
Proof.
  intros Hd. unfold hex_lower, hex_val.
  destruct (N.ltb_spec d 10).
  - replace ((48 <=? 48 + d) && (48 + d <=? 57)) with true
      by (symmetry; apply andb_true_iff; split; apply N.leb_le; lia).
    f_equal. lia.
  - replace ((48 <=? 87 + d) && (87 + d <=? 57)) with false
      by (symmetry; apply andb_false_iff; right; apply N.leb_gt; lia).
    replace ((97 <=? 87 + d) && (87 + d <=? 102)) with true
      by (symmetry; apply andb_true_iff; split; apply N.leb_le; lia).
    f_equal. lia.
Qed.

Lemma nibbles c :
  c < 65536 ->
  ((N.shiftr c 12 mod 16 * 16 + N.shiftr c 8 mod 16) * 16 + N.shiftr c 4 mod 16) * 16
    + c mod 16 = c.
Proof.
  intros Hc. rewrite !N.shiftr_div_pow2.
  change (2 ^ 12) with 4096. change (2 ^ 8) with 256. change (2 ^ 4) with 16.
  zify. Z.to_euclidean_division_equations. lia.
Qed.

Lemma parse_unicode_escape c s :
  c < 65536 ->
  parse_string_body (92 :: 117 :: hex4 c ++ s)
  = '(t, rest) ← parse_string_body s; Some (c :: t, rest).
Proof.
  intros Hc. unfold hex4.
  cbn [parse_string_body app N.eqb Pos.eqb].
  rewrite !hex_val_lower by (apply N.mod_lt; lia).
  cbn [mbind option_bind]. rewrite nibbles by done. reflexivity.
Qed.

Lemma parse_quote_unit c s :
  parse_string_body (quote_unit c ++ s)
  = '(t, rest) ← parse_string_body s; Some (c :: t, rest).
Proof.
  unfold quote_unit.
  repeat match goal with
  | |- context [N.eqb c ?k] => destruct (N.eqb_spec c k) as [->|?]; [reflexivity|]
  end.
  destruct ((c <? 32) || is_surrogate c) eqn:E.
  - apply parse_unicode_escape.
    apply orb_true_iff in E as [E|E].
    + apply N.ltb_lt in E. lia.
    + unfold is_surrogate in E. apply andb_true_iff in E as [_ E].
      apply N.leb_le in E. lia.
  - apply orb_false_iff in E as [E _].
    cbn [app parse_string_body].
    rewrite (proj2 (N.eqb_neq c 34)), (proj2 (N.eqb_neq c 92)), E by done.
    reflexivity.
Qed.

Lemma high_surrogate_raw c s :
  is_high_surrogate c = true ->
  parse_string_body (c :: s) = '(t, rest) ← parse_string_body s; Some (c :: t, rest).
Proof.
  unfold is_high_surrogate. intros [H1 H2]%andb_true_iff.
  apply N.leb_le in H1. cbn [parse_string_body].
  rewrite (proj2 (N.eqb_neq c 34)), (proj2 (N.eqb_neq c 92)) by lia.
  rewrite (proj2 (N.ltb_ge c 32)) by lia. reflexivity.
Qed.

Lemma low_surrogate_raw c s :
  is_low_surrogate c = true ->
  parse_string_body (c :: s) = '(t, rest) ← parse_string_body s; Some (c :: t, rest).
Proof.
  unfold is_low_surrogate. intros [H1 H2]%andb_true_iff.
  apply N.leb_le in H1. cbn [parse_string_body].
  rewrite (proj2 (N.eqb_neq c 34)), (proj2 (N.eqb_neq c 92)) by lia.
  rewrite (proj2 (N.ltb_ge c 32)) by lia. reflexivity.
Qed.

Lemma parse_quote_body_le n s rest :
  (length s <= n)%nat ->
  parse_string_body (quote_body s ++ 34 :: rest) = Some (s, rest).
Proof.
  revert s. induction n as [|n IH]; intros s Hn.
  - destruct s; [reflexivity | simpl in Hn; lia].
  - destruct s as [|c r]; [reflexivity|].
    cbn [length] in Hn. cbn [quote_body].
    destruct (is_high_surrogate c) eqn:Hc.
    + destruct r as [|d r'].
      * rewrite parse_quote_unit. reflexivity.
      * destruct (is_low_surrogate d) eqn:Hd.
        -- cbn [app]. rewrite high_surrogate_raw, low_surrogate_raw by done.
           rewrite IH by (cbn [length] in *; lia). reflexivity.
        -- rewrite <- app_assoc, parse_quote_unit.
           rewrite IH by (cbn [length] in *; lia). reflexivity.
    + rewrite <- app_assoc, parse_quote_unit.
      rewrite IH by (cbn [length] in *; lia). reflexivity.
Qed.

Lemma parse_quote_body s rest :
  parse_string_body (quote_body s ++ 34 :: rest) = Some (s, rest).
Proof. apply (parse_quote_body_le (length s)). lia. Qed.

End JsonStrings.

Section JsonNumbers.
Import JSON.

Lemma is_digit_char n : n < 10 -> is_digit (48 + n) = true.
Proof.
  intros. unfold is_digit. apply andb_true_iff; split; apply N.leb_le; lia.
Qed.

Lemma parse_digits_aux f : forall n acc a,
  n < 2 ^ N.of_nat f ->
  exists k, parse_digits a (digits_aux f n acc) = parse_digits (a * 10 ^ k + n) acc.
Proof.
  induction f as [|f IH]; intros n acc a Hn.
  - exists 0. simpl in *. f_equal. lia.
  - cbn [digits_aux]. destruct (N.ltb_spec n 10) as [Hlt|Hge].
    + exists 1. cbn [parse_digits]. rewrite N.mod_small by done.
      rewrite is_digit_char by done. f_equal. lia.
    + assert (Hdiv : n / 10 < 2 ^ N.of_nat f).
      { rewrite Nat2N.inj_succ, N.pow_succ_r' in Hn.
        apply N.Div0.div_lt_upper_bound.
        generalize dependent (2 ^ N.of_nat f). intros; lia. }
      destruct (IH (n / 10) ((48 + n mod 10) :: acc) a Hdiv) as [k Hk].
      exists (k + 1). rewrite Hk. cbn [parse_digits].
      rewrite is_digit_char by (apply N.mod_lt; lia).
      f_equal. rewrite N.pow_add_r, N.pow_1_r.
      pose proof (N.div_mod n 10 ltac:(lia)).
      generalize dependent (10 ^ k). generalize dependent (n / 10).
      generalize dependent (n mod 10). intros; lia.
Qed.

Lemma digits_aux_head f : forall n acc,
  n < 2 ^ N.of_nat f -> 0 < n ->
  exists c t, digits_aux f n acc = c :: t ++ acc /\ is_digit c = true /\ c <> 48.
Proof.
  induction f as [|f IH]; intros n acc Hn Hpos.
  - simpl in Hn. lia.
  - cbn [digits_aux]. destruct (N.ltb_spec n 10) as [Hlt|Hge].
    + exists (48 + n), []. rewrite N.mod_small by done.
      split; [done|]. split; [by apply is_digit_char | lia].
    + assert (Hdiv : n / 10 < 2 ^ N.of_nat f).
      { rewrite Nat2N.inj_succ, N.pow_succ_r' in Hn.
        apply N.Div0.div_lt_upper_bound.
        generalize dependent (2 ^ N.of_nat f). intros; lia. }
      assert (0 < n / 10) by (apply N.div_str_pos; lia).
      destruct (IH (n / 10) ((48 + n mod 10) :: acc) Hdiv ltac:(done))
        as (c & t & -> & Hc & Hne).
      exists c, (t ++ [48 + n mod 10]). rewrite <- app_assoc. done.
Qed.

Lemma digits_fuel n : n < 2 ^ N.of_nat (S (N.to_nat (N.log2 n))).
Proof.
  rewrite Nat2N.inj_succ, N2Nat.id.
  destruct (N.eq_dec n 0) as [->|Hn]; [done|].
  apply N.log2_spec. lia.
Qed.

Lemma digits_aux_app f : forall n acc,
  digits_aux f n acc = digits_aux f n [] ++ acc.
Proof.
  induction f as [|f IH]; intros n acc; cbn [digits_aux]; [done|].
  destruct (n <? 10); [done|].
  rewrite (IH _ (_ :: acc)), (IH _ [_]), <- app_assoc. done.
Qed.

Lemma parse_int_digits n rest :
  ends_number rest ->
  parse_int (digits n ++ rest) = Some (n, rest).
Proof.
  intros Hrest.
  assert (Hstop : forall a, parse_digits a rest = (a, rest)).
  { intros a. destruct rest as [|c r]; [done|]. destruct Hrest as [Hd _].
    cbn [parse_digits]. by rewrite Hd. }
  assert (Hcont : continues_number rest = false).
  { destruct rest; [done | apply Hrest]. }
  destruct (N.eq_dec n 0) as [->|Hn].
  - change (digits 0) with [48]. cbn [app parse_int N.eqb Pos.eqb].
    by rewrite Hcont.
  - unfold digits. rewrite <- digits_aux_app.
    destruct (digits_aux_head _ n rest (digits_fuel n) ltac:(lia)) as (c & t & E & Hc & Hne).
    destruct (parse_digits_aux _ n rest 0 (digits_fuel n)) as [k Hk].
    rewrite E in Hk |- *. unfold parse_int.
    rewrite (proj2 (N.eqb_neq c 48)), Hc, Hk, Hstop, Hcont by done.
    reflexivity.
Qed.

Lemma digits_head n : exists c t, digits n = c :: t /\ is_digit c = true.
Proof.
  destruct (N.eq_dec n 0) as [->|Hn].
  - by exists 48, [].
  - destruct (digits_aux_head _ n [] (digits_fuel n) ltac:(lia)) as (c & t & E & Hc & _).
    exists c, t. unfold digits. rewrite E, app_nil_r. done.
Qed.

Lemma parse_number_Z z rest :
  ends_number rest ->
  parse_number (Z_to_string z ++ rest) = Some (VNum z, rest).
Proof.
  intros Hrest. destruct z as [|p|p]; cbn [Z_to_string].
  - change (digits (Z.to_N 0)) with [48]. cbn [app parse_number].
    change (parse_int (48 :: rest)) with (parse_int (digits 0 ++ rest)).
    by rewrite parse_int_digits.
  - destruct (digits_head (Z.to_N (Z.pos p))) as (c & t & E & Hc).
    unfold parse_number.
    assert (c <> 45).
    { intros ->. done. }
    rewrite E. cbn [app].
    destruct c as [|q]; [done|].
    repeat (destruct q as [q|q|]; try done);
      rewrite app_comm_cons, <- E, parse_int_digits by done;
      cbn [mbind option_bind]; do 3 f_equal; lia.
  - cbn [app parse_number].
    rewrite parse_int_digits by done. cbn [mbind option_bind]. do 3 f_equal; lia.
Qed.

End JsonNumbers.

Section JsonValues.
Import JSON.

Lemma serialize_defined d x : is_defined x = true -> serialize d x = Some (text d x).
Proof. unfold text. destruct x as [| |[]| | | |]; done. Qed.

Lemma serialize_VArr d l :
  serialize d (VArr l) = Some (wrap 91 93 d (map (text (S d)) l)).
Proof. reflexivity. Qed.

Lemma serialize_VObj d ps :
  serialize d (VObj ps)
  = Some (wrap 123 125 d (map (member_text (S d)) (defined_props ps))).
Proof.
  cbn [serialize]. do 2 f_equal.
  induction ps as [|[k x] ps IH]; [done|].
  unfold defined_props. cbn [List.filter snd].
  destruct (is_defined x) eqn:E.
  - rewrite (serialize_defined _ _ E). cbn [map]. f_equal. exact IH.
  - destruct x; done.
Qed.

Lemma normalize_VArr l : normalize (VArr l) = VArr (map norm_elem l).
Proof. reflexivity. Qed.

Lemma normalize_VObj ps :
  normalize (VObj ps)
  = VObj (obj_lit (map (fun kv => (kv.1, normalize kv.2)) (defined_props ps))).
Proof.
  cbn [normalize]. do 2 f_equal.
  induction ps as [|[k x] ps IH]; [done|].
  unfold defined_props. cbn [List.filter snd].
  destruct x; cbn [is_defined map fst snd]; by rewrite ?IH.
Qed.

Lemma skip_ws_indent d s : skip_ws (indent d ++ s) = skip_ws s.
Proof. unfold indent. induction (2 * d)%nat; [done|]. exact IHn. Qed.

Lemma skip_ws_newline d s : skip_ws (10 :: indent d ++ s) = skip_ws s.
Proof. cbn [skip_ws]. change (is_ws 10) with true. cbn. apply skip_ws_indent. Qed.

Lemma parse_value_skip fuel s s' :
  skip_ws s = skip_ws s' -> parse_value fuel s = parse_value fuel s'.
Proof. intros E. destruct fuel; [done|]. cbn [parse_value]. by rewrite E. Qed.

Lemma skip_ws_idem s : skip_ws (skip_ws s) = skip_ws s.
Proof.
  induction s as [|c s IH]; [done|]. cbn [skip_ws].
  destruct (is_ws c) eqn:E; [done|]. cbn [skip_ws]. by rewrite E.
Qed.

(** A text starts with a character that is neither white space nor a
    closing bracket. *)
Lemma text_head d x :
  exists c t, text d x = c :: t /\ is_ws c = false /\ c <> 93 /\ c <> 125.
Proof.
  destruct x as [| |[]|n|s|l|ps]; unfold text.
  1-4: by eexists _, _.
  - cbn [serialize default]. destruct n as [|p|p]; cbn [Z_to_string].
    + by exists 48, [].
    + destruct (digits_head (Z.to_N (Z.pos p))) as (c & t & -> & Hc).
      exists c, t. unfold is_digit in Hc. apply andb_true_iff in Hc as [H1 H2].
      apply N.leb_le in H1, H2. split; [done|]. unfold is_ws.
      rewrite !(proj2 (N.eqb_neq c _)) by lia. split; [done|]. lia.
    + by eexists _, _.
  - by eexists _, _.
  - rewrite serialize_VArr. cbn [default]. unfold wrap.
    destruct (map _ l); by eexists _, _.
  - rewrite serialize_VObj. cbn [default]. unfold wrap.
    destruct (map _ _); by eexists _, _.
Qed.

Lemma text_nonempty d x : text d x <> [].
Proof. destruct (text_head d x) as (c & t & -> & _). done. Qed.

Lemma skip_ws_text d x s : skip_ws (text d x ++ s) = text d x ++ s.
Proof.
  destruct (text_head d x) as (c & t & -> & Hc & _). cbn [app skip_ws]. by rewrite Hc.
Qed.

Lemma join_cons sep p q ps : join sep (p :: q :: ps) = p ++ sep ++ join sep (q :: ps).
Proof. reflexivity. Qed.

Lemma join_length_elem sep parts p :
  In p parts -> (length p <= length (join sep parts))%nat.
Proof.
  induction parts as [|q [|q' ps] IH]; [done| |].
  - intros [->|[]]. done.
  - intros [->|Hin]; rewrite join_cons, !length_app; [lia|].
    specialize (IH Hin). lia.
Qed.

Lemma join_length_parts sep parts :
  Forall (fun p => p <> []) parts -> (length parts <= length (join sep parts))%nat.
Proof.
  induction parts as [|q [|q' ps] IH]; intros Hne; [done| |].
  - inversion_clear Hne. destruct q; [done|]. cbn. lia.
  - inversion_clear Hne. rewrite join_cons, !length_app.
    specialize (IH H0). destruct q; [done|]. cbn [length] in *. lia.
Qed.

Lemma wrap_length opening closing d parts :
  parts <> [] ->
  (length (join (44%N :: 10%N :: indent (S d)) parts) + 4
   <= length (wrap opening closing d parts))%nat.
Proof.
  intros Hne. unfold wrap. destruct parts; [done|].
  cbn [length]. rewrite !length_app. cbn [length]. rewrite length_app. cbn [length]. lia.
Qed.

Lemma ends_number_newline s : ends_number (10 :: s).
Proof. done. Qed.

Lemma ends_number_comma s : ends_number (44 :: s).
Proof. done. Qed.

(** The loop over the elements of a printed array. *)
Lemma parse_elems_printed (pv : jsstring -> option (value * jsstring)) d rest :
  forall xs f,
  xs <> [] ->
  Forall (fun x => forall rest', ends_number rest' ->
            pv (10 :: indent (S d) ++ text (S d) x ++ rest') = Some (norm_elem x, rest')) xs ->
  (length xs <= f)%nat ->
  parse_elems pv f
    (10 :: indent (S d) ++ join (44 :: 10 :: indent (S d)) (map (text (S d)) xs)
       ++ 10 :: indent d ++ 93 :: rest)
  = Some (map norm_elem xs, rest).
Proof.
  induction xs as [|x xs IH]; intros f Hne Hpv Hf; [done|].
  destruct f as [|f]; [cbn in Hf; lia|].
  inversion_clear Hpv as [|? ? Hx Hxs].
  cbn [parse_elems map]. destruct xs as [|y ys].
  - cbn [map join]. rewrite Hx by apply ends_number_newline.
    cbn [mbind option_bind]. rewrite skip_ws_newline. cbn. done.
  - cbn [map]. rewrite join_cons. rewrite <- !app_assoc.
    rewrite Hx by apply ends_number_comma.
    cbn [mbind option_bind app skip_ws]. change (is_ws 44) with false. cbn iota.
    change (44 =? 44) with true. cbn iota.
    change (text (S d) y :: map (text (S d)) ys) with (map (text (S d)) (y :: ys)).
    rewrite IH; [done|done|done|cbn [length] in *; lia].
Qed.

Lemma skip_ws_stop c s : is_ws c = false -> skip_ws (c :: s) = c :: s.
Proof. intros E. cbn [skip_ws]. by rewrite E. Qed.

(** The loop over the members of a printed object. *)
Lemma parse_members_printed (pv : jsstring -> option (value * jsstring)) d rest :
  forall ms f acc,
  ms <> [] ->
  Forall (fun kv => forall rest', ends_number rest' ->
            pv (32 :: text (S d) kv.2 ++ rest') = Some (normalize kv.2, rest')) ms ->
  (length ms <= f)%nat ->
  parse_members pv f acc
    (10 :: indent (S d) ++ join (44 :: 10 :: indent (S d)) (map (member_text (S d)) ms)
       ++ 10 :: indent d ++ 125 :: rest)
  = Some (obj_assign acc (map (fun kv => (kv.1, normalize kv.2)) ms), rest).
Proof.
  induction ms as [|[k x] ms IH]; intros f acc Hne Hpv Hf; [done|].
  destruct f as [|f]; [cbn in Hf; lia|].
  inversion_clear Hpv as [|? ? Hx Hxs]. cbn [fst snd] in Hx.
  cbn [parse_members map]. rewrite skip_ws_newline.
  assert (Hmember : forall tail, ends_number tail ->
    (r ← expect 34 (skip_ws (member_text (S d) (k, x) ++ tail));
     '(k', r1) ← parse_string_body r;
     r2 ← expect 58 (skip_ws r1);
     pv r2 ≫= (fun '(v, r3) => Some (k', v, r3)))
    = Some (k, normalize x, tail)).
  { intros tail Htail. unfold member_text, quote. cbn [fst snd].
    cbn [app]. rewrite <- !app_assoc. cbn [app]. rewrite skip_ws_stop by done.
    cbn [expect]. change (34 =? 34) with true. cbn [mbind option_bind].
    rewrite parse_quote_body. cbn [mbind option_bind].
    rewrite skip_ws_stop by done.
    cbn [expect]. change (58 =? 58) with true.
    cbn [mbind option_bind]. by rewrite Hx. }
  destruct ms as [|kv ms'].
  - cbn [map join]. specialize (Hmember _ (ends_number_newline (indent d ++ 125 :: rest))).
    destruct (expect 34 _) as [r|]; [|done]. cbn [mbind option_bind] in *.
    destruct (parse_string_body r) as [[k' r1]|]; [|done]. cbn [mbind option_bind] in *.
    destruct (expect 58 _) as [r2|]; [|done]. cbn [mbind option_bind] in *.
    destruct (pv r2) as [[v r3]|]; [|done]. cbn [mbind option_bind] in *.
    injection Hmember as -> -> ->. rewrite skip_ws_newline. cbn. done.
  - cbn [map]. rewrite join_cons, <- !app_assoc.
    specialize (Hmember _ (ends_number_comma
      (10 :: indent (S d) ++ join (44 :: 10 :: indent (S d))
         (map (member_text (S d)) (kv :: ms')) ++ 10 :: indent d ++ 125 :: rest))).
    cbn [app] in Hmember |- *.
    destruct (expect 34 _) as [r|]; [|done]. cbn [mbind option_bind] in *.
    destruct (parse_string_body r) as [[k' r1]|]; [|done]. cbn [mbind option_bind] in *.
    destruct (expect 58 _) as [r2|]; [|done]. cbn [mbind option_bind] in *.
    destruct (pv r2) as [[v r3]|]; [|done]. cbn [mbind option_bind] in *.
    injection Hmember as -> -> ->. rewrite skip_ws_stop by done.
    change (44 =? 44) with true. cbn iota.
    rewrite IH; [done|done|done|cbn [length] in *; lia].
Qed.

Lemma Z_to_string_head n :
  exists c t, Z_to_string n = c :: t /\ (c = 45 \/ (48 <= c /\ c <= 57)).
Proof.
  assert (H : forall m, exists c t, digits m = c :: t /\ (c = 45 \/ (48 <= c /\ c <= 57))).
  { intros m. destruct (digits_head m) as (c & t & -> & Hc). exists c, t.
    unfold is_digit in Hc. apply andb_true_iff in Hc as [H1 H2].
    apply N.leb_le in H1, H2. auto. }
  destruct n as [|p|p]; cbn [Z_to_string]; [apply H | apply H |].
  eexists _, _. split; [done|]. by left.
Qed.

Lemma parse_value_number fuel c r :
  c = 45 \/ (48 <= c /\ c <= 57) ->
  parse_value (S fuel) (c :: r) = parse_number (c :: r).
Proof.
  intros Hc. cbn [parse_value].
  assert (is_ws c = false) as Hws.
  { unfold is_ws. rewrite !(proj2 (N.eqb_neq c _)) by lia. done. }
  rewrite skip_ws_stop by done.
  rewrite !(proj2 (N.eqb_neq c _)) by lia. done.
Qed.

Lemma Forall_In_text {A} (P : A -> Prop) (l : list A) :
  Forall P l -> forall x, In x l -> P x.
Proof. intros H. by apply List.Forall_forall. Qed.

(** Parsing the text of a value gives the value back, up to the
    [undefined] that the text cannot carry. *)
Theorem parse_serialize v : forall d t fuel rest,
  serialize d v = Some t ->
  (length t <= fuel)%nat ->
  ends_number rest ->
  parse_value fuel (t ++ rest) = Some (normalize v, rest).
Proof.
  induction v as [| |b|n|s|l IH|ps IH] using value_ind;
    intros d t fuel rest Ht Hfuel Hrest.
  - done.
  - injection Ht as <-. destruct fuel; [cbn in Hfuel; lia | reflexivity].
  - destruct b; injection Ht as <-; (destruct fuel; [cbn in Hfuel; lia | reflexivity]).
  - injection Ht as <-.
    destruct (Z_to_string_head n) as (c & r & E & Hc).
    destruct fuel; [rewrite E in Hfuel; cbn in Hfuel; lia|].
    rewrite E. cbn [app]. rewrite parse_value_number by done.
    rewrite app_comm_cons, <- E. by apply parse_number_Z.
  - injection Ht as <-. destruct fuel; [cbn in Hfuel; lia|].
    unfold quote. cbn [app parse_value]. rewrite skip_ws_stop by done.
    change (34 =? 123) with false. change (34 =? 91) with false.
    change (34 =? 34) with true. cbn iota.
    rewrite <- app_assoc. cbn [app]. by rewrite parse_quote_body.
  - rewrite serialize_VArr in Ht. injection Ht as <-. rewrite normalize_VArr.
    destruct fuel as [|f]; [unfold wrap in Hfuel; destruct (map _ l); cbn in Hfuel; lia|].
    destruct l as [|x l]; [reflexivity|].
    pose proof (wrap_length 91 93 d (map (text (S d)) (x :: l)) ltac:(done)) as Hlen.
    unfold wrap in *. cbn [map] in *.
    cbn [app parse_value]. rewrite skip_ws_stop by done.
    change (91 =? 123) with false. change (91 =? 91) with true. cbn iota.
    rewrite <- !app_assoc. cbn [app].
    rewrite skip_ws_newline.
    destruct (text_head (S d) x) as (c & tx & Ex & _ & Hc & _).
    replace (expect 93 _) with (@None jsstring).
    2:{ destruct l; cbn [join map]; rewrite <- ?app_assoc, skip_ws_text, Ex;
        cbn [app expect]; by rewrite (proj2 (N.eqb_neq c 93)). }
    change (text (S d) x :: map (text (S d)) l) with (map (text (S d)) (x :: l)) in *.
    rewrite <- ?app_assoc. cbn [app].
    rewrite (parse_elems_printed (parse_value f) d rest (x :: l) f); [done|done| |].
    + apply List.Forall_forall. intros y Hy rest' Hrest'.
      rewrite (parse_value_skip _ _ (text (S d) y ++ rest'))
        by (by rewrite skip_ws_newline, !skip_ws_text).
      assert (length (text (S d) y) <= f)%nat as Hy_len.
      { pose proof (join_length_elem (44 :: 10 :: indent (S d)) (map (text (S d)) (x :: l))
                      (text (S d) y) (in_map _ _ _ Hy)). lia. }
      destruct (is_defined y) eqn:Hdef.
      * replace (norm_elem y) with (normalize y) by (by destruct y).
        apply (Forall_In_text _ _ IH y Hy (S d)); [by apply serialize_defined|done|done].
      * destruct y; try done. destruct f; [cbn in Hy_len; lia | reflexivity].
    + pose proof (join_length_parts (44 :: 10 :: indent (S d)) (map (text (S d)) (x :: l))) as Hparts.
      rewrite length_map in Hparts.
      assert (Forall (fun p : jsstring => p <> []) (map (text (S d)) (x :: l))).
      { apply List.Forall_forall. intros p (y & <- & _)%in_map_iff. apply text_nonempty. }
      specialize (Hparts ltac:(done)). lia.
  - rewrite serialize_VObj in Ht. injection Ht as <-. rewrite normalize_VObj.
    destruct fuel as [|f];
      [unfold wrap in Hfuel; destruct (map _ (defined_props ps)); cbn in Hfuel; lia|].
    assert (IH' : Forall (fun kv : jsstring * value => forall d t fuel rest,
                     serialize d kv.2 = Some t -> (length t <= fuel)%nat ->
                     ends_number rest ->
                     parse_value fuel (t ++ rest) = Some (normalize kv.2, rest))
                   (defined_props ps)).
    { apply List.Forall_forall. intros kv [Hin _]%filter_In.
      by apply (Forall_In_text _ _ IH). }
    assert (Hdef : Forall (fun kv : jsstring * value => is_defined kv.2 = true)
                     (defined_props ps)).
    { apply List.Forall_forall. by intros kv [_ ?]%filter_In. }
    clear IH. destruct (defined_props ps) as [|[k x] ms]; [reflexivity|].
    pose proof (wrap_length 123 125 d (map (member_text (S d)) ((k, x) :: ms)) ltac:(done))
      as Hlen.
    unfold wrap in *. cbn [map] in *.
    cbn [app parse_value]. rewrite skip_ws_stop by done.
    change (123 =? 123) with true. cbn iota.
    rewrite <- !app_assoc. cbn [app].
    rewrite skip_ws_newline.
    replace (expect 125 _) with (@None jsstring).
    2:{ destruct ms; cbn [join map]; unfold member_text at 1, quote; cbn [app];
        by rewrite skip_ws_stop. }
    change (member_text (S d) (k, x) :: map (member_text (S d)) ms)
      with (map (member_text (S d)) ((k, x) :: ms)) in *.
    rewrite <- ?app_assoc. cbn [app].
    rewrite (parse_members_printed (parse_value f) d rest ((k, x) :: ms) f []); [done|done| |].
    + apply List.Forall_forall. intros kv Hkv rest' Hrest'.
      rewrite (parse_value_skip _ _ (text (S d) kv.2 ++ rest'))
        by (rewrite skip_ws_text; cbn [skip_ws]; change (is_ws 32) with true;
            cbn iota; by rewrite skip_ws_text).
      pose proof (Forall_In_text _ _ Hdef kv Hkv) as Hkv_def.
      apply (Forall_In_text _ _ IH' kv Hkv (S d)); [by apply serialize_defined| |done].
      pose proof (join_length_elem (44 :: 10 :: indent (S d))
                    (map (member_text (S d)) ((k, x) :: ms))
                    (member_text (S d) kv) (in_map _ _ _ Hkv)) as Hle.
      unfold member_text at 1 in Hle. rewrite length_app in Hle. cbn [length] in Hle. lia.
    + pose proof (join_length_parts (44 :: 10 :: indent (S d))
                    (map (member_text (S d)) ((k, x) :: ms))) as Hparts.
      rewrite length_map in Hparts.
      assert (Forall (fun p : jsstring => p <> []) (map (member_text (S d)) ((k, x) :: ms))).
      { apply List.Forall_forall. intros p (y & <- & _)%in_map_iff. done. }
      specialize (Hparts ltac:(done)). lia.
Qed.

End JsonValues.

Section JsonRepresentable.
Import JSON.

Theorem parse_stringify v t :
  stringify v = Some t -> parse t = Some (normalize v).
Proof.
  intros Ht. unfold parse.
  pose proof (parse_serialize v 0 t (S (length t)) [] Ht ltac:(lia) I) as H.
  rewrite app_nil_r in H. by rewrite H.
Qed.

Lemma obj_set_fresh o k v :
  ~ In k (map fst o) -> obj_set o k v = o ++ [(k, v)].
Proof.
  induction o as [|[k' v'] o IH]; intros Hk; [done|].
  cbn [obj_set]. cbn [map fst In] in Hk.
  destruct (decide (k' = k)) as [->|Hne]; [tauto|].
  rewrite IH by tauto. done.
Qed.

Lemma obj_assign_fresh ps : forall o,
  NoDup (map fst (o ++ ps)) -> obj_assign o ps = o ++ ps.
Proof.
  induction ps as [|[k v] ps IH]; intros o Hnd.
  - by rewrite app_nil_r.
  - unfold obj_assign. cbn [fold_left fst snd].
    rewrite obj_set_fresh.
    + change (fold_left _ ps ?x) with (obj_assign x ps).
      rewrite IH; rewrite <- app_assoc; done.
    + rewrite map_app in Hnd. cbn [map fst] in Hnd.
      apply NoDup_ListNoDup in Hnd. apply List.NoDup_remove_2 in Hnd.
      intros Hin. apply Hnd. apply in_or_app. by left.
Qed.

Lemma obj_lit_NoDup ps : NoDup (map fst ps) -> obj_lit ps = ps.
Proof. intros H. unfold obj_lit. by rewrite obj_assign_fresh. Qed.

Lemma is_json_defined v : is_json v = true -> is_defined v = true.
Proof. by destruct v. Qed.

(** A value without [undefined] and with distinct keys is what its text
    says. *)
Theorem normalize_json v : is_json v = true -> normalize v = v.
Proof.
  induction v as [| |b|n|s|l IH|ps IH] using value_ind; intros Hv; try done.
  - rewrite normalize_VArr. f_equal. cbn [is_json] in Hv.
    induction l as [|x l IHl]; [done|].
    cbn [forallb] in Hv. apply andb_true_iff in Hv as [Hx Hl].
    inversion_clear IH as [|? ? IHx IHl'].
    cbn [map]. f_equal; [|by apply IHl].
    rewrite <- (IHx Hx) at 2. by destruct x.
  - rewrite normalize_VObj. cbn [is_json] in Hv.
    apply andb_true_iff in Hv as [Hnd Hall]. apply bool_decide_eq_true in Hnd.
    assert (E : map (fun kv : jsstring * value => (kv.1, normalize kv.2)) (defined_props ps) = ps).
    { clear Hnd. induction ps as [|[k x] ps IHps]; [done|].
      cbn [forallb snd] in Hall. apply andb_true_iff in Hall as [Hx Hps].
      inversion_clear IH as [|? ? IHx IHps'].
      unfold defined_props. cbn [List.filter snd]. rewrite (is_json_defined _ Hx).
      cbn [map fst snd] in *. rewrite (IHx Hx). f_equal. by apply IHps. }
    rewrite E. by rewrite obj_lit_NoDup.
Qed.

Lemma obj_set_keys o k v :
  NoDup (map fst o) -> NoDup (map fst (obj_set o k v)).
Proof.
  induction o as [|[k' v'] o IH]; intros Hnd.
  - cbn. apply NoDup_singleton.
  - cbn [obj_set]. destruct (decide (k' = k)) as [->|Hne]; [done|].
    cbn [map fst] in *. apply NoDup_cons in Hnd as [Hk' Hnd].
    apply NoDup_cons. split; [|by apply IH].
    clear IH Hnd. induction o as [|[k2 v2] o IHo].
    + cbn. by intros [->|[]]%list_elem_of_In.
    + cbn [obj_set]. destruct (decide (k2 = k)) as [->|?]; [done|].
      cbn [map fst] in *. rewrite not_elem_of_cons in Hk'. destruct Hk'.
      rewrite not_elem_of_cons. split; [done | by apply IHo].
Qed.

Lemma obj_set_values (P : value -> bool) o k v :
  forallb (fun kv => P kv.2) o = true -> P v = true ->
  forallb (fun kv => P kv.2) (obj_set o k v) = true.
Proof.
  intros Ho Hv. induction o as [|[k' v'] o IH]; [cbn; by rewrite Hv|].
  cbn [forallb snd] in Ho. apply andb_true_iff in Ho as [Hv' Ho].
  cbn [obj_set]. destruct (decide (k' = k)); cbn [forallb snd].
  - by rewrite Hv, Ho.
  - by rewrite Hv', IH.
Qed.

Lemma parse_elems_json (pv : jsstring -> option (value * jsstring)) :
  (forall s v r, pv s = Some (v, r) -> is_json v = true) ->
  forall f s l r, parse_elems pv f s = Some (l, r) -> forallb is_json l = true.
Proof.
  intros Hpv. induction f as [|f IH]; intros s l r H; [done|].
  cbn [parse_elems] in H.
  destruct (pv s) as [[v r1]|] eqn:E; [|done]. cbn [mbind option_bind] in H.
  apply Hpv in E.
  destruct (skip_ws r1) as [|c r2]; [done|].
  destruct (c =? 44).
  - destruct (parse_elems pv f r2) as [[vs r3]|] eqn:E2; [|done].
    cbn [mbind option_bind] in H. injection H as <- <-.
    cbn [forallb]. rewrite E. by apply (IH _ _ _ E2).
  - destruct (c =? 93); [|done]. injection H as <- <-. cbn. by rewrite E.
Qed.

Lemma parse_members_json (pv : jsstring -> option (value * jsstring)) :
  (forall s v r, pv s = Some (v, r) -> is_json v = true) ->
  forall f acc s o r,
  is_json (VObj acc) = true ->
  parse_members pv f acc s = Some (o, r) -> is_json (VObj o) = true.
Proof.
  intros Hpv. induction f as [|f IH]; intros acc s o r Hacc H; [done|].
  cbn [parse_members] in H.
  destruct (expect 34 _) as [r0|]; [|done]. cbn [mbind option_bind] in H.
  destruct (parse_string_body r0) as [[k r1]|]; [|done]. cbn [mbind option_bind] in H.
  destruct (expect 58 _) as [r2|]; [|done]. cbn [mbind option_bind] in H.
  destruct (pv r2) as [[v r3]|] eqn:E; [|done]. cbn [mbind option_bind] in H.
  apply Hpv in E.
  assert (Hacc' : is_json (VObj (obj_set acc k v)) = true).
  { cbn [is_json] in *. apply andb_true_iff in Hacc as [Hnd Hall].
    apply bool_decide_eq_true in Hnd.
    apply andb_true_iff. split.
    - apply bool_decide_eq_true. by apply obj_set_keys.
    - by apply obj_set_values. }
  destruct (skip_ws r3) as [|c r4]; [done|].
  destruct (c =? 44); [by apply (IH _ _ _ _ Hacc' H)|].
  destruct (c =? 125); [|done]. by injection H as <- <-.
Qed.

Lemma parse_number_json s v r : parse_number s = Some (v, r) -> is_json v = true.
Proof.
  unfold parse_number. destruct s as [|c s]; [done|].
  destruct (c =? 45).
  - destruct (parse_int s) as [[n r']|]; [|done]. cbn. by intros [= <- <-].
  - destruct (parse_int (c :: s)) as [[n r']|]; [|done]. cbn. by intros [= <- <-].
Qed.

(** The parser produces values without [undefined], with distinct keys. *)
Lemma parse_value_json fuel : forall s v r,
  parse_value fuel s = Some (v, r) -> is_json v = true.
Proof.
  induction fuel as [|f IH]; intros s v r H; [done|].
  cbn [parse_value] in H.
  destruct (skip_ws s) as [|c r0]; [done|].
  destruct (c =? 123).
  { destruct (expect 125 _); [by injection H as <- <-|].
    destruct (parse_members _ _ _ _) as [[o r']|] eqn:E; [|done].
    cbn [mbind option_bind] in H. injection H as <- <-.
    assert (is_json (VObj []) = true) as H0 by reflexivity.
    by apply (parse_members_json _ IH _ _ _ _ _ H0 E). }
  destruct (c =? 91).
  { destruct (expect 93 _); [by injection H as <- <-|].
    destruct (parse_elems _ _ _) as [[l r']|] eqn:E; [|done].
    cbn [mbind option_bind] in H. injection H as <- <-.
    by apply (parse_elems_json _ IH _ _ _ _ E). }
  destruct (c =? 34).
  { destruct (parse_string_body r0) as [[t r']|]; [|done]. by injection H as <- <-. }
  destruct (c =? 116).
  { destruct (strip_prefix _ _); [|done]. by injection H as <- <-. }
  destruct (c =? 102).
  { destruct (strip_prefix _ _); [|done]. by injection H as <- <-. }
  destruct (c =? 110).
  { destruct (strip_prefix _ _); [|done]. by injection H as <- <-. }
  by apply parse_number_json in H.
Qed.

Theorem parse_json s v : parse s = Some v -> is_json v = true.
Proof.
  unfold parse. destruct (parse_value _ s) as [[v' r]|] eqn:E; [|done].
  destruct (skip_ws r); [|done]. intros [= <-]. by apply parse_value_json in E.
Qed.

End JsonRepresentable.

(** * The local file store *)

Lemma readData_stored filename w :
  readData filename w = (Ok (stored (files w) filename), w).
Proof.
  unfold readData, try_catch, readFileSync, JSON_parse, stored, data_path.
  unfold mbind, M_bind.
  destruct (files w !! path_join [js "data"; filename]) as [text|]; [|done].
  destruct (JSON.parse text); done.
Qed.

Lemma stringify_VArr l : exists t, JSON.stringify (VArr l) = Some t.
Proof. eexists. apply serialize_VArr. Qed.

Lemma writeData_VArr filename l w :
  exists t, JSON.stringify (VArr l) = Some t /\
    writeData filename (VArr l) w
    = (Ok tt, set_files (<[data_path filename := t]> (files w)) w).
Proof.
  destruct (stringify_VArr l) as [t Ht]. exists t. split; [done|].
  unfold writeData. rewrite Ht. done.
Qed.

Lemma stored_insert fs filename v t :
  JSON.stringify v = Some t ->
  stored (<[data_path filename := t]> fs) filename = JSON.normalize v.
Proof.
  intros Ht. unfold stored. rewrite lookup_insert_eq.
  by rewrite (parse_stringify v t Ht).
Qed.

Lemma stored_json fs filename : is_json (stored fs filename) = true.
Proof.
  unfold stored. destruct (fs !! _) as [text|]; [|done].
  destruct (JSON.parse text) eqn:E; [|done]. by apply parse_json in E.
Qed.

Lemma upload_single_accepted req next :
  upload_accepted req -> upload_single req next = next (upload req).
Proof.
  unfold upload_accepted, upload_single. destruct (upload req) as [f|]; [|done].
  intros [-> Hsize]. by rewrite decide_True.
Qed.

Lemma product_record_lit id title price description image link createdAt :
  obj_lit [(js "id", id); (js "title", title); (js "price", js_or price (VStr []));
           (js "description", js_or description (VStr [])); (js "image", image);
           (js "whatsappLink", link); (js "createdAt", createdAt)]
  = product_record id title price description image link createdAt.
Proof. reflexivity. Qed.

Lemma post_products_local req file w :
  useSupabase w = false ->
  post_products_handler req file w =
  let w1 := set_drawn (drawn w + 16)%nat w in
  match product_link (body req) with
  | Throw e => (Ok (res_status_json 500 (error_body (message e))), w1)
  | Ok link =>
    let w2 := set_ticks (S (ticks w)) w1 in
    let p := VObj (product_record (VStr (js "prod-" ++ substring0 8 (fresh_uuid w)))
                     (field (body req) (js "title")) (field (body req) (js "price"))
                     (field (body req) (js "description"))
                     (js_or (field (body req) (js "image")) (VStr []))
                     link (VStr (clock w (ticks w)))) in
    match method_target (stored (files w) (js "products.json")) (js "products") (js "push") with
    | Throw e => (Ok (res_status_json 500 (error_body (message e))), w2)
    | Ok l =>
      (Ok (success_with (js "product") p),
       set_files (<[data_path (js "products.json")
                    := default [] (JSON.stringify (VArr (l ++ [p])))]> (files w)) w2)
    end
  end.
Proof.
  intros Hlocal.
  unfold post_products_handler, try_catch, catch_500.
  unfold mbind, M_bind, gets, lift, mret, M_ret, uuidv4, now_iso.
  rewrite Hlocal.
  assert (Hfile : forall (B : Type) (x : B), match file with Some _ => x | None => x end = x)
    by (by destruct file).
  rewrite Hfile. clear Hfile.
  unfold product_link.
  destruct (truthy (field (body req) (js "whatsappLink"))) eqn:Hlink;
    [|destruct (encodeURIComponent _) as [enc|e]; [|done]].
  all: cbv beta iota zeta; rewrite product_record_lit, readData_stored.
  all: cbn [files set_ticks set_drawn ticks drawn clock entropy].
  all: destruct (method_target _ _ _) as [l|e]; [|done].
  all: unfold fresh_uuid.
  all: match goal with
       | |- context [writeData ?f (VArr ?l') ?w'] =>
         destruct (writeData_VArr f l' w') as (t & Ht & Hw); rewrite Hw, Ht
       end.
  all: done.
Qed.

Lemma truthy_defined v : truthy v = true -> is_defined v = true.
Proof. by destruct v. Qed.

Lemma js_or_defined a b : is_defined b = true -> is_defined (js_or a b) = true.
Proof.
  intros Hb. unfold js_or. destruct (truthy a) eqn:E; [by apply truthy_defined|done].
Qed.

Lemma normalize_elems_json l :
  forallb is_json l = true -> map norm_elem l = l.
Proof.
  intros Hl. pose proof (normalize_json (VArr l) Hl) as H.
  rewrite normalize_VArr in H. by injection H.
Qed.

Lemma stored_array_json fs filename l :
  stored fs filename = VArr l -> forallb is_json l = true.
Proof. intros E. pose proof (stored_json fs filename) as H. by rewrite E in H. Qed.

(** The collection after the array [l ++ [p]] has been written. *)
Lemma stored_after_push fs filename l p :
  forallb is_json l = true ->
  stored (<[data_path filename := default [] (JSON.stringify (VArr (l ++ [p])))]> fs) filename
  = VArr (l ++ [norm_elem p]).
Proof.
  intros Hl. destruct (stringify_VArr (l ++ [p])) as [t Ht]. rewrite Ht.
  cbn [default]. rewrite (stored_insert _ _ _ _ Ht), normalize_VArr, map_app.
  by rewrite normalize_elems_json.
Qed.

Lemma normalize_product_no_title id price description image link createdAt :
  is_defined id = true -> is_defined image = true -> is_defined link = true ->
  is_defined createdAt = true ->
  JSON.normalize (VObj (product_record id VUndefined price description image link createdAt))
  = VObj [(js "id", JSON.normalize id);
          (js "price", JSON.normalize (js_or price (VStr [])));
          (js "description", JSON.normalize (js_or description (VStr [])));
          (js "image", JSON.normalize image);
          (js "whatsappLink", JSON.normalize link);
          (js "createdAt", JSON.normalize createdAt)].
Proof.
  intros Hid Himage Hlink Hcreated. rewrite normalize_VObj.
  unfold product_record, defined_props. cbn [List.filter snd is_defined].
  rewrite Hid, Himage, Hlink, Hcreated, !js_or_defined by done.
  reflexivity.
Qed.

(** C10. In local mode, an authenticated [POST /products] whose body has
    neither [title] nor [whatsappLink] succeeds when its upload, if any, is
    accepted and [products.json] holds an array (or is absent or
    unreadable): the product of the response has [undefined] as its
    [title]; the record kept in the file has no [title], and its
    [whatsappLink] is the WhatsApp prefix followed by [undefined]. *)
Theorem post_products_without_title req w :
  authenticated req = true ->
  useSupabase w = false ->
  upload_accepted req ->
  field (body req) (js "title") = VUndefined ->
  field (body req) (js "whatsappLink") = VUndefined ->
  (exists l, stored (files w) (js "products.json") = VArr l) ->
  exists product kept l w',
    post_products req w = (Ok (success_with (js "product") (VObj product)), w')
    /\ lookup_prop product (js "title") = Some VUndefined
    /\ lookup_prop product (js "whatsappLink")
       = Some (VStr (whatsapp_prefix ++ js "undefined"))
    /\ stored (files w) (js "products.json") = VArr l
    /\ stored (files w') (js "products.json") = VArr (l ++ [VObj kept])
    /\ lookup_prop kept (js "title") = None
    /\ lookup_prop kept (js "whatsappLink")
       = Some (VStr (whatsapp_prefix ++ js "undefined"))
    /\ endsWith (whatsapp_prefix ++ js "undefined") (js "undefined") = true.
Proof.
  intros Hauth Hlocal Hupload Htitle Hlink [l Hl].
  unfold post_products, requireAuth. rewrite Hauth.
  rewrite upload_single_accepted by done.
  rewrite post_products_local by done.
  unfold product_link. rewrite Htitle, Hlink.
  change (truthy VUndefined) with false. cbv iota.
  change (encodeURIComponent VUndefined) with (Ok (js "undefined")). cbv iota zeta.
  rewrite Hl. cbn [method_target].
  eexists _, _, l, _. split; [reflexivity|].
  split; [reflexivity|]. split; [reflexivity|]. split; [reflexivity|].
  cbn [files set_files].
  rewrite stored_after_push by (by apply (stored_array_json _ _ _ Hl)).
  unfold norm_elem.
  rewrite normalize_product_no_title by (try done; by apply js_or_defined).
  split; [reflexivity|]. split; [reflexivity|]. split; [reflexivity|]. reflexivity.
Qed.

(** * The remote store *)

Lemma same_data_refl w : same_data w w.
Proof. done. Qed.

Lemma same_data_trans w1 w2 w3 : same_data w1 w2 -> same_data w2 w3 -> same_data w1 w3.
Proof. intros (?&?&?) (?&?&?). repeat split; congruence. Qed.

Lemma net_next_same w r w' : net_next w = (r, w') -> same_data w w'.
Proof.
  unfold net_next. destruct (net w) as [|[| |] ?]; intros [= <- <-]; done.
Qed.

Lemma table_same w w' t : same_data w w' -> table t w' = table t w.
Proof. intros (_&_&E). unfold table. by rewrite E. Qed.

Lemma useSupabase_same w w' : same_data w w' -> useSupabase w' = useSupabase w.
Proof. intros (E&_). unfold useSupabase. by rewrite E. Qed.

Lemma table_set_table t rows w :
  table t (set_tables (<[t := rows]> (tables w)) w) = rows.
Proof. unfold table. cbn. by rewrite lookup_insert_eq. Qed.

Lemma table_set_table_ne t t' rows w :
  t <> t' -> table t' (set_tables (<[t := rows]> (tables w)) w) = table t' w.
Proof. intros Hne. unfold table. cbn. by rewrite lookup_insert_ne. Qed.

Lemma remote_insert_ok t row w r w' :
  remote_insert t row w = (Ok r, w') ->
  error_of r = None ->
  data r = VObj (wire row)
  /\ table t w' = table t w ++ [wire row]
  /\ env w' = env w /\ files w' = files w.
Proof.
  unfold remote_insert, mbind, M_bind, gets, mret, M_ret, set_table, modify.
  destruct (net_next w) as [[[e|]|e] w1] eqn:Hnet; [by intros [= <- <-]| |done].
  apply net_next_same in Hnet. pose proof (table_same _ _ t Hnet) as Ht.
  destruct Hnet as (He & Hf & _).
  destruct (negb (has_key (wire row))); [by intros [= <- <-]|].
  destruct (existsb _ _); [by intros [= <- <-]|].
  intros [= <- <-] _. cbn [data]. rewrite table_set_table, Ht. done.
Qed.

Lemma remote_insert_never_throws t row w e w' :
  remote_insert t row w = (Throw e, w') -> exists msg rest, net w = NetThrow msg :: rest.
Proof.
  unfold remote_insert, mbind, M_bind, gets, mret, M_ret, set_table, modify.
  unfold net_next. destruct (net w) as [|[|msg|msg] rest]; cbn.
  1,2: destruct (negb _); [done|]; destruct (existsb _ _); done.
  - done.
  - by eexists _, _.
Qed.

Lemma storage_upload_same path f w r w' :
  storage_upload path f w = (r, w') -> same_data w w'.
Proof.
  unfold storage_upload, mbind, M_bind, gets, mret, M_ret, modify.
  destruct (net_next w) as [[[e|]|e] w1] eqn:Hnet; apply net_next_same in Hnet.
  - by intros [= <- <-].
  - destruct (bucket w1 !! path); intros [= <- <-]; [done|].
    destruct Hnet as (?&?&?). done.
  - by intros [= <- <-].
Qed.

Lemma uploadToSupabase_same f w r w' :
  uploadToSupabase f w = (r, w') ->
  same_data w w' /\ ticks w' = ticks w /\ clock w' = clock w.
Proof.
  unfold uploadToSupabase, mbind, M_bind, gets, mret, M_ret, throw, uuidv4,
    throw_if_error, storage_public_url.
  destruct (negb (useSupabase w)); [by intros [= <- <-]|].
  destruct (storage_upload _ _ _) as [[rp|e] w1] eqn:Hup.
  - assert (ticks w1 = ticks w /\ clock w1 = clock w) as [Hticks Hclock].
    { revert Hup. unfold storage_upload, mbind, M_bind, gets, mret, M_ret, modify, net_next.
      cbn [net set_drawn].
      destruct (net w) as [|[| |] ?]; cbn;
        try destruct (bucket w !! _); by intros [= <- <-]. }
    apply storage_upload_same in Hup.
    destruct (error_of rp); intros [= <- <-]; (split; [|done]);
      destruct Hup as (?&?&?); done.
  - assert (ticks w1 = ticks w /\ clock w1 = clock w) as [Hticks Hclock].
    { revert Hup. unfold storage_upload, mbind, M_bind, gets, mret, M_ret, modify, net_next.
      cbn [net set_drawn].
      destruct (net w) as [|[| |] ?]; cbn;
        try destruct (bucket w !! _); by intros [= <- <-]. }
    apply storage_upload_same in Hup.
    intros [= <- <-]. split; [|done]. destruct Hup as (?&?&?). done.
Qed.

Lemma product_row_lit id title price description image link created_at :
  obj_lit [(js "id", id); (js "title", title); (js "price", js_or price (VStr []));
           (js "description", js_or description (VStr [])); (js "image", image);
           (js "whatsapp_link", link); (js "created_at", created_at)]
  = product_row id title price description image link created_at.
Proof. reflexivity. Qed.

Lemma bind_ok_inv {A B} (m : M A) (k : A -> M B) w b w' :
  (m ≫= k) w = (Ok b, w') -> exists a w1, m w = (Ok a, w1) /\ k a w1 = (Ok b, w').
Proof.
  unfold mbind, M_bind. destruct (m w) as [[a|e] w1]; [|done]. intros H. by exists a, w1.
Qed.

Lemma try_catch_ok_inv {A} (m : M A) (h : error -> M A) w a w' :
  try_catch m h w = (Ok a, w') ->
  m w = (Ok a, w') \/ exists e w1, m w = (Throw e, w1) /\ h e w1 = (Ok a, w').
Proof.
  unfold try_catch. destruct (m w) as [[a'|e] w1]; [by left|]. intros H. right. by exists e, w1.
Qed.

Lemma route_ok_inv (m : M response) w resp w' :
  try_catch m catch_500 w = (Ok resp, w') -> status resp = 200 -> m w = (Ok resp, w').
Proof.
  intros [H|(e & w1 & _ & H)]%try_catch_ok_inv Hstatus; [done|].
  unfold catch_500 in H. injection H as <- <-. done.
Qed.

Lemma gets_inv {A} (f : world -> A) w a w' : gets f w = (Ok a, w') -> a = f w /\ w' = w.
Proof. by intros [= <- <-]. Qed.

Lemma mret_inv {A} (x : A) w (a : A) w' :
  (mret x : M A) w = (Ok a, w') -> a = x /\ w' = w.
Proof. by intros [= <- <-]. Qed.

Lemma lift_inv {A} (r : result A) w a w' : lift r w = (Ok a, w') -> r = Ok a /\ w' = w.
Proof. by intros [= <- <-]. Qed.

Lemma uuidv4_inv w a w' :
  uuidv4 w = (Ok a, w') -> a = fresh_uuid w /\ w' = set_drawn (drawn w + 16)%nat w.
Proof. by intros [= <- <-]. Qed.

Lemma now_iso_inv w a w' :
  now_iso w = (Ok a, w') -> a = clock w (ticks w) /\ w' = set_ticks (S (ticks w)) w.
Proof. by intros [= <- <-]. Qed.

(** One step of the inversion of a successful run: [H] says that
    [m ≫= k] succeeds; name the result of [m], the world after it and the
    equation of [m], and keep the equation of [k] in [H]. *)
Tactic Notation "step" hyp(H) "as" ident(a) ident(w1) ident(H1) :=
  apply bind_ok_inv in H as (a & w1 & H1 & H);
  first
    [ apply gets_inv in H1 as [-> ->]
    | apply uuidv4_inv in H1 as [-> ->]
    | apply now_iso_inv in H1 as [-> ->]
    | apply lift_inv in H1 as [H1 ->]
    | idtac ].

Lemma image_step_same req file (use : bool) w imageUrl w1 :
  (match file with
   | Some f =>
     if use then url ← uploadToSupabase f; mret (VStr url)
     else mret (js_or (field (body req) (js "image")) (VStr []))
   | None => mret (js_or (field (body req) (js "image")) (VStr []))
   end : M value) w = (Ok imageUrl, w1) ->
  same_data w w1 /\ ticks w1 = ticks w /\ clock w1 = clock w.
Proof.
  destruct file as [f|]; [destruct use|]; try by intros [= <- <-].
  intros H. step H as url w2 Hup. apply mret_inv in H as [-> ->].
  by apply uploadToSupabase_same in Hup.
Qed.

Lemma post_products_remote req file w resp w' :
  useSupabase w = true ->
  post_products_handler req file w = (Ok resp, w') ->
  status resp = 200 ->
  exists imageUrl w1 link r,
    same_data w w1
    /\ product_link (body req) = Ok link
    /\ remote_insert (js "products")
         (product_row (VStr (js "prod-" ++ substring0 8 (fresh_uuid w1)))
            (field (body req) (js "title")) (field (body req) (js "price"))
            (field (body req) (js "description")) imageUrl link
            (VStr (clock w1 (S (ticks w1)))))
         (set_ticks (S (S (ticks w1))) (set_drawn (drawn w1 + 16)%nat w1)) = (Ok r, w')
    /\ error_of r = None
    /\ resp = success_with (js "product") (data r).
Proof.
  intros Hremote H Hstatus. unfold post_products_handler in H.
  apply route_ok_inv in H; [|done]. cbv zeta in H.
  step H as use w0 Huse. rewrite Hremote in H.
  step H as imageUrl w1 Himage.
  apply (image_step_same req file true) in Himage as (Hsame & Hticks & Hclock).
  step H as uuid w2 Huuid. step H as link w3 Hlink.
  assert (product_link (body req) = Ok link /\ w3 = set_drawn (drawn w1 + 16)%nat w1)
    as [Hlink' ->].
  { unfold product_link. destruct (truthy _).
    - by apply mret_inv in Hlink as [-> ->].
    - step Hlink as enc w4 Henc. apply mret_inv in Hlink as [-> ->]. by rewrite Henc. }
  clear Hlink. step H as createdAt w4 HcreatedAt. step H as created_at w5 Hcreated_at.
  rewrite product_row_lit in H.
  step H as r w6 Hinsert. cbn [ticks set_ticks set_drawn clock] in Hinsert.
  apply bind_ok_inv in H as (u & w7 & Hthrow & H). apply mret_inv in H as [-> ->].
  unfold throw_if_error in Hthrow. destruct (error_of r) eqn:Herr; [done|].
  apply mret_inv in Hthrow as [-> ->]. exists imageUrl, w1, link, r.
  split; [exact Hsame|]. split; [exact Hlink'|]. split; [exact Hinsert|]. done.
Qed.

(** * Records: lookups after assignments and after serialisation *)

Lemma normalize_VObj_props ps : JSON.normalize (VObj ps) = VObj (normalize_props ps).
Proof. apply normalize_VObj. Qed.

Lemma wire_props row : wire row = normalize_props row.
Proof. unfold wire. by rewrite normalize_VObj_props. Qed.

Lemma lookup_obj_set o k v k' :
  lookup_prop (obj_set o k v) k' = if decide (k = k') then Some v else lookup_prop o k'.
Proof.
  induction o as [|[k0 v0] o IH]; cbn [obj_set lookup_prop].
  - done.
  - destruct (decide (k0 = k)) as [->|Hne]; cbn [lookup_prop].
    + by destruct (decide (k = k')).
    + rewrite IH. destruct (decide (k0 = k')) as [->|?]; [|done].
      by rewrite decide_False.
Qed.

Lemma lookup_obj_assign_notin ps : forall o k,
  ~ In k (map fst ps) -> lookup_prop (obj_assign o ps) k = lookup_prop o k.
Proof.
  induction ps as [|[k0 v0] ps IH]; intros o k Hk; [done|].
  unfold obj_assign. cbn [fold_left fst snd].
  change (fold_left _ ps ?x) with (obj_assign x ps).
  cbn [map fst In] in Hk. rewrite IH by tauto.
  rewrite lookup_obj_set. rewrite decide_False; [done|]. intros ->. tauto.
Qed.

Lemma lookup_obj_assign_in ps : forall o k v,
  NoDup (map fst ps) -> In (k, v) ps -> lookup_prop (obj_assign o ps) k = Some v.
Proof.
  induction ps as [|[k0 v0] ps IH]; intros o k v Hnd Hin; [done|].
  unfold obj_assign. cbn [fold_left fst snd].
  change (fold_left _ ps ?x) with (obj_assign x ps).
  cbn [map fst] in Hnd. apply NoDup_cons in Hnd as [Hk0 Hnd].
  destruct Hin as [[= -> ->]|Hin].
  - rewrite lookup_obj_assign_notin by (by rewrite <- list_elem_of_In).
    rewrite lookup_obj_set. by rewrite decide_True.
  - by apply IH.
Qed.

Lemma lookup_prop_notin o k : ~ In k (map fst o) -> lookup_prop o k = None.
Proof.
  induction o as [|[k0 v0] o IH]; [done|]. cbn [map fst In lookup_prop].
  intros Hk. rewrite decide_False by tauto. apply IH. tauto.
Qed.

Lemma defined_props_keys ps : NoDup (map fst ps) -> NoDup (map fst (defined_props ps)).
Proof.
  induction ps as [|[k v] ps IH]; [done|]. cbn [map fst].
  intros [Hk Hnd]%NoDup_cons. unfold defined_props. cbn [List.filter snd].
  destruct (is_defined v); [|by apply IH]. cbn [map fst]. apply NoDup_cons.
  split; [|by apply IH]. intros Hin. apply Hk.
  apply list_elem_of_In in Hin. apply list_elem_of_In.
  apply in_map_iff in Hin as ([k' v'] & <- & Hin). apply filter_In in Hin as [Hin _].
  apply in_map_iff. by exists (k', v').
Qed.

(** A property of a record that went through JSON: absent when its value
    was [undefined]. *)
Lemma lookup_normalize_props ps k :
  NoDup (map fst ps) ->
  lookup_prop (normalize_props ps) k
  = match lookup_prop ps k with
    | Some v => if is_defined v then Some (JSON.normalize v) else None
    | None => None
    end.
Proof.
  intros Hnd. unfold normalize_props. rewrite obj_lit_NoDup.
  2:{ rewrite map_map. cbn [fst]. by apply defined_props_keys. }
  induction ps as [|[k0 v0] ps IH]; [done|].
  cbn [map fst] in Hnd. apply NoDup_cons in Hnd as [Hk0 Hnd].
  unfold defined_props. cbn [List.filter snd lookup_prop].
  destruct (decide (k0 = k)) as [->|Hne].
  - destruct (is_defined v0); cbn [map lookup_prop fst snd].
    + by rewrite decide_True.
    + apply lookup_prop_notin. rewrite map_map. cbn [fst].
      intros Hin. apply Hk0. apply list_elem_of_In.
      apply in_map_iff in Hin as ([k' v'] & <- & Hin). apply filter_In in Hin as [Hin _].
      apply in_map_iff. by exists (k', v').
  - destruct (is_defined v0); cbn [map lookup_prop fst snd].
    + rewrite decide_False by done. by apply IH.
    + by apply IH.
Qed.

Lemma run_ok_inv {A} (a b : A) (w w' : world) : (Ok a, w) = (Ok b, w') -> a = b /\ w = w'.
Proof. by intros [= -> ->]. Qed.

Lemma product_record_keys id title price description image link createdAt :
  NoDup (map fst (product_record id title price description image link createdAt)).
Proof. apply (bool_decide_unpack _). reflexivity. Qed.

Lemma product_row_keys id title price description image link created_at :
  NoDup (map fst (product_row id title price description image link created_at)).
Proof. apply (bool_decide_unpack _). reflexivity. Qed.

Lemma product_link_defined b link : product_link b = Ok link -> is_defined link = true.
Proof.
  unfold product_link. destruct (truthy _) eqn:E.
  - intros [= <-]. by apply truthy_defined.
  - destruct (encodeURIComponent _); [|done]. by intros [= <-].
Qed.

(** A successful [POST /products]: the record shown in the response, the
    record kept in the collection, and their fields. *)
Lemma post_products_stored req w resp w' :
  post_products req w = (Ok resp, w') ->
  status resp = 200 ->
  exists record shown link w1,
    product_link (body req) = Ok link
    /\ resp = success_with (js "product") (VObj shown)
    /\ collection w' (js "products") = collection w (js "products") ++ [VObj record]
    /\ lookup_prop shown (js "id")
       = Some (VStr (js "prod-" ++ substring0 8 (fresh_uuid w1)))
    /\ lookup_prop record (js "id")
       = Some (VStr (js "prod-" ++ substring0 8 (fresh_uuid w1)))
    /\ lookup_prop record (js "price")
       = Some (JSON.normalize (js_or (field (body req) (js "price")) (VStr [])))
    /\ lookup_prop record (link_key w) = Some (JSON.normalize link).
Proof.
  intros H Hstatus. unfold post_products, requireAuth in H.
  destruct (authenticated req); [|by injection H as <- <-].
  unfold upload_single in H.
  assert (exists file, post_products_handler req file w = (Ok resp, w')) as [file Hrun].
  { destruct (upload req) as [f|]; [|by exists None].
    destruct (fileFilter f); [|by injection H as <- <-].
    destruct (decide _); [by exists (Some f)|by injection H as <- <-]. }
  clear H. unfold collection, link_key.
  destruct (useSupabase w) eqn:Hmode.
  - destruct (post_products_remote _ _ _ _ _ Hmode Hrun Hstatus)
      as (imageUrl & w1 & link & r & Hsame & Hlink & Hins & Herr & ->).
    destruct (remote_insert_ok _ _ _ _ _ Hins Herr) as (Hdata & Htable & Henv & Hfiles).
    assert (useSupabase w' = true) as ->.
    { unfold useSupabase in *. rewrite Henv. cbn [env set_ticks set_drawn].
      destruct Hsame as (-> & _). done. }
    eexists _, _, link, w1. split; [done|]. rewrite Hdata. split; [done|]. split.
    { rewrite Htable, map_app. f_equal. f_equal.
      assert (same_data w (set_ticks (S (S (ticks w1))) (set_drawn (drawn w1 + 16)%nat w1)))
        as Hs by (destruct Hsame as (?&?&?); done).
      by rewrite (table_same _ _ _ Hs). }
    rewrite wire_props, !lookup_normalize_props by apply product_row_keys.
    change (lookup_prop (product_row ?a ?b ?c ?d ?e ?f ?g) (js "id")) with (Some a).
    change (lookup_prop (product_row ?a ?b ?c ?d ?e ?f ?g) (js "price"))
      with (Some (js_or c (VStr []))).
    change (lookup_prop (product_row ?a ?b ?c ?d ?e ?f ?g) (js "whatsapp_link"))
      with (Some f).
    cbv beta iota.
    rewrite js_or_defined, (product_link_defined _ _ Hlink) by done. done.
  - rewrite post_products_local in Hrun by done.
    destruct (product_link (body req)) as [link|e] eqn:Hlink;
      [|injection Hrun as <- <-; done].
    cbv zeta in Hrun.
    destruct (method_target _ _ _) as [l|e] eqn:Hl; [|injection Hrun as <- <-; done].
    apply run_ok_inv in Hrun as [<- <-].
    match goal with
    | |- context [useSupabase ?x] =>
      replace (useSupabase x) with false by (symmetry; exact Hmode)
    end.
    change (js "products" ++ js ".json") with (js "products.json").
    assert (stored (files w) (js "products.json") = VArr l) as Hstored.
    { destruct (stored (files w) (js "products.json")); try done. by injection Hl as ->. }
    rewrite Hstored. cbn [files set_files].
    rewrite stored_after_push by (by apply (stored_array_json _ _ _ Hstored)).
    unfold norm_elem. rewrite normalize_VObj_props.
    eexists _, _, link, w. split; [done|]. split; [done|]. split; [done|].
    rewrite !lookup_normalize_props by apply product_record_keys.
    change (lookup_prop (product_record ?a ?b ?c ?d ?e ?f ?g) (js "id")) with (Some a).
    change (lookup_prop (product_record ?a ?b ?c ?d ?e ?f ?g) (js "price"))
      with (Some (js_or c (VStr []))).
    change (lookup_prop (product_record ?a ?b ?c ?d ?e ?f ?g) (js "whatsappLink"))
      with (Some f).
    cbv beta iota.
    rewrite js_or_defined, (product_link_defined _ _ Hlink) by done. done.
Qed.

(** C4. After a successful [POST /products] whose body has no [price], the
    record kept has the empty string as its [price]; when the body has no
    [whatsappLink], the link kept is the WhatsApp prefix followed by
    [encodeURIComponent(title)]. A successful request is an authenticated
    one: every other request is answered 401. *)
Theorem post_products_defaults req w resp w' :
  post_products req w = (Ok resp, w') ->
  status resp = 200 ->
  exists record,
    collection w' (js "products") = collection w (js "products") ++ [VObj record]
    /\ (field (body req) (js "price") = VUndefined ->
        lookup_prop record (js "price") = Some (VStr []))
    /\ (field (body req) (js "whatsappLink") = VUndefined ->
        exists enc,
          encodeURIComponent (field (body req) (js "title")) = Ok enc
          /\ lookup_prop record (link_key w) = Some (VStr (whatsapp_prefix ++ enc))).
Proof.
  intros H Hstatus.
  destruct (post_products_stored _ _ _ _ H Hstatus)
    as (record & shown & link & w1 & Hlink & _ & Hcoll & _ & _ & Hprice & Hlinked).
  exists record. split; [done|]. split.
  - intros Hp. by rewrite Hprice, Hp.
  - intros Hl. unfold product_link in Hlink. rewrite Hl in Hlink.
    change (truthy VUndefined) with false in Hlink. cbv iota in Hlink.
    destruct (encodeURIComponent (field (body req) (js "title"))) as [enc|e]; [|done].
    injection Hlink as <-. by exists enc.
Qed.

(** * Identifiers *)

Lemma strip_prefix_app p s : JSON.strip_prefix p (p ++ s) = Some s.
Proof. induction p as [|c p IH]; [done|]. cbn. by rewrite N.eqb_refl. Qed.

Lemma hex_lower_is_hex d : d < 16 -> is_lower_hex (hex_lower d) = true.
Proof.
  intros Hd. unfold hex_lower, is_lower_hex.
  destruct (N.ltb_spec d 10).
  - apply orb_true_iff. left. apply andb_true_iff. split; apply N.leb_le; lia.
  - apply orb_true_iff. right. apply andb_true_iff. split; apply N.leb_le; lia.
Qed.

Lemma byte_hex_is_hex b : b < 256 -> forallb is_lower_hex (byte_hex b) = true.
Proof.
  intros Hb. unfold byte_hex. cbn [forallb].
  rewrite !hex_lower_is_hex; [done| |].
  - change 0xF with (N.ones 4). rewrite N.land_ones. apply N.mod_lt. done.
  - rewrite N.shiftr_div_pow2. change (2 ^ 4) with 16.
    apply N.Div0.div_lt_upper_bound. lia.
Qed.

Lemma byte_lt b : Byte.to_N b < 256.
Proof. pose proof (Byte.to_N_bounded b). lia. Qed.

(** The first eight characters of a fresh UUID are the hexadecimal digits
    of its first four random bytes. *)
Lemma fresh_uuid_first8 w :
  substring0 8 (fresh_uuid w)
  = byte_hex (Byte.to_N (entropy w (drawn w + 0)%nat))
    ++ byte_hex (Byte.to_N (entropy w (drawn w + 1)%nat))
    ++ byte_hex (Byte.to_N (entropy w (drawn w + 2)%nat))
    ++ byte_hex (Byte.to_N (entropy w (drawn w + 3)%nat)).
Proof. reflexivity. Qed.

Lemma fresh_id_matches prefix w :
  matches_id prefix (prefix ++ substring0 8 (fresh_uuid w)) = true.
Proof.
  unfold matches_id. rewrite strip_prefix_app, fresh_uuid_first8.
  apply andb_true_iff. split; [reflexivity|].
  rewrite !forallb_app, !byte_hex_is_hex by apply byte_lt. done.
Qed.

(** The UUID of the uuid package has the shape 8-4-4-4-12 and the
    version digit 4. *)
Lemma uuid_shape rnds :
  length (uuid_of_bytes rnds) = 36%nat
  /\ uuid_of_bytes rnds !! 8%nat = Some 45
  /\ uuid_of_bytes rnds !! 13%nat = Some 45
  /\ uuid_of_bytes rnds !! 14%nat = Some 52
  /\ uuid_of_bytes rnds !! 18%nat = Some 45
  /\ uuid_of_bytes rnds !! 23%nat = Some 45.
Proof.
  repeat split; try reflexivity.
  unfold uuid_of_bytes, byte_hex. cbn [app lookup list_lookup].
  f_equal. unfold hex_lower.
  replace (N.shiftr (N.lor (N.land (nth 6 rnds 0) 15) 64) 4) with 4; [done|].
  symmetry. apply N.bits_inj. intros i.
  rewrite N.shiftr_spec', N.lor_spec, N.land_spec.
  change 15 with (N.ones 4). change 64 with (2 ^ 6).
  rewrite N.ones_spec_high by lia. rewrite andb_false_r, orb_false_l.
  change (N.testbit 4 i) with (N.testbit (2 ^ 2) i).
  rewrite !N.pow2_bits_eqb.
  destruct (N.eqb_spec 6 (i + 4)), (N.eqb_spec 2 i); try done; lia.
Qed.

Lemma fileFilter_ok f b : fileFilter f = Ok b -> b = true.
Proof. unfold fileFilter. destruct (_ && _); [by intros [= <-]|done]. Qed.

(** A route answers 200 only to an authenticated request whose upload,
    if any, was accepted; the answer is the answer of its handler. *)
Lemma route_handler_inv (handler : option upload_file -> M response) req w resp w' :
  requireAuth req (upload_single req handler) w = (Ok resp, w') ->
  status resp = 200 ->
  authenticated req = true /\ upload_accepted req
  /\ handler (upload req) w = (Ok resp, w').
Proof.
  unfold requireAuth, upload_single, upload_accepted. intros H Hstatus.
  destruct (authenticated req); [|by injection H as <- <-].
  split; [done|].
  destruct (upload req) as [f|]; [|done].
  destruct (fileFilter f) as [b|] eqn:Hf.
  - apply fileFilter_ok in Hf as ->.
    destruct (decide _); [done|].
    unfold mbind, M_bind, console_error, console_warn, modify, mret, M_ret in H.
    by apply run_ok_inv in H as [<- _].
  - unfold mbind, M_bind, console_error, console_warn, modify, mret, M_ret in H.
    by apply run_ok_inv in H as [<- _].
Qed.

Lemma readData_inv filename w a w' :
  readData filename w = (Ok a, w') -> a = stored (files w) filename /\ w' = w.
Proof. rewrite readData_stored. by intros [= <- <-]. Qed.

Lemma course_lit id title date comments description content image createdAt :
  obj_lit [(js "id", id); (js "title", title); (js "date", date);
           (js "comments", comments); (js "description", description);
           (js "content", content); (js "image", image); (js "createdAt", createdAt)]
  = [(js "id", id); (js "title", title); (js "date", date);
     (js "comments", comments); (js "description", description);
     (js "content", content); (js "image", image); (js "createdAt", createdAt)].
Proof. reflexivity. Qed.

Lemma course_row_lit id title date comments description content image created_at :
  obj_lit [(js "id", id); (js "title", title); (js "date", date);
           (js "comments", comments); (js "description", description);
           (js "content", content); (js "image", image); (js "created_at", created_at)]
  = [(js "id", id); (js "title", title); (js "date", date);
     (js "comments", comments); (js "description", description);
     (js "content", content); (js "image", image); (js "created_at", created_at)].
Proof. reflexivity. Qed.

(** A successful [POST /courses]: the identifier of the course shown in
    the response. *)
Lemma post_courses_shown req w resp w' :
  post_courses req w = (Ok resp, w') ->
  status resp = 200 ->
  exists shown w1,
    resp = success_with (js "course") (VObj shown)
    /\ lookup_prop shown (js "id")
       = Some (VStr (js "course-" ++ substring0 8 (fresh_uuid w1))).
Proof.
  intros H Hstatus. unfold post_courses in H.
  apply route_handler_inv in H as (_ & _ & H); [|done].
  unfold post_courses_handler in H.
  apply route_ok_inv in H; [|done]. cbv zeta in H.
  step H as use w0 Huse.
  step H as imageUrl w1 Himage. clear Himage.
  step H as uuid w2 Huuid. step H as date w3 Hdate. clear Hdate.
  step H as createdAt w4 HcreatedAt.
  destruct (useSupabase w).
  - step H as created_at w5 Hcreated_at.
    rewrite course_row_lit in H.
    step H as r w6 Hinsert.
    apply bind_ok_inv in H as (u & w7 & Hthrow & H). apply mret_inv in H as [-> ->].
    unfold throw_if_error in Hthrow. destruct (error_of r) eqn:Herr; [done|].
    destruct (remote_insert_ok _ _ _ _ _ Hinsert Herr) as (-> & _).
    eexists _, w1. split; [done|].
    rewrite wire_props, lookup_normalize_props by (apply (bool_decide_unpack _); reflexivity).
    reflexivity.
  - step H as courses w5 Hread. step H as l w6 Hl.
    apply bind_ok_inv in H as (u & w7 & Hwrite & H). apply mret_inv in H as [-> ->].
    rewrite course_lit. eexists _, w1. split; reflexivity.
Qed.

(** C9. The identifier of a record created by [POST /products] or by
    [POST /courses] is the prefix [prod-] or [course-] followed by the
    first eight characters of a fresh version-4 UUID, and matches
    [/^prod-[0-9a-f]{8}$/] or [/^course-[0-9a-f]{8}$/]. *)
Theorem generated_ids req w resp w' :
  status resp = 200 ->
  (post_products req w = (Ok resp, w') ->
   exists product id w1,
     resp = success_with (js "product") (VObj product)
     /\ lookup_prop product (js "id") = Some (VStr id)
     /\ id = js "prod-" ++ substring0 8 (fresh_uuid w1)
     /\ matches_id (js "prod-") id = true)
  /\ (post_courses req w = (Ok resp, w') ->
      exists course id w1,
        resp = success_with (js "course") (VObj course)
        /\ lookup_prop course (js "id") = Some (VStr id)
        /\ id = js "course-" ++ substring0 8 (fresh_uuid w1)
        /\ matches_id (js "course-") id = true).
Proof.
  intros Hstatus. split; intros H.
  - destruct (post_products_stored _ _ _ _ H Hstatus)
      as (record & shown & link & w1 & _ & -> & _ & Hid & _).
    exists shown, (js "prod-" ++ substring0 8 (fresh_uuid w1)), w1.
    repeat split; [done|]. apply fresh_id_matches.
  - destruct (post_courses_shown _ _ _ _ H Hstatus) as (shown & w1 & -> & Hid).
    exists shown, (js "course-" ++ substring0 8 (fresh_uuid w1)), w1.
    repeat split; [done|]. apply fresh_id_matches.
Qed.

(** * Updates and deletions *)

Lemma id_is_record id o : id_is id (VObj o) = Ok (has_id id (VObj o)).
Proof. reflexivity. Qed.

Lemma id_is_not_record id o : id_is_not id (VObj o) = Ok (negb (has_id id (VObj o))).
Proof. reflexivity. Qed.

Lemma scan_unmatched id l :
  forallb is_record l = true ->
  Forall (fun v => has_id id v = false) l ->
  find (id_is id) l = Ok VUndefined
  /\ findIndex (id_is id) l = Ok None
  /\ filter_values (id_is_not id) l = Ok l.
Proof.
  induction l as [|x l IH]; intros Hrec Hno; [done|].
  cbn [forallb] in Hrec. apply andb_true_iff in Hrec as [Hx Hl].
  inversion_clear Hno as [|? ? Hx' Hl'].
  destruct (IH Hl Hl') as (IH1 & IH2 & IH3).
  destruct x as [| | | | | |o]; try done.
  cbn [find findIndex filter_values].
  rewrite id_is_record, id_is_not_record, Hx'. cbn [mbind result_bind negb].
  by rewrite IH1, IH2, IH3.
Qed.

Lemma online_next w :
  online w ->
  exists w', net_next w = (Ok None, w') /\ online w' /\ same_data w w'
             /\ bucket w' = bucket w.
Proof.
  unfold online, net_next. intros Hon.
  destruct (net w) as [|o rest] eqn:E.
  - exists w. rewrite E. done.
  - inversion_clear Hon as [|? ? -> Hrest]. eexists. split; [done|]. done.
Qed.

Lemma filter_none {A} (f : A -> bool) l :
  Forall (fun x => f x = false) l -> List.filter f l = [].
Proof.
  induction 1 as [|x l Hx _ IH]; [done|]. cbn. by rewrite Hx.
Qed.

Lemma filter_all {A} (f : A -> bool) l :
  Forall (fun x => f x = true) l -> List.filter f l = l.
Proof.
  induction 1 as [|x l Hx _ IH]; [done|]. cbn. by rewrite Hx, IH.
Qed.

Lemma row_matches_id id row : row_matches (js "id") (VStr id) row = has_id id (VObj row).
Proof. reflexivity. Qed.

Lemma stored_rewrite fs filename l :
  stored fs filename = VArr l ->
  stored (<[data_path filename := default [] (JSON.stringify (VArr l))]> fs) filename
  = VArr l.
Proof.
  intros Hl. destruct (stringify_VArr l) as [t Ht]. rewrite Ht. cbn [default].
  rewrite (stored_insert _ _ _ _ Ht), normalize_VArr.
  by rewrite normalize_elems_json by (by apply (stored_array_json _ _ _ Hl)).
Qed.

Lemma writeData_array filename l w :
  writeData filename (VArr l) w
  = (Ok tt, set_files (<[data_path filename := default [] (JSON.stringify (VArr l))]> (files w)) w).
Proof.
  destruct (writeData_VArr filename l w) as (t & Ht & ->). by rewrite Ht.
Qed.

(** A [DELETE] whose identifier matches no record answers "Deleted" and
    leaves the records as they were. *)
Lemma delete_unmatched name plural singular req w :
  readable w name ->
  no_record w name (params_id req) ->
  exists w',
    delete_handler name (name ++ js ".json") plural singular req w = (Ok deleted, w')
    /\ collection w' name = collection w name.
Proof.
  unfold readable, no_record, collection. intros Hread Hno.
  unfold delete_handler, try_catch, mbind at 1, M_bind at 1, gets.
  destruct (useSupabase w) eqn:Hmode.
  - destruct (online_next w Hread) as (w1 & Hnet1 & Hon1 & Hsame1 & _).
    destruct (online_next w1 Hon1) as (w2 & Hnet2 & Hon2 & Hsame2 & _).
    assert (Hrows : Forall (fun r => row_matches (js "id") (VStr (params_id req)) r = false)
                      (table name w)).
    { apply List.Forall_forall. intros r Hr. rewrite row_matches_id.
      rewrite List.Forall_forall in Hno. apply Hno. by apply in_map. }
    unfold remote_select_single, remote_delete, mbind, M_bind, gets, mret, M_ret,
      set_table, modify, throw_if_error.
    rewrite Hnet1. rewrite (table_same _ _ name Hsame1), (filter_none _ _ Hrows).
    cbn [data store_error failed get_opt truthy]. rewrite Hnet2.
    rewrite (table_same _ _ name Hsame2), (table_same _ _ name Hsame1).
    rewrite filter_all.
    2:{ eapply List.Forall_impl; [|exact Hrows]. cbn. by intros r ->. }
    cbn [error_of]. eexists. split; [done|].
    assert (useSupabase (set_tables (<[name := table name w]> (tables w2)) w2) = true) as ->.
    { rewrite <- Hmode. unfold useSupabase. cbn [env set_tables].
      destruct Hsame1 as (E1 & _), Hsame2 as (E2 & _). by rewrite E2, E1. }
    by rewrite table_set_table.
  - destruct Hread as (l & Hl & Hrec). rewrite Hl in Hno.
    destruct (scan_unmatched _ _ Hrec Hno) as (Hfind & _ & Hfilter).
    unfold mbind, M_bind, lift, mret, M_ret.
    rewrite readData_stored, Hl. cbn [method_target].
    rewrite Hfind. cbn [get_opt]. unfold unlink_local_image. cbn [truthy].
    unfold mret, M_ret. rewrite Hfilter, writeData_array.
    eexists. split; [done|].
    match goal with
    | |- context [useSupabase ?x] =>
      replace (useSupabase x) with false by (symmetry; exact Hmode)
    end.
    cbn [files set_files]. by rewrite stored_rewrite.
Qed.

Lemma collection_same w w' name : same_data w w' -> collection w' name = collection w name.
Proof.
  intros Hs. unfold collection.
  rewrite (useSupabase_same _ _ Hs), (table_same _ _ _ Hs).
  destruct Hs as (_ & -> & _). done.
Qed.

(** A [PUT] whose identifier matches no record answers 404 and changes no
    record. *)
Lemma put_unmatched req file w :
  readable w (js "products") ->
  no_record w (js "products") (params_id req) ->
  exists w',
    put_products_handler req file w = (Ok not_found, w')
    /\ collection w' (js "products") = collection w (js "products").
Proof.
  unfold readable, no_record. intros Hread Hno.
  unfold put_products_handler, try_catch, mbind at 1, M_bind at 1, gets.
  cbv zeta. unfold collection in Hno.
  destruct (useSupabase w) eqn:Hmode.
  - destruct (online_next w Hread) as (w1 & Hnet1 & Hon1 & Hsame1 & _).
    assert (Hrows : Forall (fun r => row_matches (js "id") (VStr (params_id req)) r = false)
                      (table (js "products") w)).
    { apply List.Forall_forall. intros r Hr. rewrite row_matches_id.
      rewrite List.Forall_forall in Hno. apply Hno. by apply in_map. }
    unfold remote_select_single, mbind, M_bind, gets, mret, M_ret.
    rewrite Hnet1. rewrite (table_same _ _ _ Hsame1), (filter_none _ _ Hrows).
    cbn [data store_error failed truthy negb].
    exists w1. split; [done|]. by apply collection_same.
  - destruct Hread as (l & Hl & Hrec).
    change (js "products" ++ js ".json") with (js "products.json") in *.
    rewrite Hl in Hno.
    destruct (scan_unmatched _ _ Hrec Hno) as (_ & Hfind & _).
    unfold mbind, M_bind, lift, mret, M_ret.
    rewrite readData_stored, Hl. cbn [method_target]. rewrite Hfind.
    by exists w.
Qed.

(** C1, as amended. For an authenticated request whose identifier
    matches no record of a readable collection: [PUT /products/:id], with
    no upload or with one that is accepted, answers 404 with the body
    [{ error: 'Not found' }]; [DELETE /products/:id] and
    [DELETE /courses/:id] answer 200 with [{ success: true, message:
    'Deleted' }], not 404; none of them changes the records. *)
Theorem missing_record_responses req w :
  authenticated req = true ->
  (readable w (js "products") ->
   no_record w (js "products") (params_id req) ->
   (upload_accepted req ->
    exists w', put_products req w = (Ok (res_status_json 404 (error_body (js "Not found"))), w')
               /\ collection w' (js "products") = collection w (js "products"))
   /\ exists w', delete_products req w = (Ok deleted, w') /\ status deleted = 200
                 /\ collection w' (js "products") = collection w (js "products"))
  /\ (readable w (js "courses") ->
      no_record w (js "courses") (params_id req) ->
      exists w', delete_courses req w = (Ok deleted, w') /\ status deleted = 200
                 /\ collection w' (js "courses") = collection w (js "courses")).
Proof.
  intros Hauth. split.
  - intros Hread Hno. split.
    + intros Hup. unfold put_products, requireAuth. rewrite Hauth.
      rewrite upload_single_accepted by done. by apply put_unmatched.
    + unfold delete_products, requireAuth. rewrite Hauth.
      destruct (delete_unmatched (js "products") (js "products") (js "product") req w Hread Hno)
        as (w' & H & Hc).
      by exists w'.
  - intros Hread Hno. unfold delete_courses, requireAuth. rewrite Hauth.
    destruct (delete_unmatched (js "courses") (js "courses") (js "course") req w Hread Hno)
      as (w' & H & Hc).
    by exists w'.
Qed.

Lemma findIndex_Some f l : forall i,
  findIndex f l = Ok (Some i) -> exists x, l !! i = Some x /\ f x = Ok true.
Proof.
  induction l as [|y l IH]; intros i H; [done|].
  cbn [findIndex] in H. destruct (f y) as [[]|e] eqn:Hy; cbn [mbind result_bind] in H.
  - injection H as <-. by exists y.
  - destruct (findIndex f l) as [[j|]|e]; cbn [mbind result_bind option_map] in H; try done.
    injection H as <-. destruct (IH j eq_refl) as (x & Hx & Hfx). by exists x.
  - done.
Qed.

Lemma id_is_true id x :
  id_is id x = Ok true -> exists o, x = VObj o /\ has_id id (VObj o) = true.
Proof.
  destruct x as [| | | | | |o]; try done. rewrite id_is_record. intros [= H]. by exists o.
Qed.

Lemma stored_after_write fs filename l :
  stored (<[data_path filename := default [] (JSON.stringify (VArr l))]> fs) filename
  = VArr (map norm_elem l).
Proof.
  destruct (stringify_VArr l) as [t Ht]. rewrite Ht. cbn [default].
  by rewrite (stored_insert _ _ _ _ Ht), normalize_VArr.
Qed.

Lemma writeData_inv filename l w u w' :
  writeData filename (VArr l) w = (Ok u, w') ->
  stored (files w') filename = VArr (map norm_elem l) /\ env w' = env w.
Proof.
  rewrite writeData_array. intros [_ <-]%run_ok_inv. cbn [files set_files env].
  by rewrite stored_after_write.
Qed.

Lemma env_unlink_local_image image name w r w' :
  unlink_local_image image name w = (r, w') -> env w' = env w /\ ticks w' = ticks w.
Proof.
  unfold unlink_local_image, mbind, M_bind, lift, mret, M_ret, try_catch, unlinkSync.
  destruct (truthy image); [|by intros [= <- <-]].
  destruct (call_startsWith _ _ _) as [[]|e]; try by intros [= <- <-].
  destruct (files w !! _); by intros [= <- <-].
Qed.

(** A successful [PUT /products/:id] on the local files. *)
Lemma put_products_local req file w resp w' :
  useSupabase w = false ->
  put_products_handler req file w = (Ok resp, w') ->
  status resp = 200 ->
  exists l i old updatedAt,
    stored (files w) (js "products.json") = VArr l
    /\ l !! i = Some (VObj old)
    /\ has_id (params_id req) (VObj old) = true
    /\ let base := match file with
                   | Some f => obj_set old (js "image") (VStr (js "/uploads/undefined"))
                   | None => old
                   end in
       let new := obj_assign base (put_fields (body req) updatedAt) in
       resp = success_with (js "product") (VObj new)
       /\ stored (files w') (js "products.json")
          = VArr (<[i := VObj (normalize_props new)]> l)
       /\ env w' = env w.
Proof.
  intros Hlocal H Hstatus. unfold put_products_handler in H.
  apply route_ok_inv in H; [|done]. cbv zeta in H.
  step H as use w0 Huse. rewrite Hlocal in H.
  step H as products w1 Hread. apply readData_inv in Hread as [-> ->].
  step H as l w2 Hl. step H as index w3 Hindex.
  destruct index as [i|]; [|by apply mret_inv in H as [-> ->]].
  destruct (findIndex_Some _ _ _ Hindex) as (x & Hx & Hid).
  destruct (id_is_true _ _ Hid) as (old & -> & Hold).
  assert (Hstored : stored (files w) (js "products.json") = VArr l).
  { destruct (stored (files w) (js "products.json")); try done. by injection Hl as ->. }
  step H as l1 w4 Hl1. step H as updatedAt w5 Hnow.
  apply bind_ok_inv in H as (u & w6 & Hwrite & H). apply mret_inv in H as [-> ->].
  apply writeData_inv in Hwrite as [Hfiles Henv].
  eexists l, i, old, _. split; [done|]. split; [done|]. split; [done|].
  assert (Hjson : map norm_elem l = l).
  { apply normalize_elems_json. by apply (stored_array_json _ _ _ Hstored). }
  cbv zeta. destruct file as [f|].
  - step Hl1 as oldImage w7 Hget.
    apply bind_ok_inv in Hl1 as (u' & w8 & Hunlink & Hl1). apply mret_inv in Hl1 as [-> ->].
    apply env_unlink_local_image in Hunlink as [Henv' _].
    rewrite (nth_lookup_Some _ _ _ _ Hx) in *.
    assert (Hi : (i < length l)%nat) by (by apply lookup_lt_Some in Hx).
    rewrite (nth_lookup_Some _ i _ _ (list_lookup_insert_eq _ _ _ Hi)) in *.
    rewrite list_insert_insert_eq in Hfiles.
    split; [done|]. split; [|cbn [env set_ticks] in Henv; congruence].
    rewrite Hfiles. change (map norm_elem ?x) with (norm_elem <$> x).
    rewrite list_fmap_insert. change (norm_elem <$> l) with (map norm_elem l).
    rewrite Hjson. unfold norm_elem. rewrite normalize_VObj_props. reflexivity.
  - apply mret_inv in Hl1 as [-> ->].
    rewrite (nth_lookup_Some _ _ _ _ Hx) in *.
    split; [done|]. split; [|done].
    rewrite Hfiles. change (map norm_elem ?x) with (norm_elem <$> x).
    rewrite list_fmap_insert. change (norm_elem <$> l) with (map norm_elem l).
    rewrite Hjson. unfold norm_elem. rewrite normalize_VObj_props. reflexivity.
Qed.

(** ** [PUT /products/:id] on the remote store *)

Lemma filter_single {A} (f : A -> bool) (x : A) rows row :
  List.filter f rows = [row] ->
  exists i, rows !! i = Some row /\ f row = true
            /\ map (fun r => if f r then x else r) rows = <[i := x]> rows.
Proof.
  induction rows as [|y rows IH]; [done|]. cbn [List.filter map].
  destruct (f y) eqn:Hy.
  - intros [= -> Hrest]. exists O. split; [done|]. split; [done|].
    cbn. f_equal. clear IH. induction rows as [|z rows IH]; [done|].
    cbn [List.filter] in Hrest. destruct (f z) eqn:Hz; [done|].
    cbn. rewrite Hz. f_equal. by apply IH.
  - intros H. destruct (IH H) as (i & Hi & Hrow & Hmap).
    exists (S i). cbn. by rewrite Hmap.
Qed.

Lemma remote_select_single_found t col x w r w1 :
  remote_select_single t None col x w = (Ok r, w1) ->
  truthy (data r) = true ->
  exists row, data r = VObj row
              /\ List.filter (row_matches col x) (table t w) = [row]
              /\ same_data w w1 /\ ticks w1 = ticks w /\ clock w1 = clock w.
Proof.
  unfold remote_select_single, mbind, M_bind, gets, mret, M_ret.
  destruct (net_next w) as [[[e|]|e] w0] eqn:Hnet; [by intros [= <- <-]| |done].
  assert (ticks w0 = ticks w /\ clock w0 = clock w) as [Hticks Hclock].
  { revert Hnet. unfold net_next. destruct (net w) as [|[| |] ?]; by intros [= <-]. }
  apply net_next_same in Hnet. rewrite (table_same _ _ t Hnet).
  destruct (List.filter _ _) as [|row [|]]; try by intros [= <- <-].
  intros [= <- <-] _. by exists row.
Qed.

Lemma quiet_ret {A} (a : A) : quiet (mret a).
Proof. by intros w r w' [= <- <-]. Qed.

Lemma quiet_lift {A} (x : result A) : quiet (lift x).
Proof. by intros w r w' [= <- <-]. Qed.

Lemma quiet_gets {A} (f : world -> A) : quiet (gets f).
Proof. by intros w r w' [= <- <-]. Qed.

Lemma quiet_bind {A B} (m : M A) (k : A -> M B) :
  quiet m -> (forall a, quiet (k a)) -> quiet (m ≫= k).
Proof.
  intros Hm Hk w r w'. unfold mbind, M_bind.
  destruct (m w) as [[a|e] w1] eqn:E; apply Hm in E as (Hs & Ht & Hc).
  - intros H. apply Hk in H as (Hs' & Ht' & Hc').
    split; [by eauto using same_data_trans|]. split; congruence.
  - by intros [= <- <-].
Qed.

Lemma quiet_try_catch {A} (m : M A) (h : error -> M A) :
  quiet m -> (forall e, quiet (h e)) -> quiet (try_catch m h).
Proof.
  intros Hm Hh w r w'. unfold try_catch.
  destruct (m w) as [[a|e] w1] eqn:E; apply Hm in E as (Hs & Ht & Hc).
  - by intros [= <- <-].
  - intros H. apply Hh in H as (Hs' & Ht' & Hc').
    split; [by eauto using same_data_trans|]. split; congruence.
Qed.

Lemma quiet_net_next : quiet net_next.
Proof.
  intros w r w'. unfold net_next. destruct (net w) as [|[| |] ?]; by intros [= <- <-].
Qed.

Lemma quiet_console_warn line : quiet (console_warn line).
Proof. by intros w r w' [= <- <-]. Qed.

Lemma quiet_storage_remove path : quiet (storage_remove path).
Proof.
  unfold storage_remove. apply quiet_bind; [apply quiet_net_next|].
  intros [e|]; [apply quiet_ret|].
  apply quiet_bind; [|intros; apply quiet_ret]. by intros w r w' [= <- <-].
Qed.

Lemma quiet_deleteFromSupabase image : quiet (deleteFromSupabase image).
Proof.
  unfold deleteFromSupabase. apply quiet_bind; [apply quiet_gets|]. intros use.
  destruct (_ || _); [apply quiet_ret|].
  apply quiet_try_catch; [|intros; apply quiet_console_warn].
  apply quiet_bind; [apply quiet_lift|]. intros parts.
  apply quiet_bind; [apply quiet_storage_remove|]. intros; apply quiet_ret.
Qed.

Lemma remote_update_ok t patch col x w r w' :
  remote_update t patch col x w = (Ok r, w') ->
  error_of r = None ->
  exists row,
    List.filter (row_matches col x) (table t w) = [row]
    /\ data r = VObj (obj_assign row (wire patch))
    /\ table t w'
       = map (fun r => if row_matches col x r then obj_assign row (wire patch) else r)
           (table t w)
    /\ env w' = env w.
Proof.
  unfold remote_update, mbind, M_bind, gets, mret, M_ret, set_table, modify.
  destruct (net_next w) as [[[e|]|e] w0] eqn:Hnet; [by intros [= <- <-]| |done].
  apply net_next_same in Hnet. rewrite (table_same _ _ t Hnet).
  destruct (List.filter _ _) as [|row [|]]; try by intros [= <- <-].
  intros [= <- <-] _. exists row. split; [done|]. split; [done|].
  rewrite table_set_table. split; [done|]. by destruct Hnet as (? & _).
Qed.

Lemma put_patch_lit b image updated_at :
  obj_lit [(js "title", field b (js "title")); (js "price", field b (js "price"));
           (js "description", field b (js "description")); (js "image", image);
           (js "whatsapp_link", field b (js "whatsappLink")); (js "updated_at", updated_at)]
  = put_patch b image updated_at.
Proof. reflexivity. Qed.

(** A successful [PUT /products/:id] on the remote store. *)
Lemma put_products_remote req file w resp w' :
  useSupabase w = true ->
  put_products_handler req file w = (Ok resp, w') ->
  status resp = 200 ->
  exists i old image updated_at,
    table (js "products") w !! i = Some old
    /\ has_id (params_id req) (VObj old) = true
    /\ (file = None -> image = field old (js "image"))
    /\ (file <> None -> exists url, image = VStr url)
    /\ let new := obj_assign old (wire (put_patch (body req) image updated_at)) in
       resp = success_with (js "product") (VObj new)
       /\ table (js "products") w' = <[i := new]> (table (js "products") w)
       /\ env w' = env w.
Proof.
  intros Hremote H Hstatus. unfold put_products_handler in H.
  apply route_ok_inv in H; [|done]. cbv zeta in H.
  step H as use w0 Huse. rewrite Hremote in H.
  step H as r w1 Hselect.
  destruct (truthy (data r)) eqn:Hfound; [|by apply mret_inv in H as [-> ->]].
  cbn [negb] in H.
  destruct (remote_select_single_found _ _ _ _ _ _ Hselect Hfound)
    as (old & Hdata & Hfilter & Hsame1 & _). rewrite Hdata in H.
  step H as imageUrl0 w2 Hget. cbn [get] in Hget. injection Hget as <-.
  step H as imageUrl w3 Himage.
  assert (same_data w w3
          /\ (file = None -> imageUrl = field old (js "image"))
          /\ (file <> None -> exists url, imageUrl = VStr url)) as (Hsame3 & Hnone & Hsome).
  { destruct file as [f|].
    - apply bind_ok_inv in Himage as (u & w4 & Hdel & Himage).
      step Himage as url w5 Hup. apply mret_inv in Himage as [-> ->].
      apply uploadToSupabase_same in Hup as (Hs5 & _).
      assert (same_data w1 w4) as Hs4.
      { match type of Hdel with
        | context [if truthy ?x then _ else _] => destruct (truthy x)
        end.
        - by apply quiet_deleteFromSupabase in Hdel as (? & _).
        - by apply mret_inv in Hdel as [_ ->]. }
      split; [by eauto using same_data_trans|]. split; [done|]. by eauto.
    - apply mret_inv in Himage as [-> ->]. done. }
  step H as updated_at w4 Hnow. rewrite put_patch_lit in H.
  step H as r2 w5 Hupdate.
  apply bind_ok_inv in H as (u & w6 & Hthrow & H). apply mret_inv in H as [-> ->].
  unfold throw_if_error in Hthrow. destruct (error_of r2) eqn:Herr; [done|].
  apply mret_inv in Hthrow as [_ ->].
  destruct (remote_update_ok _ _ _ _ _ _ _ Hupdate Herr)
    as (old' & Hfilter' & Hdata' & Htable & Henv).
  assert (Hs : same_data w (set_ticks (S (ticks w3)) w3))
    by (destruct Hsame3 as (?&?&?); done).
  rewrite (table_same _ _ _ Hs) in Hfilter', Htable.
  rewrite Hfilter in Hfilter'. injection Hfilter' as <-.
  destruct (filter_single _
              (obj_assign old (wire (put_patch (body req) imageUrl (VStr (clock w3 (ticks w3))))))
              _ _ Hfilter) as (i & Hi & Hmatch & Hmap).
  exists i, old, imageUrl, (VStr (clock w3 (ticks w3))).
  split; [done|]. split; [by rewrite <- row_matches_id|].
  split; [done|]. split; [done|]. cbv zeta.
  rewrite Hdata'. split; [done|]. split; [by rewrite Htable, Hmap|].
  rewrite Henv. cbn [env set_ticks]. by destruct Hsame3 as (? & _).
Qed.

(** ** The fields after a [PUT] *)

Lemma lookup_prop_In o k v : lookup_prop o k = Some v -> In (k, v) o.
Proof.
  induction o as [|[k0 v0] o IH]; [done|]. cbn [lookup_prop].
  destruct (decide (k0 = k)) as [->|?]; [intros [= ->]; by left|].
  intros H. right. by apply IH.
Qed.

Lemma lookup_prop_None o k : lookup_prop o k = None -> ~ In k (map fst o).
Proof.
  induction o as [|[k0 v0] o IH]; [by intros _ []|]. cbn [lookup_prop map fst].
  destruct (decide (k0 = k)) as [->|?]; [done|].
  intros H [?|Hin]; [done|]. by apply IH.
Qed.

(** [{ ...o, ...ps }]: a key of [ps] has the value [ps] gives it, another
    key the value it had in [o]. *)
Lemma lookup_obj_assign o ps k :
  NoDup (map fst ps) ->
  lookup_prop (obj_assign o ps) k
  = match lookup_prop ps k with
    | Some v => Some v
    | None => lookup_prop o k
    end.
Proof.
  intros Hnd. destruct (lookup_prop ps k) as [v|] eqn:E.
  - apply lookup_obj_assign_in; [done|]. by apply lookup_prop_In.
  - apply lookup_obj_assign_notin. by apply lookup_prop_None.
Qed.

Lemma obj_assign_keys ps : forall o, NoDup (map fst o) -> NoDup (map fst (obj_assign o ps)).
Proof.
  induction ps as [|[k v] ps IH]; intros o Ho; [done|].
  unfold obj_assign. cbn [fold_left]. apply IH. by apply obj_set_keys.
Qed.

Lemma is_json_keys o : is_json (VObj o) = true -> NoDup (map fst o).
Proof. cbn [is_json]. intros [H _]%andb_true_iff. by apply bool_decide_eq_true in H. Qed.

Lemma is_json_lookup o k v :
  is_json (VObj o) = true -> lookup_prop o k = Some v -> is_json v = true.
Proof.
  cbn [is_json]. intros [_ H]%andb_true_iff Hk. apply lookup_prop_In in Hk.
  rewrite forallb_forall in H. by apply (H (k, v)).
Qed.

(** The property of a JSON record survives serialisation. *)
Lemma lookup_json_unchanged o k :
  is_json (VObj o) = true ->
  match lookup_prop o k with
  | Some v => if is_defined v then Some (JSON.normalize v) else None
  | None => None
  end = lookup_prop o k.
Proof.
  intros Ho. destruct (lookup_prop o k) as [v|] eqn:E; [|done].
  pose proof (is_json_lookup _ _ _ Ho E) as Hv.
  by rewrite (is_json_defined _ Hv), (normalize_json _ Hv).
Qed.

Lemma put_fields_keys b updatedAt : NoDup (map fst (put_fields b updatedAt)).
Proof. apply (bool_decide_unpack _). reflexivity. Qed.

Lemma put_patch_keys b image updated_at : NoDup (map fst (put_patch b image updated_at)).
Proof. apply (bool_decide_unpack _). reflexivity. Qed.

Lemma collection_json_local w name :
  useSupabase w = false -> forallb is_json (collection w name) = true.
Proof.
  intros Hmode. unfold collection. rewrite Hmode.
  destruct (stored _ _) eqn:E; try done. by apply (stored_array_json _ _ _ E).
Qed.


(** * The migration script *)

Lemma migrates_ret name {A} (a : A) : migrates name (mret a).
Proof. by intros w r w' [= <- <-]. Qed.

Lemma migrates_lift name {A} (x : result A) : migrates name (lift x).
Proof. by intros w r w' [= <- <-]. Qed.

Lemma migrates_throw name {A} e : migrates name (throw e : M A).
Proof. by intros w r w' [= <- <-]. Qed.

Lemma migrates_gets name {A} (f : world -> A) : migrates name (gets f).
Proof. by intros w r w' [= <- <-]. Qed.

Lemma migrates_bind name {A B} (m : M A) (k : A -> M B) :
  migrates name m -> (forall a, migrates name (k a)) -> migrates name (m ≫= k).
Proof.
  intros Hm Hk w r w'. unfold mbind, M_bind.
  destruct (m w) as [[a|e] w1] eqn:E; apply Hm in E as (He & Hf & Hs & Ho & Ht).
  - intros H. apply Hk in H as (He' & Hf' & Hs' & Ho' & Ht').
    repeat split; try congruence; [by auto|]. intros t Hne. by rewrite Ht', Ht.
  - by intros [= <- <-].
Qed.

Lemma migrates_try_catch name {A} (m : M A) (h : error -> M A) :
  migrates name m -> (forall e, migrates name (h e)) -> migrates name (try_catch m h).
Proof.
  intros Hm Hh w r w'. unfold try_catch.
  destruct (m w) as [[a|e] w1] eqn:E; apply Hm in E as (He & Hf & Hs & Ho & Ht).
  - by intros [= <- <-].
  - intros H. apply Hh in H as (He' & Hf' & Hs' & Ho' & Ht').
    repeat split; try congruence; [by auto|]. intros t Hne. by rewrite Ht', Ht.
Qed.

Lemma migrates_console_log name line : migrates name (console_log line).
Proof. by intros w r w' [= <- <-]. Qed.

Lemma migrates_now_iso name : migrates name now_iso.
Proof. by intros w r w' [= <- <-]. Qed.

Lemma migrates_net_next name : migrates name net_next.
Proof.
  intros w r w'. unfold net_next, online.
  destruct (net w) as [|[| |] rest] eqn:E; intros [= <- <-];
    (split; [done|]); (split; [done|]); (split; [done|]); (split; [|done]).
  - by rewrite E.
  - cbn [net set_net]. by intros [_ ?]%Forall_cons.
  - cbn [net set_net]. by intros [_ ?]%Forall_cons.
  - cbn [net set_net]. by intros [_ ?]%Forall_cons.
Qed.

Lemma migrates_set_table name rows : migrates name (set_table name rows).
Proof.
  intros w r w' [= <- <-]. repeat split; try done.
  intros t Hne. by apply table_set_table_ne.
Qed.

Lemma migrates_readFileSync name path : migrates name (readFileSync path).
Proof. intros w r w'. unfold readFileSync. destruct (files w !! path); by intros [= <- <-]. Qed.

Lemma migrates_JSON_parse name text : migrates name (JSON_parse text).
Proof.
  unfold JSON_parse. destruct (JSON.parse text); [apply migrates_ret|apply migrates_throw].
Qed.

Lemma migrates_remote_upsert name row : migrates name (remote_upsert name row).
Proof.
  unfold remote_upsert. apply migrates_bind; [apply migrates_net_next|].
  intros [e|]; [apply migrates_ret|].
  apply migrates_bind; [apply migrates_gets|]. intros rows.
  destruct (negb _); [apply migrates_ret|].
  destruct (existsb _ _);
    (apply migrates_bind; [apply migrates_set_table|intros; apply migrates_ret]).
Qed.

Lemma migrates_or_now name x : migrates name (or_now x).
Proof.
  unfold or_now. destruct (truthy x); [apply migrates_ret|].
  apply migrates_bind; [apply migrates_now_iso|intros; apply migrates_ret].
Qed.

Ltac migrates_steps :=
  repeat first
    [ apply migrates_ret
    | apply migrates_lift
    | apply migrates_or_now
    | apply migrates_remote_upsert
    | apply migrates_bind; [|intros ?] ].

Lemma migrates_upsert_user x : migrates (js "users") (upsert_user x).
Proof. unfold upsert_user. migrates_steps. Qed.

Lemma migrates_upsert_product x : migrates (js "products") (upsert_product x).
Proof. unfold upsert_product. migrates_steps. Qed.

Lemma migrates_upsert_course x : migrates (js "courses") (upsert_course x).
Proof. unfold upsert_course. migrates_steps. Qed.

Lemma migrates_for_each name (f : value -> M unit) l :
  (forall x, migrates name (f x)) -> migrates name (for_each l f).
Proof.
  intros Hf. induction l as [|x l IH]; [apply migrates_ret|].
  cbn [for_each]. apply migrates_bind; [apply Hf|]. by intros _.
Qed.

Lemma migrates_collection name (f : value -> M unit) :
  (forall x, migrates name (f x)) -> migrates name (migrate_collection name f).
Proof.
  intros Hf. unfold migrate_collection.
  apply migrates_bind; [apply migrates_console_log|]. intros _.
  apply migrates_try_catch; [|intros; apply migrates_console_log].
  apply migrates_bind; [apply migrates_readFileSync|]. intros text.
  apply migrates_bind; [apply migrates_JSON_parse|]. intros records.
  apply migrates_bind; [apply migrates_lift|]. intros l.
  apply migrates_bind; [by apply migrates_for_each|]. intros _.
  apply migrates_console_log.
Qed.

(** A block of [migrate] never throws: its [catch] takes every error. *)
Lemma migrate_collection_total name f w :
  exists w', migrate_collection name f w = (Ok tt, w').
Proof.
  unfold migrate_collection, try_catch, mbind at 1, M_bind at 1, console_log, modify.
  match goal with
  | |- context [let (r, w') := ?m ?w0 in _] => destruct (m w0) as [[[]|e] w1]
  end; by eexists.
Qed.


(** [migrate] runs to its end whatever happens in its three blocks. *)
Lemma migrate_total w :
  exists w', migrate w = (Ok tt, w')
    /\ env w' = env w /\ files w' = files w /\ stderr w' = stderr w
    /\ (online w -> online w')
    /\ last (stdout w') = Some banner.
Proof.
  unfold migrate, mbind, M_bind.
  destruct (console_log (js "Starting migration..." ++ [10]) w) as [r0 w0] eqn:E0.
  assert (r0 = Ok tt) as -> by (by injection E0 as <- _).
  apply (migrates_console_log (js "users")) in E0 as (He0 & Hf0 & Hs0 & Ho0 & _).
  destruct (migrate_collection_total (js "users") upsert_user w0) as [w1 E1]. rewrite E1.
  apply (migrates_collection _ _ migrates_upsert_user) in E1 as (He1 & Hf1 & Hs1 & Ho1 & _).
  destruct (migrate_collection_total (js "products") upsert_product w1) as [w2 E2]. rewrite E2.
  apply (migrates_collection _ _ migrates_upsert_product) in E2 as (He2 & Hf2 & Hs2 & Ho2 & _).
  destruct (migrate_collection_total (js "courses") upsert_course w2) as [w3 E3]. rewrite E3.
  apply (migrates_collection _ _ migrates_upsert_course) in E3 as (He3 & Hf3 & Hs3 & Ho3 & _).
  eexists. split; [reflexivity|]. cbn [env files stderr stdout set_stdout].
  repeat split; try congruence; [by auto|]. by rewrite last_snoc.
Qed.

Lemma script_configured w :
  configured w -> exists w', migrate w = (Ok tt, w') /\ script w = (w', 0).
Proof.
  intros [Hurl Hkey]. destruct (migrate_total w) as (w' & Hm & _).
  exists w'. split; [done|]. unfold script, try_catch. by rewrite Hurl, Hkey, Hm.
Qed.


(** ** Idempotence of the migration *)

Lemma strict_eq_str x s : strict_eq x (VStr s) = true <-> x = VStr s.
Proof.
  destruct x; cbn [strict_eq]; try (split; [done|by intros [=]]).
  rewrite bool_decide_eq_true. split; [by intros ->|by intros [= ->]].
Qed.

Lemma wire_keys row : NoDup (map fst (wire row)).
Proof. rewrite wire_props. unfold normalize_props, obj_lit. by apply obj_assign_keys, NoDup_nil. Qed.

Lemma field_lookup o k s : field o k = VStr s -> lookup_prop o k = Some (VStr s).
Proof.
  unfold field. destruct (lookup_prop o k) as [v|]; cbn [from_option]; unfold id.
  - by intros ->.
  - done.
Qed.

(** An upsert whose row has a string as its key: the keys of the table
    stay distinct, none is lost, and the key of the row is among them. *)
Lemma remote_upsert_keyed name row id w :
  online w ->
  field (wire row) (js "id") = VStr id ->
  NoDup (map row_id (table name w)) ->
  exists r w',
    remote_upsert name row w = (Ok r, w')
    /\ NoDup (map row_id (table name w'))
    /\ incl (map row_id (table name w)) (map row_id (table name w'))
    /\ In (VStr id) (map row_id (table name w')).
Proof.
  intros Hon Hid Hnd. destruct (online_next w Hon) as (w1 & Hnet & _ & Hsame & _).
  unfold remote_upsert, mbind, M_bind, gets, mret, M_ret, set_table, modify.
  rewrite Hnet, (table_same _ _ name Hsame).
  unfold has_key. rewrite Hid. cbn [negb].
  destruct (existsb _ _) eqn:Hex.
  - eexists _, _. split; [reflexivity|]. rewrite table_set_table.
    assert (Hids : map row_id (map (fun r => if row_matches (js "id") (VStr id) r
                                             then obj_assign r (wire row) else r)
                                  (table name w))
                   = map row_id (table name w)).
    { rewrite map_map. apply map_ext. intros r. unfold row_matches.
      destruct (strict_eq _ _) eqn:E; [|done]. apply strict_eq_str in E.
      unfold row_id at 1, field. rewrite lookup_obj_assign by apply wire_keys.
      rewrite (field_lookup _ _ _ Hid). by rewrite <- E. }
    rewrite Hids. split; [done|]. split; [by apply incl_refl|].
    apply existsb_exists in Hex as (r & Hr & Hmatch).
    apply strict_eq_str in Hmatch. apply in_map_iff. by exists r.
  - eexists _, _. split; [reflexivity|]. rewrite table_set_table, map_app.
    cbn [map]. unfold row_id at 2 4 6. rewrite Hid.
    split; [|split].
    + apply NoDup_app. split; [done|]. split; [|apply NoDup_singleton].
      intros k Hk [<-|[]]%list_elem_of_In. apply list_elem_of_In in Hk.
      apply in_map_iff in Hk as (r & Hr & Hin).
      assert (existsb (row_matches (js "id") (VStr id)) (table name w) = true); [|congruence].
      apply existsb_exists. exists r. split; [done|]. by apply strict_eq_str.
    + by apply incl_appl, incl_refl.
    + apply in_or_app. right. by left.
Qed.

Lemma online_tick w n : online w -> online (set_ticks n w).
Proof. done. Qed.

Lemma or_now_run x w :
  exists v w', or_now x w = (Ok v, w') /\ (online w -> online w')
               /\ forall name, table name w' = table name w.
Proof.
  unfold or_now. destruct (truthy x); [by exists x, w|].
  eexists _, _. split; [reflexivity|]. done.
Qed.

Lemma wire_id id ps :
  js "id" ∉ map fst ps ->
  field (wire (obj_lit ((js "id", VStr id) :: ps))) (js "id") = VStr id.
Proof.
  intros Hps. rewrite wire_props. unfold field, obj_lit, obj_assign.
  cbn [fold_left obj_set fst snd].
  change (fold_left _ ps ?x) with (obj_assign x ps).
  rewrite lookup_normalize_props by (apply obj_assign_keys, NoDup_singleton).
  rewrite lookup_obj_assign_notin by (by rewrite <- list_elem_of_In).
  cbn [lookup_prop]. by rewrite decide_True.
Qed.

(** The body of a loop of [migrate] on a keyed record: the fields are
    read, the timestamp is defaulted, the row is upserted. *)
Ltac upserts_row :=
  let o := fresh "o" in
  let id := fresh "id" in
  let w := fresh "w" in
  let Hid := fresh "Hid" in
  let Hon := fresh "Hon" in
  let Hnd := fresh "Hnd" in
  intros o id w Hid Hon Hnd;
  unfold mbind, M_bind, lift; cbn [get];
  unfold field in Hid; rewrite Hid;
  match goal with
  | |- context [or_now ?x w] =>
    let v := fresh "v" in
    let w1 := fresh "w" in
    let Hnow := fresh "Hnow" in
    let Hon1 := fresh "Hon" in
    let Htab := fresh "Htab" in
    destruct (or_now_run x w) as (v & w1 & Hnow & Hon1 & Htab);
    rewrite Hnow; rewrite <- (Htab _) in Hnd |- *;
    match goal with
    | |- context [remote_upsert ?name (obj_lit ((_, VStr id) :: ?ps)) w1] =>
      let r := fresh "r" in
      let w2 := fresh "w" in
      let Hup := fresh "Hup" in
      destruct (remote_upsert_keyed name (obj_lit ((js "id", VStr id) :: ps)) id w1
                  (Hon1 Hon)
                  (wire_id id ps ltac:(apply (bool_decide_unpack _); reflexivity))
                  Hnd)
        as (r & w2 & Hup & ?);
      rewrite Hup; exists w2; done
    end
  end.

Lemma upserts_user : upserts (js "users") upsert_user.
Proof. unfold upserts, upsert_user. upserts_row. Qed.

Lemma upserts_product : upserts (js "products") upsert_product.
Proof. unfold upserts, upsert_product. upserts_row. Qed.

Lemma upserts_course : upserts (js "courses") upsert_course.
Proof. unfold upserts, upsert_course. upserts_row. Qed.

Lemma keyed_inv v : keyed v = true -> exists o id, v = VObj o /\ field o (js "id") = VStr id.
Proof.
  destruct v as [| | | | | |o]; try done; unfold keyed; cbn [get_opt is_record];
    try by destruct (from_option _ _ _).
  fold (field o (js "id")). destruct (field o (js "id")) eqn:E; try done. by eexists _, _.
Qed.

Lemma for_each_keyed name (f : value -> M unit) records :
  upserts name f ->
  (forall x, migrates name (f x)) ->
  forallb keyed records = true ->
  forall w,
  online w ->
  NoDup (map row_id (table name w)) ->
  exists w',
    for_each records f w = (Ok tt, w')
    /\ online w'
    /\ NoDup (map row_id (table name w'))
    /\ incl (map row_id (table name w)) (map row_id (table name w'))
    /\ forall v, In v records -> In (get_opt v (js "id")) (map row_id (table name w')).
Proof.
  intros Hf Hframe. induction records as [|x records IH]; intros Hkeyed w Hon Hnd.
  - exists w. repeat split; try done. by apply incl_refl.
  - cbn [forallb] in Hkeyed. apply andb_true_iff in Hkeyed as [Hx Hrest].
    destruct (keyed_inv _ Hx) as (o & id & -> & Hid).
    destruct (Hf o id w Hid Hon Hnd) as (w1 & Hrun & Hnd1 & Hincl1 & Hin1).
    pose proof (Hframe _ _ _ _ Hrun) as (_ & _ & _ & Hon1 & _).
    destruct (IH Hrest w1 (Hon1 Hon) Hnd1) as (w2 & Hrun2 & Hon2 & Hnd2 & Hincl2 & Hin2).
    exists w2. cbn [for_each]. unfold mbind, M_bind. rewrite Hrun.
    split; [done|]. split; [done|]. split; [done|].
    split; [by eapply incl_tran|].
    intros v [<-|Hv]; [|by apply Hin2].
    apply Hincl2. cbn [get_opt]. fold (field o (js "id")). by rewrite Hid.
Qed.

(** One block of [migrate] on a collection of keyed records. *)
Lemma migrate_collection_keyed name (f : value -> M unit) records w :
  upserts name f ->
  (forall x, migrates name (f x)) ->
  stored (files w) (name ++ js ".json") = VArr records ->
  forallb keyed records = true ->
  online w ->
  NoDup (map row_id (table name w)) ->
  exists w',
    migrate_collection name f w = (Ok tt, w')
    /\ NoDup (map row_id (table name w'))
    /\ incl (map row_id (table name w)) (map row_id (table name w'))
    /\ forall v, In v records -> In (get_opt v (js "id")) (map row_id (table name w')).
Proof.
  intros Hf Hframe Hstored Hkeyed Hon Hnd.
  unfold migrate_collection, try_catch, mbind, M_bind, console_log, modify,
    readFileSync, JSON_parse, lift, mret, M_ret.
  cbn [files set_stdout]. unfold stored, data_path in Hstored.
  destruct (files w !! path_join [js "data"; name ++ js ".json"]) as [text|].
  - destruct (JSON.parse text) as [v|].
    + subst v. cbn [iterate].
      destruct (for_each_keyed name f records Hf Hframe Hkeyed
                  (set_stdout (stdout w ++ [js "📦 Migrating " ++ name ++ js "..."]) w)
                  Hon Hnd) as (w1 & Hrun & _ & Hnd1 & Hincl & Hin).
      rewrite Hrun. eexists. split; [reflexivity|]. done.
    + injection Hstored as <-. eexists. split; [reflexivity|].
      split; [done|]. split; [by apply incl_refl|]. by intros v [].
  - injection Hstored as <-. eexists. split; [reflexivity|].
    split; [done|]. split; [by apply incl_refl|]. by intros v [].
Qed.

Lemma count_key rows id :
  NoDup (map row_id rows) ->
  In (VStr id) (map row_id rows) ->
  length (List.filter (fun row => has_id id (VObj row)) rows) = 1%nat.
Proof.
  induction rows as [|r rows IH]; [done|]. cbn [map List.filter].
  intros [Hr Hnd]%NoDup_cons [Hid|Hin].
  - assert (has_id id (VObj r) = true) as -> by (by apply strict_eq_str).
    cbn [length]. f_equal.
    rewrite (filter_none (fun row => has_id id (VObj row))); [done|].
    apply List.Forall_forall. intros r' Hr'.
    destruct (has_id id (VObj r')) eqn:E; [|done]. apply strict_eq_str in E.
    exfalso. apply Hr. apply list_elem_of_In. apply in_map_iff. exists r'.
    split; [|done]. unfold row_id in *. cbn [get_opt] in E. fold (field r' (js "id")) in E.
    congruence.
  - destruct (has_id id (VObj r)) eqn:E; [|by apply IH].
    apply strict_eq_str in E. exfalso. apply Hr. apply list_elem_of_In.
    unfold row_id at 1. cbn [get_opt] in E. fold (field r (js "id")) in E. by rewrite E.
Qed.

(** One run of the script on a collection of keyed records. *)
Lemma script_keyed w name records :
  configured w ->
  online w ->
  In name [js "users"; js "products"; js "courses"] ->
  stored (files w) (name ++ js ".json") = VArr records ->
  forallb keyed records = true ->
  NoDup (map row_id (table name w)) ->
  let w' := (script w).1 in
  configured w' /\ online w' /\ files w' = files w
  /\ NoDup (map row_id (table name w'))
  /\ forall v, In v records -> In (get_opt v (js "id")) (map row_id (table name w')).
Proof.
  intros Hconf Hon Hname Hstored Hkeyed Hnd.
  destruct (script_configured w Hconf) as (w' & Hm & Hs). rewrite Hs. cbn [fst].
  destruct (migrate_total w) as (w'' & Hm' & Henv & Hfiles & _ & Hon' & _).
  rewrite Hm in Hm'. injection Hm' as <-.
  split; [unfold configured in *; by rewrite Henv|]. split; [by auto|]. split; [done|].
  clear Henv Hfiles Hon' Hs.
  revert Hm. unfold migrate, mbind, M_bind.
  destruct (console_log (js "Starting migration..." ++ [10]) w) as [r0 w0] eqn:E0.
  assert (r0 = Ok tt) as -> by (by injection E0 as <- _).
  pose proof (migrates_console_log name _ _ _ _ E0) as (_ & Hf0 & _ & Ho0 & _).
  assert (Ht0 : forall t, table t w0 = table t w) by (by injection E0 as <-).
  clear E0.
  destruct (migrate_collection_total (js "users") upsert_user w0) as [w1 E1].
  destruct (migrate_collection_total (js "products") upsert_product w1) as [w2 E2].
  destruct (migrate_collection_total (js "courses") upsert_course w2) as [w3 E3].
  rewrite E1, E2, E3.
  pose proof (migrates_collection _ _ migrates_upsert_user _ _ _ E1) as (_ & Hf1 & _ & Ho1 & Ht1).
  pose proof (migrates_collection _ _ migrates_upsert_product _ _ _ E2)
    as (_ & Hf2 & _ & Ho2 & Ht2).
  pose proof (migrates_collection _ _ migrates_upsert_course _ _ _ E3)
    as (_ & Hf3 & _ & Ho3 & Ht3).
  intros [_ <-]%run_ok_inv.
  assert (Htab : forall t, table t (set_stdout (stdout w3 ++ [banner]) w3) = table t w3) by done.
  rewrite Htab.
  destruct Hname as [<-|[<-|[<-|[]]]].
  - destruct (migrate_collection_keyed (js "users") upsert_user records w0
                upserts_user migrates_upsert_user) as (w1' & E1' & Hnd1 & _ & Hin1);
      [by rewrite Hf0|done|by auto|by rewrite Ht0|].
    rewrite E1 in E1'. injection E1' as <-.
    rewrite Ht3, Ht2 by done. done.
  - destruct (migrate_collection_keyed (js "products") upsert_product records w1
                upserts_product migrates_upsert_product) as (w2' & E2' & Hnd2 & _ & Hin2);
      [by rewrite Hf1, Hf0|done|by auto|by rewrite Ht1, Ht0|].
    rewrite E2 in E2'. injection E2' as <-.
    rewrite Ht3 by done. done.
  - destruct (migrate_collection_keyed (js "courses") upsert_course records w2
                upserts_course migrates_upsert_course) as (w3' & E3' & Hnd3 & _ & Hin3);
      [by rewrite Hf2, Hf1, Hf0|done|by auto|by rewrite Ht2, Ht1, Ht0|].
    rewrite E3 in E3'. by injection E3' as <-.
Qed.

(** C6, as amended. Two runs of the configured script against the same
    local files, on a store that answers every call: in each remote
    collection whose local file holds an array of records with string
    identifiers, and whose keys were distinct, the keys stay distinct and
    every identifier of the file is the key of exactly one row. *)
Theorem migration_idempotent w name records :
  configured w ->
  online w ->
  In name [js "users"; js "products"; js "courses"] ->
  stored (files w) (name ++ js ".json") = VArr records ->
  forallb keyed records = true ->
  NoDup (map row_id (table name w)) ->
  let w2 := (script (script w).1).1 in
  NoDup (map row_id (table name w2))
  /\ forall v, In v records ->
       exists id, get_opt v (js "id") = VStr id
         /\ length (List.filter (fun row => has_id id (VObj row)) (table name w2)) = 1%nat.
Proof.
  intros Hconf Hon Hname Hstored Hkeyed Hnd.
  destruct (script_keyed w name records Hconf Hon Hname Hstored Hkeyed Hnd)
    as (Hconf1 & Hon1 & Hfiles1 & Hnd1 & _).
  rewrite <- Hfiles1 in Hstored.
  destruct (script_keyed _ name records Hconf1 Hon1 Hname Hstored Hkeyed Hnd1)
    as (_ & _ & _ & Hnd2 & Hin2).
  cbv zeta. split; [done|]. intros v Hv.
  rewrite forallb_forall in Hkeyed.
  destruct (keyed_inv _ (Hkeyed v Hv)) as (o & id & -> & Hid).
  exists id. split; [done|]. apply count_key; [done|].
  specialize (Hin2 _ Hv). cbn [get_opt] in Hin2. fold (field o (js "id")) in Hin2.
  by rewrite Hid in Hin2.
Qed.

(** * The claims on the local files *)

(** The record of [POST /products] in local mode has this text. *)
Example products_file_text :
  files (post_products post_panel local_world).2 !! js "data/products.json"
  = Some (js "[" ++ 10 :: js "  {" ++ 10 ::
          js "    " ++ 34 :: js "id" ++ 34 :: js ": " ++ 34 :: js "prod-2a2a2a2a" ++ 34 :: js "," ++ 10 ::
          js "    " ++ 34 :: js "title" ++ 34 :: js ": " ++ 34 :: js "Panel A" ++ 34 :: js "," ++ 10 ::
          js "    " ++ 34 :: js "price" ++ 34 :: js ": " ++ 34 :: 34 :: js "," ++ 10 ::
          js "    " ++ 34 :: js "description" ++ 34 :: js ": " ++ 34 :: 34 :: js "," ++ 10 ::
          js "    " ++ 34 :: js "image" ++ 34 :: js ": " ++ 34 :: 34 :: js "," ++ 10 ::
          js "    " ++ 34 :: js "whatsappLink" ++ 34 :: js ": " ++ 34 ::
            js "https://wa.me/233501234567?text=Hello%20NK%20Solar%2C%20I%20want%20to%20buy%20Panel%20A"
            ++ 34 :: js "," ++ 10 ::
          js "    " ++ 34 :: js "createdAt" ++ 34 :: js ": " ++ 34 ::
            js "2025-01-01T00:00:00.000Z" ++ 34 :: 10 ::
          js "  }" ++ 10 :: js "]").
Proof. vm_compute. reflexivity. Qed.

(** C8. When the file of a collection is absent, or its contents are not
    JSON, [readData] returns the empty array and throws nothing; nothing
    else changes. *)
Theorem readData_swallows filename w :
  files w !! path_join [js "data"; filename] = None
  \/ (exists text, files w !! path_join [js "data"; filename] = Some text
                   /\ JSON.parse text = None) ->
  readData filename w = (Ok (VArr []), w).
Proof.
  intros H. rewrite readData_stored. unfold stored, data_path.
  destruct H as [->|(text & -> & ->)]; done.
Qed.

Lemma readData_swallows_witness :
  readData (js "products.json") local_world = (Ok (VArr []), local_world)
  /\ readData (js "products.json")
       (set_files {[ js "data/products.json" := js "[1, 2" ]} local_world)
     = (Ok (VArr []), set_files {[ js "data/products.json" := js "[1, 2" ]} local_world).
Proof.
  split.
  - apply (readData_swallows (js "products.json") local_world). left. reflexivity.
  - apply (readData_swallows (js "products.json")). right.
    exists (js "[1, 2"). split; reflexivity.
Defined.

(** [readData] never throws. *)
Lemma readData_total filename w : exists v, readData filename w = (Ok v, w).
Proof. eexists. apply readData_stored. Qed.

(** Writing then reading: the array comes back with its [undefined]
    elements as [null] and without the [undefined] properties. *)
Lemma read_after_write filename records w :
  exists w',
    writeData filename (VArr records) w = (Ok tt, w')
    /\ readData filename w' = (Ok (VArr (map norm_elem records)), w').
Proof.
  rewrite writeData_array. eexists. split; [reflexivity|].
  rewrite readData_stored. cbn [files set_files]. by rewrite stored_after_write.
Qed.

(** C5, as amended. For every file name and every sequence of records
    that JSON represents (no [undefined] in them, distinct keys), writing
    the sequence with [writeData] and reading it back with [readData]
    gives the same sequence, in the same order. *)
Theorem local_file_roundtrip filename records w :
  forallb is_json records = true ->
  exists w',
    writeData filename (VArr records) w = (Ok tt, w')
    /\ readData filename w' = (Ok (VArr records), w').
Proof.
  intros Hjson. destruct (read_after_write filename records w) as (w' & Hw & Hr).
  exists w'. split; [done|]. by rewrite Hr, normalize_elems_json.
Qed.

Lemma local_file_roundtrip_witness :
  exists w',
    writeData (js "products.json") (VArr [VObj panel]) local_world = (Ok tt, w')
    /\ readData (js "products.json") w' = (Ok (VArr [VObj panel]), w').
Proof. apply (local_file_roundtrip (js "products.json") [VObj panel] local_world). reflexivity. Defined.

(** C5, as stated, fails on a record with an [undefined] field: the field
    is not in the record read back. *)
Lemma roundtrip_drops_undefined :
  exists w',
    writeData (js "products.json") (VArr [untitled]) local_world = (Ok tt, w')
    /\ (readData (js "products.json") w').1
       = Ok (VArr [VObj [(js "id", VStr (js "prod-1"))]])
    /\ (readData (js "products.json") w').1 <> Ok (VArr [untitled]).
Proof.
  eexists. split; [reflexivity|]. split; [vm_compute; reflexivity|].
  vm_compute. discriminate.
Qed.

(** C3. [POST /products] without an authenticated session answers 401
    and changes nothing: the world after the request is the world before
    it, and so are the products. *)
Theorem post_products_unauthorized req w :
  authenticated req = false ->
  post_products req w
  = (Ok (mkResponse 401 (VObj [(js "error", VStr (js "Unauthorized. Please login."))])), w)
  /\ collection (post_products req w).2 (js "products") = collection w (js "products").
Proof.
  intros Hauth. unfold post_products, requireAuth. by rewrite Hauth.
Qed.

Lemma post_products_unauthorized_witness :
  post_products anonymous_post shop_world
  = (Ok (mkResponse 401 (VObj [(js "error", VStr (js "Unauthorized. Please login."))])),
     shop_world)
  /\ collection (post_products anonymous_post shop_world).2 (js "products")
     = collection shop_world (js "products").
Proof. apply (post_products_unauthorized anonymous_post shop_world). reflexivity. Defined.

(** * Witnesses and counterexamples of the claims on the routes *)

Lemma post_products_defaults_witness :
  exists record,
    collection (post_products post_panel local_world).2 (js "products")
    = collection local_world (js "products") ++ [VObj record]
    /\ (field (body post_panel) (js "price") = VUndefined ->
        lookup_prop record (js "price") = Some (VStr []))
    /\ (field (body post_panel) (js "whatsappLink") = VUndefined ->
        exists enc,
          encodeURIComponent (field (body post_panel) (js "title")) = Ok enc
          /\ lookup_prop record (link_key local_world)
             = Some (VStr (whatsapp_prefix ++ enc))).
Proof.
  apply (post_products_defaults post_panel local_world
           (answer (post_products post_panel local_world))).
  - vm_compute. reflexivity.
  - reflexivity.
Defined.

(** The link of the product of [post_panel] ends in [Panel%20A]. *)
Example panel_link :
  encodeURIComponent (VStr (js "Panel A")) = Ok (js "Panel%20A")
  /\ get_opt (payload (answer (post_products post_panel local_world))) (js "product")
     = VObj [(js "id", VStr (js "prod-2a2a2a2a")); (js "title", VStr (js "Panel A"));
             (js "price", VStr []); (js "description", VStr []); (js "image", VStr []);
             (js "whatsappLink", VStr (whatsapp_prefix ++ js "Panel%20A"));
             (js "createdAt", VStr (js "2025-01-01T00:00:00.000Z"))].
Proof. split; vm_compute; reflexivity. Qed.

Lemma generated_ids_witness :
  (exists product id w1,
     answer (post_products post_panel local_world)
     = success_with (js "product") (VObj product)
     /\ lookup_prop product (js "id") = Some (VStr id)
     /\ id = js "prod-" ++ substring0 8 (fresh_uuid w1)
     /\ matches_id (js "prod-") id = true).
Proof.
  apply (proj1 (generated_ids post_panel local_world
                  (answer (post_products post_panel local_world))
                  (post_products post_panel local_world).2 eq_refl)).
  vm_compute. reflexivity.
Defined.

Lemma post_products_without_title_witness :
  exists product kept l w',
    post_products post_untitled local_world
    = (Ok (success_with (js "product") (VObj product)), w')
    /\ lookup_prop product (js "title") = Some VUndefined
    /\ lookup_prop product (js "whatsappLink")
       = Some (VStr (whatsapp_prefix ++ js "undefined"))
    /\ stored (files local_world) (js "products.json") = VArr l
    /\ stored (files w') (js "products.json") = VArr (l ++ [VObj kept])
    /\ lookup_prop kept (js "title") = None
    /\ lookup_prop kept (js "whatsappLink")
       = Some (VStr (whatsapp_prefix ++ js "undefined"))
    /\ endsWith (whatsapp_prefix ++ js "undefined") (js "undefined") = true.
Proof.
  apply (post_products_without_title post_untitled local_world
           eq_refl eq_refl I eq_refl eq_refl).
  exists []. reflexivity.
Defined.


(** The product after [put_panel]: the new title and price, the image it
    had; the description and the link, which the request omits, are gone. *)
Example put_panel_file :
  stored (files (put_products put_panel shop_world).2) (js "products.json")
  = VArr [VObj [(js "id", VStr (js "prod-2a2a2a2a")); (js "title", VStr (js "Panel B"));
                (js "price", VStr (js "120")); (js "image", VStr (js "/uploads/a.png"));
                (js "updatedAt", VStr (js "2025-01-01T00:00:00.000Z"))]].
Proof. vm_compute. reflexivity. Qed.

Lemma missing_record_responses_witness :
  (exists w', put_products missing shop_world
              = (Ok (res_status_json 404 (error_body (js "Not found"))), w')
              /\ collection w' (js "products") = collection shop_world (js "products"))
  /\ (exists w', delete_products missing shop_world = (Ok deleted, w')
                 /\ status deleted = 200
                 /\ collection w' (js "products") = collection shop_world (js "products"))
  /\ (exists w', delete_courses missing shop_world = (Ok deleted, w')
                 /\ status deleted = 200
                 /\ collection w' (js "courses") = collection shop_world (js "courses")).
Proof.
  assert (Hread : readable shop_world (js "products")).
  { exists [VObj panel]. split; vm_compute; reflexivity. }
  assert (Hno : no_record shop_world (js "products") (params_id missing)).
  { unfold no_record.
    replace (collection shop_world (js "products")) with [VObj panel]
      by (vm_compute; reflexivity).
    constructor; [reflexivity|constructor]. }
  assert (Hread' : readable shop_world (js "courses")).
  { exists []. split; vm_compute; reflexivity. }
  assert (Hno' : no_record shop_world (js "courses") (params_id missing)).
  { unfold no_record.
    replace (collection shop_world (js "courses")) with (@nil value)
      by (vm_compute; reflexivity).
    constructor. }
  destruct (missing_record_responses missing shop_world eq_refl) as [Hproducts Hcourses].
  destruct (Hproducts Hread Hno) as [Hput Hdelete].
  split; [apply Hput; exact I | split; [exact Hdelete | exact (Hcourses Hread' Hno')]].
Defined.

(** C1, as stated, fails on [DELETE /products/:id] and on
    [DELETE /courses/:id]: for an identifier that matches no record the
    answer is 200 with [{ success: true, message: 'Deleted' }], not 404. *)
Lemma delete_missing_product_answers_200 :
  authenticated missing = true
  /\ collection shop_world (js "products") = [VObj panel]
  /\ has_id (params_id missing) (VObj panel) = false
  /\ (delete_products missing shop_world).1
     = Ok (mkResponse 200 (VObj [(js "success", VBool true);
                                 (js "message", VStr (js "Deleted"))]))
  /\ status (answer (delete_products missing shop_world)) <> 404
  /\ collection shop_world (js "courses") = []
  /\ (delete_courses missing shop_world).1
     = Ok (mkResponse 200 (VObj [(js "success", VBool true);
                                 (js "message", VStr (js "Deleted"))]))
  /\ status (answer (delete_courses missing shop_world)) <> 404.
Proof. repeat split; vm_compute; (reflexivity || discriminate). Qed.


(** * Witnesses and counterexamples of the claims on the migration *)



(** The same files on a store that answers: both users are upserted. *)
Example migration_run :
  stdout (script migration_world).1
  = [js "Starting migration..." ++ [10];
     js "📦 Migrating users..."; js "✓ Migrated 2 users";
     js "📦 Migrating products..."; js "  No products.json or empty";
     js "📦 Migrating courses..."; js "  No courses.json or empty";
     10 :: js "✅ Migration complete!"]
  /\ map row_id (table (js "users") (script migration_world).1)
     = [VStr (js "user-1"); VStr (js "user-2")]
  /\ map row_id (table (js "users") (script (script migration_world).1).1)
     = [VStr (js "user-1"); VStr (js "user-2")].
Proof. repeat split; vm_compute; reflexivity. Qed.

Lemma migration_idempotent_witness :
  NoDup (map row_id (table (js "users") (script (script migration_world).1).1))
  /\ forall v, In v [VObj user1; VObj user2] ->
       exists id, get_opt v (js "id") = VStr id
         /\ length (List.filter (fun row => has_id id (VObj row))
                      (table (js "users") (script (script migration_world).1).1)) = 1%nat.
Proof.
  apply (migration_idempotent migration_world (js "users") [VObj user1; VObj user2]).
  - split; reflexivity.
  - constructor.
  - left. reflexivity.
  - vm_compute. reflexivity.
  - reflexivity.
  - constructor.
Defined.

(** C6, as stated, fails on a file that holds [null] before a record: the
    read of [user.id] throws, the [catch] of the collection ends the loop,
    and after two runs no row has the identifier of the record, on a
    store that answered every call. *)
Lemma null_record_stops_the_migration :
  configured gapped_world
  /\ online gapped_world
  /\ stored (files gapped_world) (js "users.json") = VArr [VNull; VObj user1]
  /\ get_opt (VObj user1) (js "id") = VStr (js "user-1")
  /\ table (js "users") (script (script gapped_world).1).1 = []
  /\ length (List.filter (fun row => has_id (js "user-1") (VObj row))
               (table (js "users") (script (script gapped_world).1).1)) <> 1%nat
  /\ stdout (script gapped_world).1
     = [js "Starting migration..." ++ [10];
        js "📦 Migrating users..."; js "  No users.json or empty";
        js "📦 Migrating products..."; js "  No products.json or empty";
        js "📦 Migrating courses..."; js "  No courses.json or empty";
        10 :: js "✅ Migration complete!"].
Proof.
  split; [split; reflexivity|]. split; [constructor|].
  repeat split; vm_compute; (reflexivity || discriminate).
Qed.

(** * The routes on the remote store, on an example *)

Example remote_post_duplicate_key :
  answer (post_products post_panel remote_shop)
  = mkResponse 500
      (VObj [(js "error", VStr (js "duplicate key value violates unique constraint"))]).
Proof. vm_compute. reflexivity. Qed.

Example remote_put :
  table (js "products") (put_products put_panel remote_shop).2
  = [[(js "id", VStr (js "prod-2a2a2a2a")); (js "title", VStr (js "Panel B"));
      (js "price", VStr (js "120")); (js "image", VStr (js "/uploads/a.png"));
      (js "updated_at", VStr (js "2025-01-01T00:00:00.000Z"))]].
Proof. vm_compute. reflexivity. Qed.

Example remote_delete_missing :
  (delete_products missing remote_shop).1 = Ok deleted
  /\ table (js "products") (delete_products missing remote_shop).2 = [panel].
Proof. split; vm_compute; reflexivity. Qed.

(** * Every route that writes *)

(** X1. Without a session, each of the five routes that write answers 401
    and leaves the world as it was. *)
Theorem writing_routes_require_login req w :
  authenticated req = false ->
  Forall (fun route : request -> M response => route req w = (Ok unauthorized, w))
    [post_products; put_products; delete_products; post_courses; delete_courses].
Proof.
  intros Hauth.
  assert (H : forall next, requireAuth req next w = (Ok unauthorized, w)).
  { intros next. unfold requireAuth. by rewrite Hauth. }
  repeat (apply List.Forall_cons; [apply H|]). apply List.Forall_nil.
Qed.

Lemma writing_routes_require_login_witness :
  Forall (fun route : request -> M response =>
            route anonymous_post shop_world = (Ok unauthorized, shop_world))
    [post_products; put_products; delete_products; post_courses; delete_courses].
Proof. apply (writing_routes_require_login anonymous_post shop_world). reflexivity. Defined.

Lemma returns_ret {A} (P : A -> Prop) a : P a -> returns P (mret a).
Proof. intros HP w a' w' H. apply mret_inv in H as [-> _]. done. Qed.

Lemma returns_bind {A B} (P : B -> Prop) (m : M A) (k : A -> M B) :
  (forall a, returns P (k a)) -> returns P (m ≫= k).
Proof.
  intros Hk w b w' H. apply bind_ok_inv in H as (a & w1 & _ & H). by eapply Hk.
Qed.

Lemma returns_lift {A} (P : A -> Prop) (r : result A) :
  (forall a, r = Ok a -> P a) -> returns P (lift r).
Proof. intros HP w a w' H. apply lift_inv in H as [H _]. auto. Qed.

Ltac returns_steps :=
  repeat (cbv zeta;
    first
      [ apply returns_ret
      | apply returns_bind; intros ?
      | match goal with
        | |- returns _ (if ?b then _ else _) => destruct b
        | |- returns _ (match ?x with _ => _ end) => destruct x
        end ]).

Lemma catch_500_answers (P : response -> Prop) (l : list N) (m : M response) :
  returns P m -> (forall resp, P resp -> In (status resp) l) -> In 500 l ->
  answers l (try_catch m catch_500).
Proof.
  intros Hm HP H500 w. unfold try_catch.
  destruct (m w) as [[resp|e] w1] eqn:E.
  - exists resp, w1. split; [done|]. apply HP. by eapply Hm.
  - eexists _, _. split; [reflexivity|]. exact H500.
Qed.

Lemma guarded_route_answers (l : list N) (handler : option upload_file -> M response) req :
  (forall file, answers l (handler file)) -> In 401 l -> In 500 l ->
  answers l (requireAuth req (upload_single req handler)).
Proof.
  intros Hh H401 H500 w. unfold requireAuth.
  destruct (authenticated req); [|by eexists _, _].
  unfold upload_single. destruct (upload req) as [f|]; [|apply Hh].
  destruct (fileFilter f); [|by eexists _, _].
  destruct (decide _); [apply Hh | by eexists _, _].
Qed.

Lemma post_products_handler_answers req file :
  answers [200; 401; 500] (post_products_handler req file).
Proof.
  apply (catch_500_answers (fun resp => status resp = 200)).
  - returns_steps; reflexivity.
  - intros resp ->. by left.
  - right. right. by left.
Qed.

Lemma post_courses_handler_answers req file :
  answers [200; 401; 500] (post_courses_handler req file).
Proof.
  apply (catch_500_answers (fun resp => status resp = 200)).
  - returns_steps; reflexivity.
  - intros resp ->. by left.
  - right. right. by left.
Qed.

Lemma delete_handler_answers tbl file_name plural singular req :
  answers [200; 401; 500] (delete_handler tbl file_name plural singular req).
Proof.
  apply (catch_500_answers (fun resp => status resp = 200)).
  - returns_steps; reflexivity.
  - intros resp ->. by left.
  - right. right. by left.
Qed.

Lemma put_products_handler_answers req file :
  answers [200; 401; 404; 500] (put_products_handler req file).
Proof.
  apply (catch_500_answers (fun resp => status resp = 200 \/ status resp = 404)).
  - returns_steps; (by left) || (by right).
  - intros resp [-> | ->]; [by left | right; right; by left].
  - right. right. right. by left.
Qed.

(** X2. The five routes that write never throw: each request is answered, with
    200, 401 or 500, and with 404 by [PUT /products/:id] only. *)
Theorem writing_routes_always_answer req :
  Forall (fun route : request -> M response => answers [200; 401; 500] (route req))
    [post_products; delete_products; post_courses; delete_courses]
  /\ answers [200; 401; 404; 500] (put_products req).
Proof.
  split.
  - repeat constructor.
    + apply guarded_route_answers;
        [apply post_products_handler_answers | right; by left | right; right; by left].
    + intros w. unfold delete_products, requireAuth.
      destruct (authenticated req); [apply delete_handler_answers|].
      eexists _, _. split; [reflexivity | right; by left].
    + apply guarded_route_answers;
        [apply post_courses_handler_answers | right; by left | right; right; by left].
    + intros w. unfold delete_courses, requireAuth.
      destruct (authenticated req); [apply delete_handler_answers|].
      eexists _, _. split; [reflexivity | right; by left].
  - apply guarded_route_answers;
      [apply put_products_handler_answers | right; by left | right; right; right; by left].
Qed.

(** * Uploads that the filter refuses *)

(** X3. A file whose extension or whose MIME type names none of jpeg, jpg,
    png, gif and webp stops the three routes that take an upload: the
    answer is 500 with the message of the filter, the message goes to the
    error stream and nothing else changes. *)
Theorem refused_upload_answers_500 req f w :
  authenticated req = true ->
  upload req = Some f ->
  allowedTypes (to_lower (extname (originalname f))) && allowedTypes (mimetype f) = false ->
  Forall (fun route : request -> M response =>
            route req w
            = (Ok (res_status_json 500 (error_body only_images)),
               set_stderr (stderr w ++ [only_images]) w))
    [post_products; put_products; post_courses].
Proof.
  intros Hauth Hup Hno.
  assert (Hf : fileFilter f = Throw (mkError PlainError only_images)).
  { unfold fileFilter, only_images. cbv zeta.
    destruct (_ && _); [discriminate Hno | reflexivity]. }
  assert (H : forall handler,
             requireAuth req (upload_single req handler) w
             = (Ok (res_status_json 500 (error_body only_images)),
                set_stderr (stderr w ++ [only_images]) w)).
  { intros handler. unfold requireAuth, upload_single. rewrite Hauth, Hup, Hf. reflexivity. }
  repeat (apply List.Forall_cons; [apply H|]). apply List.Forall_nil.
Qed.

Lemma refused_upload_answers_500_witness :
  Forall (fun route : request -> M response =>
            route (mkRequest admin [] [] (Some (mkFile (js "notes.txt") (js "image/png") [])))
              shop_world
            = (Ok (res_status_json 500 (error_body only_images)),
               set_stderr (stderr shop_world ++ [only_images]) shop_world))
    [post_products; put_products; post_courses].
Proof.
  apply (refused_upload_answers_500
           (mkRequest admin [] [] (Some (mkFile (js "notes.txt") (js "image/png") [])))
           (mkFile (js "notes.txt") (js "image/png") []) shop_world);
    reflexivity.
Defined.

(** * What DELETE removes *)

Lemma get_get_opt v k x : get v k = Ok x -> x = get_opt v k.
Proof. destruct v; cbn; by intros [= <-]. Qed.

Lemma id_is_not_ok id x b :
  id_is_not id x = Ok b -> b = negb (has_id id x) /\ id_is id x = Ok (has_id id x).
Proof.
  unfold id_is_not, id_is, has_id.
  destruct (get x (js "id")) as [y|e] eqn:E; [|done].
  apply get_get_opt in E as ->. cbn. by intros [= <-].
Qed.

Lemma filter_values_spec id l : forall l',
  filter_values (id_is_not id) l = Ok l' ->
  l' = List.filter (fun v => negb (has_id id v)) l
  /\ find (id_is id) l = Ok (first_with_id id l).
Proof.
  unfold first_with_id.
  induction l as [|x l IH]; intros l' H; [by injection H as <-|].
  cbn [filter_values] in H.
  destruct (id_is_not id x) as [b|e] eqn:Hx; [|done]. cbn [mbind result_bind] in H.
  destruct (filter_values (id_is_not id) l) as [rest|e] eqn:Hrest; [|done].
  cbn [mbind result_bind] in H. injection H as <-.
  destruct (IH rest eq_refl) as [-> Hfind].
  apply id_is_not_ok in Hx as [-> Hid].
  cbn [List.filter find List.find]. rewrite Hid. cbn [mbind result_bind].
  destruct (has_id id x); cbn [negb from_option]; done.
Qed.

Lemma requireAuth_ok_inv req (next : M response) w resp w' :
  requireAuth req next w = (Ok resp, w') -> status resp = 200 ->
  authenticated req = true /\ next w = (Ok resp, w').
Proof.
  unfold requireAuth. destruct (authenticated req); [done|].
  intros H Hstatus. apply mret_inv in H as [-> _]. done.
Qed.

Lemma files_unlink_local_image image name w r w' :
  unlink_local_image image name w = (Ok r, w') ->
  files w'
  = match image with
    | VStr s =>
      if startsWith s (js "/uploads/") then delete (path_join [js "public"; s]) (files w)
      else files w
    | _ => files w
    end.
Proof.
  unfold unlink_local_image. destruct (truthy image) eqn:Ht.
  - intros H. step H as b w1 Hb. destruct image; try done.
    cbn [call_startsWith] in Hb. injection Hb as <-.
    destruct (startsWith s (js "/uploads/")); [|by apply mret_inv in H as [_ ->]].
    unfold try_catch, unlinkSync in H. cbn [to_string] in H.
    destruct (files w !! path_join [js "public"; s]) eqn:E.
    + by apply run_ok_inv in H as [_ <-].
    + apply mret_inv in H as [_ ->]. by rewrite delete_id.
  - intros H. apply mret_inv in H as [_ ->].
    destruct image as [| | | |s| |]; try done. destruct s; [|done]. reflexivity.
Qed.

(** A successful DELETE on the local files. *)
Lemma delete_handler_local tbl file_name plural singular req w resp w' :
  useSupabase w = false ->
  delete_handler tbl file_name plural singular req w = (Ok resp, w') ->
  status resp = 200 ->
  exists l,
    stored (files w) file_name = VArr l
    /\ files w'
       = <[data_path file_name
           := default [] (JSON.stringify
                (VArr (List.filter (fun v => negb (has_id (params_id req) v)) l)))]>
           (match local_upload (first_with_id (params_id req) l) with
            | Some p => delete p (files w)
            | None => files w
            end)
    /\ env w' = env w.
Proof.
  intros Hlocal H Hstatus. unfold delete_handler in H.
  apply route_ok_inv in H; [|done]. cbv zeta in H.
  step H as use w0 Huse. rewrite Hlocal in H.
  step H as records w1 Hread. apply readData_inv in Hread as [-> ->].
  step H as l w2 Hl. step H as record w3 Hfind.
  apply bind_ok_inv in H as (u & w4 & Hunlink & H).
  step H as l' w5 Hfilter.
  apply bind_ok_inv in H as (u' & w6 & Hwrite & H). apply mret_inv in H as [-> ->].
  assert (Hstored : stored (files w) file_name = VArr l).
  { destruct (stored (files w) file_name); try done. by injection Hl as ->. }
  apply filter_values_spec in Hfilter as [-> Hfirst].
  rewrite Hfirst in Hfind. injection Hfind as <-.
  exists l. split; [done|].
  rewrite writeData_array in Hwrite. apply run_ok_inv in Hwrite as [_ <-].
  cbn [files set_files env].
  pose proof (env_unlink_local_image _ _ _ _ _ Hunlink) as [Henv _].
  apply files_unlink_local_image in Hunlink. rewrite Hunlink.
  split; [|done]. f_equal. unfold local_upload.
  destruct (get_opt _ _); try done. by destruct (startsWith _ _).
Qed.

Lemma quiet_remote_select_single t cols col x : quiet (remote_select_single t cols col x).
Proof.
  unfold remote_select_single. apply quiet_bind; [apply quiet_net_next|]. intros [e|].
  - apply quiet_ret.
  - apply quiet_bind; [apply quiet_gets|]. intros rows.
    destruct (List.filter _ rows) as [|row [|]]; apply quiet_ret.
Qed.

Lemma remote_delete_ok t col x w r w' :
  remote_delete t col x w = (Ok r, w') ->
  error_of r = None ->
  table t w' = List.filter (fun row => negb (row_matches col x row)) (table t w)
  /\ env w' = env w.
Proof.
  unfold remote_delete. intros H Herr.
  apply bind_ok_inv in H as (e & w1 & Hnet & H).
  apply net_next_same in Hnet as Hsame.
  destruct e as [err|]; [apply mret_inv in H as [-> _]; done|].
  step H as rows w2 Hrows.
  apply bind_ok_inv in H as (u & w3 & Hset & H). apply mret_inv in H as [_ ->].
  unfold set_table, modify in Hset. apply run_ok_inv in Hset as [_ <-].
  rewrite table_set_table, (table_same _ _ _ Hsame).
  split; [done|]. cbn [env set_tables]. by destruct Hsame.
Qed.

(** A successful DELETE on the remote store. *)
Lemma delete_handler_remote tbl file_name plural singular req w resp w' :
  useSupabase w = true ->
  delete_handler tbl file_name plural singular req w = (Ok resp, w') ->
  status resp = 200 ->
  table tbl w'
  = List.filter (fun row => negb (has_id (params_id req) (VObj row))) (table tbl w)
  /\ env w' = env w /\ files w' = files w.
Proof.
  intros Hremote H Hstatus. unfold delete_handler in H.
  apply route_ok_inv in H; [|done]. cbv zeta in H.
  step H as use w0 Huse. rewrite Hremote in H.
  apply bind_ok_inv in H as (r & w1 & Hselect & H).
  apply quiet_remote_select_single in Hselect as (Hsame1 & _).
  apply bind_ok_inv in H as (u & w2 & Himage & H).
  assert (Hsame2 : same_data w1 w2).
  { match type of Himage with
    | context [if truthy ?x then _ else _] => destruct (truthy x)
    end.
    - by apply quiet_deleteFromSupabase in Himage as (? & _).
    - by apply mret_inv in Himage as [_ ->]. }
  apply bind_ok_inv in H as (r2 & w3 & Hdelete & H).
  apply bind_ok_inv in H as (u' & w4 & Hthrow & H). apply mret_inv in H as [_ ->].
  unfold throw_if_error in Hthrow. destruct (error_of r2) eqn:Herr; [done|].
  apply mret_inv in Hthrow as [_ ->].
  destruct (remote_delete_ok _ _ _ _ _ _ Hdelete Herr) as [Htable Henv].
  pose proof (same_data_trans _ _ _ Hsame1 Hsame2) as Hsame.
  rewrite Htable, (table_same _ _ _ Hsame).
  split.
  - apply filter_ext. intros row. by rewrite row_matches_id.
  - destruct Hsame as (E & F & _). split; [congruence|].
    rewrite <- F. unfold remote_delete in Hdelete.
    apply bind_ok_inv in Hdelete as (e & w5 & Hnet & Hdelete).
    apply net_next_same in Hnet as (_ & F5 & _).
    destruct e; [by apply mret_inv in Hdelete as [_ ->]|].
    step Hdelete as rows w6 Hrows.
    apply bind_ok_inv in Hdelete as (u3 & w7 & Hset & Hdelete).
    apply mret_inv in Hdelete as [_ ->].
    unfold set_table, modify in Hset. apply run_ok_inv in Hset as [_ <-]. done.
Qed.

Lemma filter_map_VObj (f : value -> bool) rows :
  List.filter f (map VObj rows) = map VObj (List.filter (fun row => f (VObj row)) rows).
Proof.
  induction rows as [|row rows IH]; [done|].
  cbn [List.filter map]. destruct (f (VObj row)); cbn [map]; by rewrite IH.
Qed.

Lemma delete_handler_collection name plural singular req w resp w' :
  requireAuth req (delete_handler name (name ++ js ".json") plural singular req) w
  = (Ok resp, w') ->
  status resp = 200 ->
  collection w' name
  = List.filter (fun v => negb (has_id (params_id req) v)) (collection w name).
Proof.
  intros H Hstatus. apply requireAuth_ok_inv in H as [_ H]; [|done].
  unfold collection. destruct (useSupabase w) eqn:Hmode.
  - destruct (delete_handler_remote _ _ _ _ _ _ _ _ Hmode H Hstatus) as (Ht & Henv & _).
    replace (useSupabase w') with true by (unfold useSupabase in *; by rewrite Henv, Hmode).
    rewrite Ht. symmetry. apply filter_map_VObj.
  - destruct (delete_handler_local _ _ _ _ _ _ _ _ Hmode H Hstatus) as (l & Hl & Hf & Henv).
    replace (useSupabase w') with false by (unfold useSupabase in *; by rewrite Henv, Hmode).
    rewrite Hf, Hl, stored_after_write. apply normalize_elems_json.
    apply forallb_forall. intros v [Hv _]%filter_In.
    pose proof (stored_array_json _ _ _ Hl) as Hjson.
    rewrite forallb_forall in Hjson. by apply Hjson.
Qed.

(** X4. A DELETE answered 200 removes every record that has the identifier
    of the request and keeps the others, in their order; in either mode,
    for the products and for the courses. *)
Theorem delete_removes_the_matches req w resp w' :
  status resp = 200 ->
  (delete_products req w = (Ok resp, w') ->
   collection w' (js "products")
   = List.filter (fun v => negb (has_id (params_id req) v)) (collection w (js "products")))
  /\ (delete_courses req w = (Ok resp, w') ->
      collection w' (js "courses")
      = List.filter (fun v => negb (has_id (params_id req) v)) (collection w (js "courses"))).
Proof.
  intros Hstatus. split; intros H.
  - by apply (delete_handler_collection (js "products") (js "products") (js "product")
               req w resp w').
  - by apply (delete_handler_collection (js "courses") (js "courses") (js "course")
               req w resp w').
Qed.

Lemma delete_removes_the_matches_witness :
  collection (delete_products (mkRequest admin (js "prod-2a2a2a2a") [] None) shop_world).2
    (js "products")
  = List.filter (fun v => negb (has_id (js "prod-2a2a2a2a") v))
      (collection shop_world (js "products")).
Proof.
  apply (proj1 (delete_removes_the_matches (mkRequest admin (js "prod-2a2a2a2a") [] None)
                  shop_world deleted _ eq_refl)).
  vm_compute. reflexivity.
Defined.

(** X5. In local mode a DELETE answered 200 rewrites the file of the
    collection and removes at most one other file: the upload that the
    first record with the identifier points to, [public/uploads/...]. *)
Theorem delete_unlinks_the_upload req w resp w' p :
  useSupabase w = false ->
  status resp = 200 ->
  (delete_products req w = (Ok resp, w') ->
   p <> data_path (js "products.json") ->
   files w' !! p
   = if decide (local_upload (first_with_id (params_id req) (collection w (js "products")))
                = Some p)
     then None else files w !! p)
  /\ (delete_courses req w = (Ok resp, w') ->
      p <> data_path (js "courses.json") ->
      files w' !! p
      = if decide (local_upload (first_with_id (params_id req) (collection w (js "courses")))
                   = Some p)
        then None else files w !! p).
Proof.
  intros Hlocal Hstatus. unfold collection. rewrite Hlocal.
  split; intros H Hp; apply requireAuth_ok_inv in H as [_ H]; try done;
    destruct (delete_handler_local _ _ _ _ _ _ _ _ Hlocal H Hstatus) as (l & Hl & Hf & _);
    change (js "products" ++ js ".json") with (js "products.json");
    change (js "courses" ++ js ".json") with (js "courses.json");
    rewrite Hl, Hf, lookup_insert_ne by done;
    destruct (local_upload _) as [q|]; try done;
    destruct (decide (Some q = Some p)) as [[= ->]|Hq];
    [ by rewrite lookup_delete_eq | rewrite lookup_delete_ne; congruence
    | by rewrite lookup_delete_eq | rewrite lookup_delete_ne; congruence ].
Qed.

(** * Sessions *)

Lemma has_credentials_record username password o :
  has_credentials username password (VObj o)
  = Ok (credentials_match username password (VObj o)).
Proof.
  unfold has_credentials, credentials_match. cbn [get get_opt mbind result_bind].
  by destruct (strict_eq _ username).
Qed.

Lemma find_other_users username password l1 l2 :
  forallb (other_user username password) l1 = true ->
  find (has_credentials username password) (l1 ++ l2)
  = find (has_credentials username password) l2.
Proof.
  induction l1 as [|v l1 IH]; [done|].
  cbn [forallb]. intros [Hv Hl1]%andb_true_iff.
  apply andb_true_iff in Hv as [Hrec Hno]. destruct v; try done.
  cbn [app find]. rewrite has_credentials_record.
  apply negb_true_iff in Hno. rewrite Hno. cbn [mbind result_bind]. by apply IH.
Qed.

Lemma field_obj_set o k v k' :
  field (obj_set o k v) k' = if decide (k = k') then v else field o k'.
Proof. unfold field. rewrite lookup_obj_set. by destruct (decide _). Qed.

(** X6. In local mode, a login whose user name and password are those of a
    record of [users.json] is accepted for the first such record: the
    answer is [{ success: true, message: 'Login successful' }], nothing is
    written, and the session holds the [id] and the [username] of that
    record. The session then counts as logged in exactly when that [id] is
    truthy. *)
Theorem login_opens_a_session req w s l1 u l2 :
  useSupabase w = false ->
  session req = Some s ->
  stored (files w) (js "users.json") = VArr (l1 ++ VObj u :: l2) ->
  forallb (other_user (field (body req) (js "username"))
             (field (body req) (js "password"))) l1 = true ->
  credentials_match (field (body req) (js "username"))
    (field (body req) (js "password")) (VObj u) = true ->
  post_login req w = (Ok (login_successful, Some (session_for s u)), w)
  /\ forall req',
       session req' = Some (session_for s u) ->
       authenticated req' = truthy (field u (js "id"))
       /\ (truthy (field u (js "id")) = true ->
           get_auth_status req'
           = res_json (VObj [(js "authenticated", VBool true);
                             (js "username", field u (js "username"))])).
Proof.
  intros Hlocal Hs Hl Hothers Hu. split.
  - unfold post_login. cbv zeta.
    unfold try_catch, mbind at 1, M_bind at 1, gets. rewrite Hlocal.
    unfold mbind, M_bind, lift, mret, M_ret.
    rewrite readData_stored, Hl. cbn [method_target].
    rewrite find_other_users by done. cbn [find].
    rewrite has_credentials_record, Hu. cbn [mbind result_bind truthy].
    unfold open_session. rewrite Hs. cbn [get session_set mbind result_bind].
    reflexivity.
  - intros req' Hs'. unfold get_auth_status, authenticated. rewrite Hs'.
    unfold session_for. rewrite !field_obj_set.
    cbn [decide]. rewrite decide_False by (by intros [=]). rewrite decide_True by done.
    split; [done|]. intros ->. rewrite decide_True by done. reflexivity.
Qed.

(** X7. In local mode, a login that no record of [users.json] matches is
    answered 401 and changes neither the session nor the world; so is
    every login when the file is absent or unreadable. *)
Theorem login_refuses_other_credentials req w l :
  useSupabase w = false ->
  stored (files w) (js "users.json") = VArr l ->
  forallb (other_user (field (body req) (js "username"))
             (field (body req) (js "password"))) l = true ->
  post_login req w = (Ok (invalid_credentials, session req), w).
Proof.
  intros Hlocal Hl Hothers.
  unfold post_login. cbv zeta.
  unfold try_catch, mbind at 1, M_bind at 1, gets. rewrite Hlocal.
  unfold mbind, M_bind, lift, mret, M_ret.
  rewrite readData_stored, Hl. cbn [method_target].
  rewrite <- (app_nil_r l), find_other_users by done. reflexivity.
Qed.

(** X8. With Supabase, a login is answered 401, with the session as it was,
    when the store answers with an error, when no row has the user name,
    and when the password of the first such row is not the one given. *)
Theorem login_remote_refuses req w r w1 :
  useSupabase w = true ->
  remote_select_limit (js "users") (js "username") (field (body req) (js "username")) 1 w
  = (Ok r, w1) ->
  error_of r <> None
  \/ data r = VArr []
  \/ (exists row rest, data r = VArr (VObj row :: rest)
        /\ strict_eq (field row (js "password")) (field (body req) (js "password")) = false) ->
  post_login req w = (Ok (invalid_credentials, session req), w1).
Proof.
  intros Hremote Hselect Hcases.
  unfold post_login. cbv zeta.
  unfold mbind at 1, M_bind at 1, gets. rewrite Hremote.
  unfold mbind at 1, M_bind at 1. rewrite Hselect.
  destruct Hcases as [Herr | [Hnone | (row & rest & Hrow & Hpw)]].
  - destruct (error_of r); done.
  - destruct (error_of r); [done|]. rewrite Hnone. reflexivity.
  - destruct (error_of r); [done|]. rewrite Hrow.
    unfold mbind, M_bind, lift. cbn [method_target get].
    fold (field row (js "password")). rewrite Hpw. reflexivity.
Qed.

(** X9. A logout with a session answers 200 and leaves an empty session:
    after it the client is logged out, [/admin] redirects to the login page
    and the routes that write answer 401. *)
Theorem logout_closes_the_session req w s :
  session req = Some s ->
  post_logout req w = (Ok (logged_out, Some []), w)
  /\ forall req' w',
       session req' = Some [] ->
       get_auth_status req' = res_json (VObj [(js "authenticated", VBool false)])
       /\ get_admin req' = Redirect (js "/admin-login.html")
       /\ Forall (fun route : request -> M response =>
                    route req' w' = (Ok unauthorized, w'))
            [post_products; put_products; delete_products; post_courses; delete_courses].
Proof.
  intros Hs. split; [unfold post_logout; by rewrite Hs|].
  intros req' w' Hs'.
  assert (Hauth : authenticated req' = false) by (unfold authenticated; by rewrite Hs').
  unfold get_auth_status, get_admin. rewrite Hauth.
  split; [done|]. split; [done|].
  assert (H : forall next, requireAuth req' next w' = (Ok unauthorized, w')).
  { intros next. unfold requireAuth. by rewrite Hauth. }
  repeat (apply List.Forall_cons; [apply H|]). apply List.Forall_nil.
Qed.

(** * A product from POST to DELETE, on the local files *)

Lemma find_records id l :
  forallb is_record l = true -> find (id_is id) l = Ok (first_with_id id l).
Proof.
  unfold first_with_id. induction l as [|v l IH]; [done|].
  cbn [forallb]. intros [Hv Hl]%andb_true_iff. destruct v as [| | | | | |o]; try done.
  cbn [find List.find]. rewrite id_is_record. cbn [mbind result_bind].
  destruct (has_id id (VObj o)); [done|]. by apply IH.
Qed.

Lemma filter_values_records id l :
  forallb is_record l = true ->
  filter_values (id_is_not id) l = Ok (List.filter (fun v => negb (has_id id v)) l).
Proof.
  induction l as [|v l IH]; [done|].
  cbn [forallb]. intros [Hv Hl]%andb_true_iff. destruct v; try done.
  cbn [filter_values List.filter]. rewrite id_is_not_record, (IH Hl). reflexivity.
Qed.

Lemma unlink_local_image_answers image name w :
  string_or_falsy image = true ->
  exists w', unlink_local_image image name w = (Ok tt, w').
Proof.
  intros Himage. unfold unlink_local_image.
  destruct (truthy image) eqn:Ht; [|by eexists].
  destruct image as [| | | |s| |]; cbn [string_or_falsy] in Himage;
    try (rewrite Ht in Himage; done).
  unfold mbind, M_bind, lift. cbn [call_startsWith].
  destruct (startsWith s (js "/uploads/")); [|by eexists].
  unfold try_catch. destruct (unlinkSync _ w) as [[[]|e] w1]; by eexists.
Qed.

Lemma first_with_id_plain k l :
  forallb plain_record l = true ->
  string_or_falsy (get_opt (first_with_id k l) (js "image")) = true.
Proof.
  unfold first_with_id. induction l as [|v l IH]; [done|].
  cbn [forallb List.find]. intros [Hv Hl]%andb_true_iff.
  destruct (has_id k v); [|by apply IH].
  cbn [from_option]. unfold id. by apply andb_true_iff in Hv as [_ Hv].
Qed.

Lemma plain_records l : forallb plain_record l = true -> forallb is_record l = true.
Proof.
  rewrite !forallb_forall. intros H v Hv. by destruct (andb_prop _ _ (H v Hv)).
Qed.

(** In local mode a DELETE succeeds on a file of plain records. *)
Lemma delete_local_answers tbl file_name plural singular req w l :
  useSupabase w = false ->
  stored (files w) file_name = VArr l ->
  forallb plain_record l = true ->
  exists w', delete_handler tbl file_name plural singular req w = (Ok deleted, w').
Proof.
  intros Hlocal Hl Hplain. pose proof (plain_records _ Hplain) as Hrec.
  unfold delete_handler. cbv zeta.
  unfold try_catch, mbind at 1, M_bind at 1, gets. rewrite Hlocal.
  unfold mbind at 1, M_bind at 1. rewrite readData_stored, Hl.
  unfold mbind at 1, M_bind at 1, lift at 1. cbn [method_target].
  unfold mbind at 1, M_bind at 1, lift at 1. rewrite find_records by done.
  destruct (unlink_local_image_answers _ (singular ++ js ".image") w
              (first_with_id_plain (params_id req) l Hplain)) as (w1 & Hunlink).
  unfold mbind at 1, M_bind at 1. rewrite Hunlink.
  unfold mbind at 1, M_bind at 1, lift at 1. rewrite filter_values_records by done.
  unfold mbind at 1, M_bind at 1. rewrite writeData_array.
  by eexists.
Qed.

Lemma js_or_string x : string_or_falsy x = true -> exists s, js_or x (VStr []) = VStr s.
Proof.
  intros H. unfold js_or. destruct x as [| | | |s| |];
    try (apply negb_true_iff in H; rewrite H; by exists []).
  destruct (truthy (VStr s)); [by exists s | by exists []].
Qed.

Lemma get_collection_local tbl file_name w :
  useSupabase w = false ->
  get_collection tbl file_name w = (Ok (res_json (stored (files w) file_name)), w).
Proof.
  intros Hlocal. unfold get_collection, mbind at 1, M_bind at 1, gets. rewrite Hlocal.
  unfold mbind, M_bind. by rewrite readData_stored.
Qed.

Lemma filter_json (f : value -> bool) l :
  forallb is_json l = true -> map norm_elem (List.filter f l) = List.filter f l.
Proof.
  intros Hjson. apply normalize_elems_json, forallb_forall.
  intros v [Hv _]%filter_In. rewrite forallb_forall in Hjson. by apply Hjson.
Qed.

(** X10. In local mode, on a file of plain records: the product of a POST
    answered 200 is the last of the records that [GET /products] lists
    next; a DELETE on its identifier is answered 200, and the listing after
    it has the records of before the POST, without those of that
    identifier. *)
Theorem product_from_post_to_delete req w resp w1 l :
  useSupabase w = false ->
  stored (files w) (js "products.json") = VArr l ->
  forallb plain_record l = true ->
  string_or_falsy (field (body req) (js "image")) = true ->
  post_products req w = (Ok resp, w1) ->
  status resp = 200 ->
  exists id record,
    answered_id (js "product") resp = VStr id
    /\ has_id id (VObj record) = true
    /\ get_products w1 = (Ok (res_json (VArr (l ++ [VObj record]))), w1)
    /\ forall req2,
         authenticated req2 = true ->
         params_id req2 = id ->
         exists w2,
           delete_products req2 w1 = (Ok deleted, w2)
           /\ get_products w2
              = (Ok (res_json (VArr (List.filter (fun v => negb (has_id id v)) l))), w2).
Proof.
  intros Hlocal Hl Hplain Himage H Hstatus. unfold post_products in H.
  apply route_handler_inv in H as (_ & _ & H); [|done].
  rewrite post_products_local in H by done.
  destruct (product_link (body req)) as [link|e] eqn:Hlink;
    [|apply run_ok_inv in H as [<- _]; done].
  cbv zeta in H. rewrite Hl in H. cbn [method_target] in H.
  apply run_ok_inv in H as [<- <-].
  destruct (js_or_string _ Himage) as (image & Himage').
  pose proof (stored_array_json _ _ _ Hl) as Hjson.
  set (id := js "prod-" ++ substring0 8 (fresh_uuid w)).
  set (p := product_record _ _ _ _ _ _ _).
  assert (Hid : field (normalize_props p) (js "id") = VStr id).
  { unfold field. rewrite lookup_normalize_props by apply product_record_keys.
    reflexivity. }
  assert (Hpic : field (normalize_props p) (js "image") = VStr image).
  { unfold field. rewrite lookup_normalize_props by apply product_record_keys.
    subst p.
    change (lookup_prop (product_record ?a ?b ?c ?d ?e ?f ?g) (js "image")) with (Some e).
    cbv beta iota. by rewrite Himage'. }
  set (w1 := set_files _ _).
  assert (Hlocal1 : useSupabase w1 = false) by exact Hlocal.
  assert (Hl1 : stored (files w1) (js "products.json") = VArr (l ++ [VObj (normalize_props p)])).
  { subst w1. cbn [files set_files]. rewrite stored_after_push by done.
    unfold norm_elem. by rewrite normalize_VObj_props. }
  exists id, (normalize_props p).
  split; [reflexivity|].
  split; [unfold has_id; cbn [get_opt]; fold (field (normalize_props p) (js "id"));
          by rewrite Hid; apply strict_eq_str|].
  split; [unfold get_products; by rewrite get_collection_local, Hl1|].
  intros req2 Hauth2 Hid2.
  assert (Hplain1 : forallb plain_record (l ++ [VObj (normalize_props p)]) = true).
  { rewrite forallb_app, Hplain. cbn [forallb]. unfold plain_record. cbn [is_record get_opt].
    fold (field (normalize_props p) (js "image")). by rewrite Hpic. }
  destruct (delete_local_answers (js "products") (js "products.json") (js "products")
              (js "product") req2 w1 _ Hlocal1 Hl1 Hplain1) as (w2 & Hdelete).
  exists w2. split; [unfold delete_products, requireAuth; by rewrite Hauth2|].
  destruct (delete_handler_local _ _ _ _ _ _ _ _ Hlocal1 Hdelete eq_refl)
    as (l0 & Hl0 & Hfiles & Henv).
  rewrite Hl1 in Hl0. injection Hl0 as <-.
  unfold get_products. rewrite get_collection_local
    by (unfold useSupabase in *; by rewrite Henv).
  rewrite Hfiles, stored_after_write, Hid2, List.filter_app. cbn [List.filter].
  replace (has_id id (VObj (normalize_props p))) with true.
  2:{ symmetry. unfold has_id. cbn [get_opt]. fold (field (normalize_props p) (js "id")).
      rewrite Hid. by apply strict_eq_str. }
  cbn [negb]. by rewrite app_nil_r, filter_json.
Qed.

(** * A store that fails *)

Lemma net_next_error w msg rest :
  net w = NetError msg :: rest ->
  net_next w = (Ok (Some (mkError PlainError msg)), set_net rest w).
Proof. unfold net_next. by intros ->. Qed.

Lemma net_next_throw w msg rest :
  net w = NetThrow msg :: rest ->
  net_next w = (Throw (mkError PlainError msg), set_net rest w).
Proof. unfold net_next. by intros ->. Qed.

Lemma remote_insert_fails t row w msg :
  store_fails w msg ->
  exists w',
    (remote_insert t row w = (Ok (failed (mkError PlainError msg)), w')
     \/ remote_insert t row w = (Throw (mkError PlainError msg), w'))
    /\ tables w' = tables w /\ files w' = files w.
Proof.
  intros (rest & [Hnet | Hnet]); exists (set_net rest w);
    unfold remote_insert, mbind, M_bind.
  - rewrite (net_next_error _ _ _ Hnet). by split; [left|].
  - rewrite (net_next_throw _ _ _ Hnet). by split; [right|].
Qed.

Lemma link_step_run b w :
  (if truthy (field b (js "whatsappLink")) then mret (field b (js "whatsappLink"))
   else enc ← lift (encodeURIComponent (field b (js "title")));
        mret (VStr (whatsapp_prefix ++ enc)) : M value) w
  = (product_link b, w).
Proof.
  unfold product_link. destruct (truthy _); [done|].
  unfold mbind, M_bind, lift. by destruct (encodeURIComponent _).
Qed.

Ltac fail_insert Hfail :=
  try (unfold mbind at 1, M_bind at 1);
  match goal with
  | |- context [remote_insert ?t ?row ?w0] =>
    let w' := fresh "w" in
    let Hrun := fresh "Hrun" in
    destruct (remote_insert_fails t row w0 _ Hfail) as (w' & [Hrun|Hrun] & ? & ?);
    rewrite Hrun; by exists w'
  end.

(** X11. With Supabase, when the store fails on the insert of a POST without
    upload, the answer is 500 with the message of the store, and neither
    the tables nor the files change. *)
Theorem failed_insert_answers_500 req w msg :
  useSupabase w = true ->
  authenticated req = true ->
  upload req = None ->
  store_fails w msg ->
  (forall link, product_link (body req) = Ok link ->
     exists w', post_products req w = (Ok (res_status_json 500 (error_body msg)), w')
                /\ tables w' = tables w /\ files w' = files w)
  /\ exists w', post_courses req w = (Ok (res_status_json 500 (error_body msg)), w')
                /\ tables w' = tables w /\ files w' = files w.
Proof.
  intros Hremote Hauth Hup Hfail. split.
  - intros link Hlink.
    unfold post_products, requireAuth, upload_single. rewrite Hauth, Hup.
    unfold post_products_handler. cbv zeta.
    unfold try_catch, catch_500.
    unfold mbind at 1, M_bind at 1, gets. rewrite Hremote.
    unfold mbind at 1, M_bind at 1, mret at 1, M_ret at 1.
    unfold mbind at 1, M_bind at 1, uuidv4.
    unfold mbind at 1, M_bind at 1. rewrite link_step_run, Hlink.
    unfold mbind at 1, M_bind at 1, now_iso at 1.
    unfold mbind at 1, M_bind at 1, now_iso at 1.
    fail_insert Hfail.
  - unfold post_courses, requireAuth, upload_single. rewrite Hauth, Hup.
    unfold post_courses_handler. cbv zeta.
    unfold try_catch, catch_500.
    unfold mbind at 1, M_bind at 1, gets. rewrite Hremote.
    unfold mbind at 1, M_bind at 1, mret at 1, M_ret at 1.
    unfold mbind at 1, M_bind at 1, uuidv4.
    unfold mbind at 1, M_bind at 1.
    match goal with
    | |- context [if truthy ?d then _ else _] => destruct (truthy d)
    end.
    all: unfold mbind at 1, M_bind at 1, now_short_date, mret at 1, M_ret at 1.
    all: unfold mbind at 1, M_bind at 1, now_iso at 1.
    all: unfold mbind at 1, M_bind at 1, now_iso at 1.
    all: fail_insert Hfail.
Qed.

(** X12. With Supabase, when the store answers the lookup of a record with an
    error: [PUT /products/:id] answers 404 as for a record that does not
    exist; [DELETE /products/:id] goes on without the record, so that, the
    store answering again, the rows of the identifier are removed and the
    answer is 200, while the bucket of the images is left as it was. *)
Theorem failed_lookup_is_not_reported req w msg rest :
  useSupabase w = true ->
  authenticated req = true ->
  net w = NetError msg :: rest ->
  (upload_accepted req -> put_products req w = (Ok not_found, set_net rest w))
  /\ (online (set_net rest w) ->
      exists w',
        delete_products req w = (Ok deleted, w')
        /\ table (js "products") w'
           = List.filter (fun row => negb (has_id (params_id req) (VObj row)))
               (table (js "products") w)
        /\ bucket w' = bucket w).
Proof.
  intros Hremote Hauth Hnet. split.
  - intros Hup. unfold put_products, requireAuth. rewrite Hauth.
    rewrite upload_single_accepted by done.
    unfold put_products_handler. cbv zeta. unfold try_catch.
    unfold mbind at 1, M_bind at 1, gets. rewrite Hremote.
    unfold mbind at 1, M_bind at 1, remote_select_single.
    unfold mbind at 1, M_bind at 1. rewrite (net_next_error _ _ _ Hnet).
    reflexivity.
  - intros Hon. unfold delete_products, requireAuth. rewrite Hauth.
    unfold delete_handler. cbv zeta. unfold try_catch.
    unfold mbind at 1, M_bind at 1, gets. rewrite Hremote.
    unfold mbind at 1, M_bind at 1, remote_select_single.
    unfold mbind at 1, M_bind at 1. rewrite (net_next_error _ _ _ Hnet).
    unfold mret at 1, M_ret at 1. cbn [data failed get_opt truthy].
    unfold mbind at 1, M_bind at 1, mret at 1, M_ret at 1.
    destruct (online_next _ Hon) as (w1 & Hnet1 & _ & Hsame & Hbucket).
    unfold mbind at 1, M_bind at 1, remote_delete.
    unfold mbind at 1, M_bind at 1. rewrite Hnet1.
    unfold mbind, M_bind, gets, set_table, modify, mret, M_ret, throw_if_error.
    cbn [error_of]. eexists. split; [reflexivity|].
    rewrite table_set_table, (table_same _ _ _ Hsame).
    split; [|exact Hbucket].
    apply filter_ext. intros row. by rewrite row_matches_id.
Qed.

(** * The bucket of the images *)

Lemma split_aux_free sep b : forall cur,
  Forall (fun c => c <> sep) b -> split_aux sep b cur = [rev cur ++ b].
Proof.
  induction b as [|c b IH]; intros cur Hb; [by rewrite app_nil_r|].
  apply Forall_cons in Hb as [Hc Hb]. cbn [split_aux].
  rewrite (proj2 (N.eqb_neq c sep)) by done.
  rewrite IH by done. cbn [rev]. by rewrite <- app_assoc.
Qed.

Lemma split_aux_last sep a b : forall cur,
  Forall (fun c => c <> sep) b ->
  split_aux sep (a ++ sep :: b) cur = split_aux sep a cur ++ [b].
Proof.
  induction a as [|c a IH]; intros cur Hb.
  - cbn [app split_aux]. rewrite N.eqb_refl. by rewrite split_aux_free.
  - cbn [app split_aux]. destruct (c =? sep); [|by apply IH].
    cbn [app]. f_equal. by apply IH.
Qed.

Lemma split_last a b :
  Forall (fun c => c <> 47) b -> split 47 (a ++ 47 :: b) = split 47 a ++ [b].
Proof. apply split_aux_last. Qed.

Lemma last_two_app l (x y : jsstring) : last_two (l ++ [x; y]) = [x; y].
Proof.
  unfold last_two. rewrite length_app. cbn [length].
  replace (length l + 2 - 2)%nat with (length l) by lia.
  by rewrite drop_app_length.
Qed.

Lemma take_until_free x s a b :
  take_until x s = (a, b) -> Forall (fun c => c <> x) a.
Proof.
  revert a b. induction s as [|c s IH]; intros a b; cbn [take_until].
  - intros [= <- <-]. constructor.
  - destruct (N.eqb_spec c x) as [->|Hc]; [intros [= <- <-]; constructor|].
    destruct (take_until x s) as [a' b'] eqn:E. intros [= <- <-].
    constructor; [done|]. by eapply IH.
Qed.

Lemma take_until_sub x s a b (P : N -> Prop) :
  take_until x s = (a, b) -> Forall P s -> Forall P a.
Proof.
  revert a b. induction s as [|c s IH]; intros a b; cbn [take_until].
  - intros [= <- <-] _. constructor.
  - intros H [Hc Hs]%Forall_cons. destruct (c =? x); [injection H as <- <-; constructor|].
    destruct (take_until x s) as [a' b'] eqn:E. injection H as <- <-.
    constructor; [done|]. by eapply IH.
Qed.

(** An extension has no slash in it. *)
Lemma extname_free s : Forall (fun c => c <> 47) (extname s).
Proof.
  unfold extname.
  destruct (take_until 47 (drop_slashes (rev s))) as [rbase rest] eqn:Hbase.
  apply take_until_free in Hbase. cbn [fst].
  destruct (take_until 46 rbase) as [rext [r|]] eqn:Hext; [|constructor].
  destruct r; [constructor|].
  destruct (bool_decide _); [constructor|].
  constructor; [done|]. apply Forall_rev.
  by apply (take_until_sub _ _ _ _ _ Hext).
Qed.

Lemma hex_lower_free d : d < 16 -> hex_lower d <> 47.
Proof. unfold hex_lower. destruct (N.ltb_spec d 10); lia. Qed.

Lemma byte_hex_free b : b < 256 -> Forall (fun c => c <> 47) (byte_hex b).
Proof.
  intros Hb. unfold byte_hex. repeat constructor; apply hex_lower_free.
  - rewrite N.shiftr_div_pow2. change (2 ^ 4) with 16.
    apply N.Div0.div_lt_upper_bound. lia.
  - change 0xF with (N.ones 4). rewrite N.land_ones. apply N.mod_lt. done.
Qed.

Lemma land_lor_lt b m k : b < 256 -> m < 128 -> k < 256 -> N.lor (N.land b m) k < 256.
Proof.
  intros Hb Hm Hk.
  assert (H : forall x, x < 256 <-> N.shiftr x 8 = 0).
  { intros x. rewrite N.shiftr_div_pow2. change (2 ^ 8) with 256. split.
    - intros. by apply N.div_small.
    - intros E. destruct (N.lt_ge_cases x 256) as [|Hge]; [done|].
      assert (1 <= x / 256) by (apply N.div_le_lower_bound; lia). lia. }
  apply H. rewrite N.shiftr_lor, N.shiftr_land.
  rewrite (proj1 (H b) Hb), (proj1 (H k) Hk). reflexivity.
Qed.

(** A fresh UUID has no slash in it. *)
Lemma fresh_uuid_free w : Forall (fun c => c <> 47) (fresh_uuid w).
Proof.
  unfold fresh_uuid, uuid_of_bytes. cbn [seq map nth].
  repeat first
    [ apply Forall_app; split
    | apply Forall_cons; split; [done|]
    | apply byte_hex_free;
      first [ apply byte_lt | apply land_lor_lt; [apply byte_lt | done | done] ] ].
Qed.

Lemma storage_upload_ok path f w r w' :
  online w ->
  storage_upload path f w = (Ok r, w') ->
  error_of r = None ->
  bucket w !! path = None
  /\ bucket w' = <[path := f]> (bucket w)
  /\ online w' /\ same_data w w'.
Proof.
  intros Hon H Herr. unfold storage_upload in H.
  destruct (online_next w Hon) as (w1 & Hnet & Hon1 & Hsame & Hbucket).
  unfold mbind at 1, M_bind at 1 in H. rewrite Hnet in H.
  unfold mbind, M_bind, gets, modify, mret, M_ret in H. rewrite Hbucket in H.
  destruct (bucket w !! path) eqn:E.
  - apply run_ok_inv in H as [<- _]. done.
  - apply run_ok_inv in H as [_ <-]. cbn [bucket set_bucket]. rewrite Hbucket.
    split; [done|]. split; [done|]. split; [exact Hon1|].
    destruct Hsame as (?&?&?). done.
Qed.

Lemma public_images_slash :
  js "/storage/v1/object/public/product-images/"
  = js "/storage/v1/object/public" ++ 47 :: js "product-images" ++ [47].
Proof. vm_compute. reflexivity. Qed.

Lemma products_slash : js "products/" = js "products" ++ [47].
Proof. vm_compute. reflexivity. Qed.

Lemma products_free : Forall (fun c => c <> 47) (js "products").
Proof. apply (bool_decide_unpack _). vm_compute. reflexivity. Qed.

Lemma image_path_of_url prefix name :
  Forall (fun c => c <> 47) name ->
  join [47] (last_two
    (split 47 (prefix ++ js "/storage/v1/object/public/product-images/"
               ++ js "products/" ++ name)))
  = js "products/" ++ name.
Proof.
  intros Hname. rewrite public_images_slash, products_slash.
  replace (prefix ++ (js "/storage/v1/object/public" ++ 47 :: js "product-images" ++ [47])
           ++ (js "products" ++ [47]) ++ name)
    with (((prefix ++ js "/storage/v1/object/public" ++ 47 :: js "product-images")
           ++ 47 :: js "products") ++ 47 :: name).
  2:{ rewrite <- !app_assoc. cbn [app]. rewrite <- !app_assoc. reflexivity. }
  rewrite split_last by done.
  rewrite split_last by apply products_free.
  rewrite <- app_assoc. cbn [app]. rewrite last_two_app. cbn [join].
  by rewrite <- app_assoc.
Qed.

Lemma startsWith_app s t : startsWith (s ++ t) s = true.
Proof.
  induction s as [|x s IH]; [by destruct t|].
  cbn [app startsWith]. by rewrite N.eqb_refl, IH.
Qed.

Lemma endsWith_app s t : endsWith (s ++ t) t = true.
Proof. unfold endsWith. rewrite rev_app_distr. apply startsWith_app. Qed.

(** X13. The image that [uploadToSupabase] stores is the one that
    [deleteFromSupabase] removes, given the address that the upload
    returned: when the store answers, the upload puts the file of the
    request in the bucket, under [products/], at a place that was free, and
    the deletion of the address leaves the bucket as it was before. *)
Theorem uploaded_image_is_deleted f w url w1 :
  online w ->
  uploadToSupabase f w = (Ok url, w1) ->
  exists name w2,
    bucket w !! (js "products/" ++ name) = None
    /\ bucket w1 = <[js "products/" ++ name := f]> (bucket w)
    /\ endsWith url (js "/product-images/products/" ++ name) = true
    /\ deleteFromSupabase (VStr url) w1 = (Ok tt, w2)
    /\ bucket w2 = bucket w.
Proof.
  intros Hon H. unfold uploadToSupabase in H.
  step H as use w0 Huse. destruct (useSupabase w) eqn:Hremote; [|done].
  cbn [negb] in H. step H as fileId w2 Huuid. cbv zeta in H.
  step H as r w3 Hupload.
  apply bind_ok_inv in H as (u & w4 & Hthrow & H).
  unfold throw_if_error in Hthrow. destruct (error_of r) eqn:Herr; [done|].
  apply mret_inv in Hthrow as [_ ->].
  unfold storage_public_url in H. step H as base w5 Hbase.
  apply mret_inv in H as [-> ->].
  destruct (storage_upload_ok _ _ (set_drawn (drawn w + 16)%nat w) _ _ Hon Hupload Herr)
    as (Hfree & Hbucket & Hon3 & Hsame).
  cbn [bucket set_drawn] in Hfree, Hbucket.
  set (name := fresh_uuid w ++ extname (originalname f)) in *.
  assert (Hname : Forall (fun c => c <> 47) name).
  { apply Forall_app. split; [apply fresh_uuid_free | apply extname_free]. }
  exists name.
  assert (Hremote3 : useSupabase w3 = true).
  { rewrite (useSupabase_same _ _ Hsame). exact Hremote. }
  assert (Henv3 : env w3 = env w) by (by destruct Hsame as (? & _)).
  destruct (online_next w3 Hon3) as (w6 & Hnet & _ & _ & Hbucket6).
  exists (set_bucket (delete (js "products/" ++ name) (bucket w6)) w6).
  split; [exact Hfree|]. split; [exact Hbucket|]. split.
  { replace (js "/storage/v1/object/public/product-images/")
      with (js "/storage/v1/object/public" ++ js "/product-images/")
      by (vm_compute; reflexivity).
    replace (js "/product-images/products/") with (js "/product-images/" ++ js "products/")
      by (vm_compute; reflexivity).
    rewrite <- !app_assoc, !app_assoc, <- (app_assoc _ (js "products/")),
      <- (app_assoc _ (js "/product-images/")).
    apply endsWith_app. }
  unfold deleteFromSupabase, mbind at 1, M_bind at 1, gets. rewrite Hremote3.
  assert (Htruthy : truthy (VStr (to_string (SUPABASE_URL (env w3))
            ++ js "/storage/v1/object/public/product-images/"
            ++ js "products/" ++ name)) = true).
  { cbn [truthy]. destruct (to_string _); done. }
  rewrite Htruthy. cbn [negb orb].
  unfold try_catch, mbind at 1, M_bind at 1, lift.
  rewrite image_path_of_url by done.
  unfold storage_remove, mbind, M_bind. rewrite Hnet.
  unfold modify, mret, M_ret. split; [reflexivity|].
  cbn [bucket set_bucket]. rewrite Hbucket6, Hbucket.
  by apply delete_insert_id.
Qed.

(** X14. [deleteFromSupabase] never throws, whatever the address and the
    store: it changes neither the configuration, the files nor the tables,
    and it does nothing at all without Supabase or without an address. *)
Theorem deleteFromSupabase_never_throws image w :
  exists w',
    deleteFromSupabase image w = (Ok tt, w')
    /\ same_data w w'
    /\ (useSupabase w = false \/ truthy image = false -> w' = w).
Proof.
  assert (H : exists w', deleteFromSupabase image w = (Ok tt, w')
                         /\ (useSupabase w = false \/ truthy image = false -> w' = w)).
  { unfold deleteFromSupabase, mbind at 1, M_bind at 1, gets.
    destruct (negb (useSupabase w) || negb (truthy image)) eqn:Hskip.
    - exists w. done.
    - apply orb_false_iff in Hskip as [Huse Himage].
      apply negb_false_iff in Huse, Himage.
      assert (Hno : useSupabase w = false \/ truthy image = false -> False).
      { intros [E|E]; congruence. }
      unfold try_catch.
      match goal with
      | |- context [match ?m w with _ => _ end] => destruct (m w) as [[[]|e] w1]
      end; eexists; (split; [reflexivity | intros Hyes; destruct (Hno Hyes)]). }
  destruct H as (w' & Hrun & Hskip). exists w'. split; [done|]. split; [|done].
  by apply quiet_deleteFromSupabase in Hrun as (? & _).
Qed.

(** * What PUT leaves and what it drops *)

(** X15. A successful [PUT /products/:id] keeps every field that it does not
    assign, the [id] and the date of creation among them. A field among
    [title], [price], [description] and the link that the request leaves
    out keeps its value with Supabase, and is removed from the record in
    local mode. *)
Theorem put_keeps_and_drops req w resp w' :
  put_products req w = (Ok resp, w') ->
  status resp = 200 ->
  forallb is_json (collection w (js "products")) = true ->
  exists i old kept,
    collection w (js "products") !! i = Some (VObj old)
    /\ has_id (params_id req) (VObj old) = true
    /\ collection w' (js "products") = <[i := VObj kept]> (collection w (js "products"))
    /\ (forall k,
          ~ In k [js "title"; js "price"; js "description"; js "image";
                  js "whatsappLink"; js "whatsapp_link"; js "updatedAt"; js "updated_at"] ->
          lookup_prop kept k = lookup_prop old k)
    /\ (forall k k',
          In (k, k') [(js "title", js "title"); (js "price", js "price");
                      (js "description", js "description");
                      (js "whatsappLink", link_key w)] ->
          field (body req) k = VUndefined ->
          lookup_prop kept k' = if useSupabase w then lookup_prop old k' else None).
Proof.
  intros H Hstatus Hjson. unfold put_products in H.
  apply route_handler_inv in H as (_ & _ & H); [|done].
  unfold collection, link_key in *. destruct (useSupabase w) eqn:Hmode.
  - destruct (put_products_remote _ _ _ _ _ Hmode H Hstatus)
      as (i & old & image & updated_at & Hi & Hid & Hnone & Hsome & _ & Htable & Henv).
    assert (useSupabase w' = true) as -> by (unfold useSupabase in *; by rewrite Henv).
    eexists i, old, _. split; [by rewrite list_lookup_fmap, Hi|]. split; [done|].
    split; [rewrite Htable; apply (list_fmap_insert VObj)|].
    assert (Hlook : forall k,
      lookup_prop (obj_assign old (wire (put_patch (body req) image updated_at))) k
      = match lookup_prop (put_patch (body req) image updated_at) k with
        | Some v => if is_defined v then Some (JSON.normalize v) else lookup_prop old k
        | None => lookup_prop old k
        end).
    { intros k. rewrite wire_props, lookup_obj_assign.
      - rewrite lookup_normalize_props by apply put_patch_keys.
        destruct (lookup_prop (put_patch _ _ _) k) as [v|]; [|done].
        by destruct (is_defined v).
      - unfold normalize_props. rewrite obj_lit_NoDup;
          rewrite map_map; cbn [fst]; apply defined_props_keys, put_patch_keys. }
    split.
    + intros k Hk. rewrite Hlook, lookup_prop_notin; [done|].
      intros Hin. apply Hk. cbn [put_patch map fst] in Hin. cbn [In] in *. tauto.
    + intros k k' Hk Hdef. rewrite Hlook.
      destruct Hk as [[= <- <-]|[[= <- <-]|[[= <- <-]|[[= <- <-]|[]]]]].
      * change (lookup_prop (put_patch ?b ?im ?u) _) with (Some (field b (js "title"))).
        cbv beta iota. by rewrite Hdef.
      * change (lookup_prop (put_patch ?b ?im ?u) _) with (Some (field b (js "price"))).
        cbv beta iota. by rewrite Hdef.
      * change (lookup_prop (put_patch ?b ?im ?u) _)
          with (Some (field b (js "description"))).
        cbv beta iota. by rewrite Hdef.
      * change (lookup_prop (put_patch ?b ?im ?u) _)
          with (Some (field b (js "whatsappLink"))).
        cbv beta iota. by rewrite Hdef.
  - destruct (put_products_local _ _ _ _ _ Hmode H Hstatus)
      as (l & i & old & updatedAt & Hl & Hi & Hid & Hnew).
    cbv zeta in Hnew. destruct Hnew as (_ & Hfiles & Henv).
    assert (useSupabase w' = false) as -> by (unfold useSupabase in *; by rewrite Henv).
    change (js "products" ++ js ".json") with (js "products.json") in *.
    rewrite Hl in *. rewrite Hfiles.
    assert (Hold : is_json (VObj old) = true).
    { rewrite forallb_forall in Hjson. apply (Hjson (VObj old)).
      apply list_elem_of_In. by apply list_elem_of_lookup_2 in Hi. }
    eexists i, old, _. split; [done|]. split; [done|]. split; [done|].
    assert (Hlook : forall base k,
      NoDup (map fst base) ->
      lookup_prop (normalize_props (obj_assign base (put_fields (body req) updatedAt))) k
      = match match lookup_prop (put_fields (body req) updatedAt) k with
              | Some v => Some v
              | None => lookup_prop base k
              end with
        | Some v => if is_defined v then Some (JSON.normalize v) else None
        | None => None
        end).
    { intros base k Hbase. rewrite lookup_normalize_props by (by apply obj_assign_keys).
      by rewrite lookup_obj_assign by apply put_fields_keys. }
    assert (Hbase : NoDup (map fst match upload req with
                                   | Some _ => obj_set old (js "image") (VStr (js "/uploads/undefined"))
                                   | None => old
                                   end)).
    { destruct (upload req); [apply obj_set_keys|]; by apply is_json_keys. }
    split.
    + intros k Hk. rewrite (Hlook _ _ Hbase), lookup_prop_notin.
      2:{ intros Hin. apply Hk. cbn [put_fields map fst] in Hin. cbn [In] in *. tauto. }
      replace (lookup_prop match upload req with
                           | Some _ => obj_set old (js "image") (VStr (js "/uploads/undefined"))
                           | None => old
                           end k) with (lookup_prop old k).
      2:{ destruct (upload req); [|done]. rewrite lookup_obj_set, decide_False; [done|].
          intros <-. apply Hk. cbn [In]. tauto. }
      by apply lookup_json_unchanged.
    + intros k k' Hk Hdef. rewrite (Hlook _ _ Hbase).
      destruct Hk as [[= <- <-]|[[= <- <-]|[[= <- <-]|[[= <- <-]|[]]]]].
      * change (lookup_prop (put_fields ?b ?u) _) with (Some (field b (js "title"))).
        cbv beta iota. by rewrite Hdef.
      * change (lookup_prop (put_fields ?b ?u) _) with (Some (field b (js "price"))).
        cbv beta iota. by rewrite Hdef.
      * change (lookup_prop (put_fields ?b ?u) _) with (Some (field b (js "description"))).
        cbv beta iota. by rewrite Hdef.
      * change (lookup_prop (put_fields ?b ?u) _) with (Some (field b (js "whatsappLink"))).
        cbv beta iota. by rewrite Hdef.
Qed.

(** * More on POST /products *)



(** X17. In local mode the file of an upload is kept nowhere. A POST that
    comes with one changes no file but [products.json] and leaves the
    bucket alone, and the [image] of its product is the [image] of the
    body, or the empty string; a PUT that comes with one sets the [image]
    of the product to [/uploads/undefined]. *)
Theorem local_mode_drops_the_upload req f w resp w' :
  useSupabase w = false ->
  upload req = Some f ->
  status resp = 200 ->
  (post_products req w = (Ok resp, w') ->
   bucket w' = bucket w
   /\ (forall p, p <> data_path (js "products.json") -> files w' !! p = files w !! p)
   /\ exists product,
        resp = success_with (js "product") (VObj product)
        /\ lookup_prop product (js "image")
           = Some (js_or (field (body req) (js "image")) (VStr [])))
  /\ (put_products req w = (Ok resp, w') ->
      exists product,
        resp = success_with (js "product") (VObj product)
        /\ lookup_prop product (js "image") = Some (VStr (js "/uploads/undefined"))).
Proof.
  intros Hlocal Hup Hstatus. split; intros H.
  - unfold post_products in H.
    apply route_handler_inv in H as (_ & _ & H); [|done].
    rewrite post_products_local in H by done.
    destruct (product_link (body req)) as [link|e] eqn:Hlink;
      [|apply run_ok_inv in H as [<- _]; done].
    cbv zeta in H.
    destruct (method_target _ _ _) as [l|e] eqn:Hl;
      [|apply run_ok_inv in H as [<- _]; done].
    apply run_ok_inv in H as [<- <-]. cbn [bucket files set_files set_ticks set_drawn].
    split; [done|]. split; [intros p Hp; by rewrite lookup_insert_ne|].
    eexists. split; reflexivity.
  - unfold put_products in H.
    apply route_handler_inv in H as (_ & _ & H); [|done].
    destruct (put_products_local _ _ _ _ _ Hlocal H Hstatus)
      as (l & i & old & updatedAt & _ & _ & _ & Hnew).
    rewrite Hup in Hnew. cbv zeta in Hnew. destruct Hnew as (-> & _).
    eexists. split; [reflexivity|].
    rewrite lookup_obj_assign by apply put_fields_keys.
    change (lookup_prop (put_fields ?b ?u) (js "image")) with (@None value).
    cbv beta iota. by rewrite lookup_obj_set, decide_True.
Qed.

(** * The defaults of POST /courses *)

Lemma comments_default b :
  js_or match parseInt (field b (js "comments")) with
        | Some n => VNum n
        | None => VNum 0
        end (VNum 0)
  = VNum (comments_of b).
Proof.
  unfold comments_of, js_or. destruct (parseInt _) as [n|]; [|done].
  cbn [truthy from_option]. unfold id. destruct (Z.eqb_spec n 0) as [->|]; done.
Qed.

(** The clock and the calendar tick together, and no step of a route
    changes what they show. *)
Lemma image_step_calendar req file (use : bool) w imageUrl w1 :
  (match file with
   | Some f =>
     if use then url ← uploadToSupabase f; mret (VStr url)
     else mret (js_or (field (body req) (js "image")) (VStr []))
   | None => mret (js_or (field (body req) (js "image")) (VStr []))
   end : M value) w = (Ok imageUrl, w1) ->
  calendar w1 = calendar w /\ ticks w1 = ticks w.
Proof.
  destruct file as [f|]; [destruct use|]; intros H;
    try (apply mret_inv in H as [_ ->]; done).
  step H as url w2 Hup. apply mret_inv in H as [_ ->].
  unfold uploadToSupabase in Hup.
  step Hup as u w3 Huse. destruct (negb (useSupabase w)); [done|].
  step Hup as fileId w4 Huuid. cbv zeta in Hup.
  step Hup as r w5 Hupload.
  apply bind_ok_inv in Hup as (t & w6 & Hthrow & Hup).
  unfold throw_if_error in Hthrow. destruct (error_of r); [done|].
  apply mret_inv in Hthrow as [_ ->].
  unfold storage_public_url in Hup. step Hup as base w7 Hbase.
  apply mret_inv in Hup as [_ ->].
  unfold storage_upload in Hupload.
  apply bind_ok_inv in Hupload as (e & w8 & Hnet & Hupload).
  assert (Hw8 : calendar w8 = calendar w /\ ticks w8 = ticks w).
  { unfold net_next in Hnet. cbn [net set_drawn] in Hnet.
    destruct (net w) as [|[]]; try done; apply run_ok_inv in Hnet as [_ <-]; done. }
  destruct e; [by apply mret_inv in Hupload as [_ ->]|].
  step Hupload as b w9 Hb.
  destruct (bucket w8 !! _); [by apply mret_inv in Hupload as [_ ->]|].
  apply bind_ok_inv in Hupload as (t' & w10 & Hmod & Hupload).
  apply mret_inv in Hupload as [_ ->].
  unfold modify in Hmod. apply run_ok_inv in Hmod as [_ <-]. done.
Qed.

(** X18. The course in the answer of a successful [POST /courses]: its
    [comments] are the integer that [parseInt] reads at the head of the
    field of the body, and zero when it reads none; its [date] is the one
    of the body, or the day of the calendar when the body has none. *)
Theorem post_courses_defaults req w resp w' :
  post_courses req w = (Ok resp, w') ->
  status resp = 200 ->
  exists course,
    resp = success_with (js "course") (VObj course)
    /\ lookup_prop course (js "comments") = Some (VNum (comments_of (body req)))
    /\ (truthy (field (body req) (js "date")) = false ->
        lookup_prop course (js "date") = Some (VStr (calendar w (ticks w))))
    /\ (forall s, field (body req) (js "date") = VStr s -> s <> [] ->
        lookup_prop course (js "date") = Some (VStr s)).
Proof.
  intros H Hstatus. unfold post_courses in H.
  apply route_handler_inv in H as (_ & _ & H); [|done].
  unfold post_courses_handler in H.
  apply route_ok_inv in H; [|done]. cbv zeta in H.
  step H as use w0 Huse.
  step H as imageUrl w1 Himage.
  apply image_step_calendar in Himage as [Hcal Hticks].
  step H as uuid w2 Huuid. step H as date w3 Hdate.
  assert (Hdate' : (truthy (field (body req) (js "date")) = false ->
                    date = VStr (calendar w (ticks w)))
                   /\ (forall s, field (body req) (js "date") = VStr s -> s <> [] ->
                       date = VStr s)).
  { destruct (truthy (field (body req) (js "date"))) eqn:Ht.
    - apply mret_inv in Hdate as [-> _]. split; [done|]. by intros s ->.
    - apply bind_ok_inv in Hdate as (d & w4 & Hd & Hdate).
      unfold now_short_date in Hd. apply run_ok_inv in Hd as [<- _].
      apply mret_inv in Hdate as [-> _].
      cbn [calendar ticks set_drawn]. rewrite Hcal, Hticks. split; [done|].
      intros s Hs Hne. rewrite Hs in Ht. by destruct s. }
  clear Hdate. destruct Hdate' as [Hnone Hsome].
  rewrite comments_default in H.
  step H as createdAt w4 HcreatedAt.
  destruct (useSupabase w).
  - step H as created_at w5 Hcreated_at.
    rewrite course_row_lit in H.
    step H as r w6 Hinsert.
    apply bind_ok_inv in H as (u & w7 & Hthrow & H). apply mret_inv in H as [-> ->].
    unfold throw_if_error in Hthrow. destruct (error_of r) eqn:Herr; [done|].
    destruct (remote_insert_ok _ _ _ _ _ Hinsert Herr) as (-> & _).
    eexists. split; [reflexivity|].
    rewrite wire_props, !lookup_normalize_props
      by (apply (bool_decide_unpack _); reflexivity).
    split; [reflexivity|]. split.
    + intros Hd. rewrite (Hnone Hd). reflexivity.
    + intros s Hs Hne. rewrite (Hsome s Hs Hne). reflexivity.
  - step H as courses w5 Hread. step H as l w6 Hl.
    apply bind_ok_inv in H as (u & w7 & Hwrite & H). apply mret_inv in H as [-> ->].
    rewrite course_lit. eexists. split; [reflexivity|].
    split; [reflexivity|]. split.
    + intros Hd. rewrite (Hnone Hd). reflexivity.
    + intros s Hs Hne. rewrite (Hsome s Hs Hne). reflexivity.
Qed.

(** * The listings *)

Lemma insert_row_perm col r rows : Permutation (insert_row col r rows) (r :: rows).
Proof.
  induction rows as [|r' rows IH]; [done|].
  cbn [insert_row]. destruct (precedes col r r'); [done|].
  rewrite IH. apply perm_swap.
Qed.

Lemma sorted_rows_perm col rows : Permutation (foldr (insert_row col) [] rows) rows.
Proof.
  induction rows as [|r rows IH]; [done|].
  cbn [foldr]. rewrite insert_row_perm. by constructor.
Qed.

(** X19. [GET /products] and [GET /courses] change neither the files nor the
    tables. In local mode the answer is what the file of the collection
    holds, and the empty array when the file is absent or unreadable. With
    Supabase the answer is 200 with every row of the table, once each, or
    500 with the message of the store. *)
Theorem listing_shows_the_collection tbl file_name w :
  (useSupabase w = false ->
   get_collection tbl file_name w = (Ok (res_json (stored (files w) file_name)), w))
  /\ (useSupabase w = true ->
      forall resp w',
        get_collection tbl file_name w = (Ok resp, w') ->
        same_data w w'
        /\ ((exists rows, resp = res_json (VArr (map VObj rows))
                          /\ Permutation rows (table tbl w))
            \/ exists msg, net w = NetError msg :: net w'
                           /\ resp = res_status_json 500 (error_body msg))).
Proof.
  split; [apply get_collection_local|].
  intros Hremote resp w' H. unfold get_collection in H.
  step H as use w0 Huse. rewrite Hremote in H.
  step H as r w1 Hselect. unfold remote_select_all in Hselect.
  apply bind_ok_inv in Hselect as (e & w2 & Hnet & Hselect).
  pose proof (net_next_same _ _ _ Hnet) as Hsame.
  destruct e as [err|].
  - apply mret_inv in Hselect as [-> ->]. cbn [error_of failed] in H.
    apply mret_inv in H as [-> ->]. split; [done|]. right.
    unfold net_next in Hnet. destruct (net w) as [|[|msg|msg] rest] eqn:E; try done.
    apply run_ok_inv in Hnet as [[= <-] <-]. by exists msg.
  - step Hselect as rows w3 Hrows. apply mret_inv in Hselect as [-> ->].
    cbn [error_of data] in H. apply mret_inv in H as [-> ->].
    split; [done|]. left. eexists. split; [reflexivity|].
    rewrite (table_same _ _ _ Hsame). apply sorted_rows_perm.
Qed.

(** * A migration that the store refuses *)

Lemma or_now_frame x w :
  exists v w',
    or_now x w = (Ok v, w')
    /\ net w' = net w /\ tables w' = tables w /\ stdout w' = stdout w.
Proof.
  unfold or_now. destruct (truthy x); [by exists x, w|].
  unfold mbind, M_bind, now_iso. by eexists _, _.
Qed.

Lemma remote_upsert_refused t row w msg rest :
  net w = NetError msg :: rest ->
  remote_upsert t row w = (Ok (failed (mkError PlainError msg)), set_net rest w).
Proof.
  intros Hnet. unfold remote_upsert, mbind, M_bind. by rewrite (net_next_error _ _ _ Hnet).
Qed.

Ltac goes_on_steps :=
  let o := fresh "o" in
  let w := fresh "w" in
  let msg := fresh "msg" in
  let rest := fresh "rest" in
  let Hnet := fresh "Hnet" in
  intros o w msg rest Hnet;
  unfold mbind, M_bind, lift; cbn [get];
  match goal with
  | |- context [or_now ?x w] =>
    let v := fresh "v" in
    let w1 := fresh "w" in
    let Hnow := fresh "Hnow" in
    let Hn := fresh "Hn" in
    let Ht := fresh "Ht" in
    let Hs := fresh "Hs" in
    destruct (or_now_frame x w) as (v & w1 & Hnow & Hn & Ht & Hs);
    rewrite Hnow; rewrite <- Hn in Hnet;
    rewrite (remote_upsert_refused _ _ _ _ _ Hnet);
    eexists; split; [reflexivity|];
    cbn [net tables stdout set_net]; done
  end.

Lemma upsert_user_goes_on : goes_on upsert_user.
Proof. unfold upsert_user. goes_on_steps. Qed.

Lemma upsert_product_goes_on : goes_on upsert_product.
Proof. unfold upsert_product. goes_on_steps. Qed.

Lemma upsert_course_goes_on : goes_on upsert_course.
Proof. unfold upsert_course. goes_on_steps. Qed.

Lemma for_each_refused (f : value -> M unit) l :
  goes_on f ->
  forallb is_record l = true ->
  forall w,
    (length l <= length (net w))%nat ->
    Forall refusal (net w) ->
    exists w',
      for_each l f w = (Ok tt, w')
      /\ tables w' = tables w /\ stdout w' = stdout w.
Proof.
  intros Hf. induction l as [|v l IH]; intros Hrec w Hlen Hnet; [by exists w|].
  cbn [forallb] in Hrec. apply andb_true_iff in Hrec as [Hv Hl].
  destruct v as [| | | | | |o]; try done.
  destruct (net w) as [|out rest] eqn:E; [cbn in Hlen; lia|].
  apply Forall_cons in Hnet as [[msg ->] Hrest].
  destruct (Hf o w msg rest E) as (w1 & Hrun & Hnet1 & Ht1 & Hs1).
  destruct (IH Hl w1) as (w2 & Hrun2 & Ht2 & Hs2).
  { rewrite Hnet1. cbn [length] in Hlen. lia. }
  { by rewrite Hnet1. }
  exists w2. cbn [for_each]. unfold mbind, M_bind. rewrite Hrun.
  split; [done|]. split; congruence.
Qed.

(** X20. The migration does not look at the answers of the store. When the
    store refuses every upsert of a collection with an error, the loop
    nevertheless goes through all the records of the file and the script
    reports them as migrated, while the table is as it was. *)
Theorem refused_upserts_are_counted name f w text l :
  In (name, f) [(js "users", upsert_user); (js "products", upsert_product);
                (js "courses", upsert_course)] ->
  files w !! data_path (name ++ js ".json") = Some text ->
  JSON.parse text = Some (VArr l) ->
  forallb is_record l = true ->
  (length l <= length (net w))%nat ->
  Forall refusal (net w) ->
  exists w',
    migrate_collection name f w = (Ok tt, w')
    /\ stdout w'
       = stdout w ++ [js "📦 Migrating " ++ name ++ js "...";
                      js "✓ Migrated " ++ Z_to_string (Z.of_nat (length l)) ++ 32 :: name]
    /\ tables w' = tables w.
Proof.
  intros Hname Hfile Hparse Hrec Hlen Hnet.
  assert (Hf : goes_on f).
  { destruct Hname as [[= <- <-]|[[= <- <-]|[[= <- <-]|[]]]];
      [apply upsert_user_goes_on | apply upsert_product_goes_on | apply upsert_course_goes_on]. }
  clear Hname.
  destruct (for_each_refused f l Hf Hrec
              (set_stdout (stdout w ++ [js "📦 Migrating " ++ name ++ js "..."]) w) Hlen Hnet)
    as (w1 & Hrun & Ht & Hs).
  unfold migrate_collection, try_catch, mbind, M_bind, console_log, modify,
    readFileSync, JSON_parse, lift, mret, M_ret.
  cbn [files set_stdout]. unfold data_path in Hfile. rewrite Hfile, Hparse.
  cbn [iterate]. rewrite Hrun.
  eexists. split; [reflexivity|].
  cbn [stdout tables set_stdout length_of to_string]. rewrite Hs, Ht.
  cbn [stdout tables set_stdout]. by rewrite <- app_assoc.
Qed.

(** * The link of a new product *)

Lemma lt_256_shiftr x : x < 256 <-> N.shiftr x 8 = 0.
Proof.
  rewrite N.shiftr_div_pow2. change (2 ^ 8) with 256. split.
  - intros. by apply N.div_small.
  - intros E. destruct (N.lt_ge_cases x 256) as [|Hge]; [done|].
    assert (1 <= x / 256) by (apply N.div_le_lower_bound; lia). lia.
Qed.

Lemma lor_lt_256 a b : a < 256 -> b < 256 -> N.lor a b < 256.
Proof.
  intros Ha Hb. apply lt_256_shiftr. rewrite N.shiftr_lor.
  by rewrite (proj1 (lt_256_shiftr a) Ha), (proj1 (lt_256_shiftr b) Hb).
Qed.

Lemma land_63_lt x : N.land x 0x3F < 256.
Proof.
  change 0x3F with (N.ones 6). rewrite N.land_ones. change (2 ^ 6) with 64.
  pose proof (N.mod_lt x 64). lia.
Qed.

Lemma shiftr_lt x k m : x < m * 2 ^ k -> N.shiftr x k < m.
Proof.
  intros H. rewrite N.shiftr_div_pow2. apply N.Div0.div_lt_upper_bound. lia.
Qed.

Lemma utf8_encode_bytes cp :
  cp < 0x110000 -> Forall (fun b => b < 256) (utf8_encode cp).
Proof.
  intros Hcp. unfold utf8_encode.
  destruct (N.ltb_spec cp 0x80); [repeat constructor; lia|].
  destruct (N.ltb_spec cp 0x800).
  { repeat constructor; apply lor_lt_256; try done; try apply land_63_lt.
    apply (N.lt_trans _ 32); [|done]. apply shiftr_lt. by change (32 * 2 ^ 6) with 0x800. }
  destruct (N.ltb_spec cp 0x10000).
  { repeat constructor; apply lor_lt_256; try done; try apply land_63_lt.
    apply (N.lt_trans _ 16); [|done]. apply shiftr_lt. by change (16 * 2 ^ 12) with 0x10000. }
  repeat constructor; apply lor_lt_256; try done; try apply land_63_lt.
  apply (N.lt_trans _ 8); [|done]. apply shiftr_lt.
  change (8 * 2 ^ 18) with 0x200000. lia.
Qed.

Lemma hex_upper_safe d : d < 16 -> url_safe (hex_upper d) = true.
Proof.
  intros Hd. unfold url_safe, uri_unreserved, is_alnum, hex_upper.
  destruct (N.ltb_spec d 10).
  - replace ((48 <=? 48 + d) && (48 + d <=? 57)) with true; [done|].
    symmetry. apply andb_true_iff. split; apply N.leb_le; lia.
  - replace ((65 <=? 55 + d) && (55 + d <=? 90)) with true;
      [by rewrite orb_true_r|].
    symmetry. apply andb_true_iff. split; apply N.leb_le; lia.
Qed.

Lemma percent_safe b : b < 256 -> forallb url_safe (percent b) = true.
Proof.
  intros Hb. unfold percent. cbn [forallb].
  rewrite !hex_upper_safe; [done| |].
  - change 0xF with (N.ones 4). rewrite N.land_ones. by apply N.mod_lt.
  - apply shiftr_lt. by change (16 * 2 ^ 4) with 256.
Qed.

Lemma percent_bytes_safe bs :
  Forall (fun b => b < 256) bs -> forallb url_safe (flat_map percent bs) = true.
Proof.
  induction 1 as [|b bs Hb _ IH]; [done|].
  cbn [flat_map]. by rewrite forallb_app, percent_safe, IH.
Qed.

Lemma encode_units_safe n : forall s enc,
  (length s <= n)%nat ->
  Forall (fun c => c < 65536) s ->
  encode_units s = Some enc -> forallb url_safe enc = true.
Proof.
  induction n as [|n IH]; intros s enc Hn Hs H.
  { destruct s; [by injection H as <-|cbn in Hn; lia]. }
  destruct s as [|c r]; [by injection H as <-|].
  cbn [length] in Hn. apply Forall_cons in Hs as [Hc Hr].
  cbn [encode_units] in H.
  destruct (uri_unreserved c) eqn:Hsafe.
  { destruct (encode_units r) as [t|] eqn:E; [|done]. injection H as <-.
    cbn [forallb]. unfold url_safe at 1. rewrite Hsafe.
    apply (IH r); [lia|done|done]. }
  destruct (is_low_surrogate c); [done|].
  destruct (is_high_surrogate c) eqn:Hhigh.
  - destruct r as [|d r']; [done|].
    destruct (is_low_surrogate d) eqn:Hlow; [|done].
    destruct (encode_units r') as [t|] eqn:E; [|done]. injection H as <-.
    apply Forall_cons in Hr as [Hd Hr'].
    rewrite forallb_app. rewrite (IH r' t); [|cbn [length] in Hn; lia|done|done].
    rewrite percent_bytes_safe; [done|]. apply utf8_encode_bytes.
    unfold is_high_surrogate in Hhigh. unfold is_low_surrogate in Hlow.
    apply andb_true_iff in Hhigh as [H1 H2]. apply andb_true_iff in Hlow as [H3 H4].
    apply N.leb_le in H1, H2, H3, H4.
    rewrite N.shiftl_mul_pow2. change (2 ^ 10) with 1024. lia.
  - destruct (encode_units r) as [t|] eqn:E; [|done]. injection H as <-.
    rewrite forallb_app. rewrite (IH r t); [|lia|done|done].
    rewrite percent_bytes_safe; [done|]. apply utf8_encode_bytes. lia.
Qed.

(** X21. A product created without a link gets one made of the fixed prefix
    and of the title escaped by [encodeURIComponent]: whatever the text of
    the title, what follows the prefix is made of letters, digits, the
    marks [- _ . ! ~ * ' ( )] and percent escapes only. *)
Theorem default_link_is_url_safe req w resp w' s :
  post_products req w = (Ok resp, w') ->
  status resp = 200 ->
  truthy (field (body req) (js "whatsappLink")) = false ->
  field (body req) (js "title") = VStr s ->
  Forall (fun c => c < 65536) s ->
  exists record enc,
    collection w' (js "products") = collection w (js "products") ++ [VObj record]
    /\ lookup_prop record (link_key w) = Some (VStr (whatsapp_prefix ++ enc))
    /\ forallb url_safe enc = true.
Proof.
  intros H Hstatus Hlink Htitle Hs.
  destruct (post_products_stored _ _ _ _ H Hstatus)
    as (record & shown & link & w1 & Hprod & _ & Hcoll & _ & _ & _ & Hrec).
  unfold product_link in Hprod. rewrite Hlink, Htitle in Hprod.
  unfold encodeURIComponent in Hprod. cbn [to_string] in Hprod.
  destruct (encode_units s) as [enc|] eqn:Henc; [|done]. injection Hprod as <-.
  exists record, enc. split; [done|]. split; [done|].
  by apply (encode_units_safe (length s) s).
Qed.

(** * Uploads with Supabase *)

Lemma storage_upload_inv path f w r w' :
  storage_upload path f w = (Ok r, w') ->
  error_of r = None ->
  bucket w !! path = None /\ bucket w' = <[path := f]> (bucket w).
Proof.
  intros H Herr. unfold storage_upload in H.
  apply bind_ok_inv in H as (e & w1 & Hnet & H).
  assert (Hb : bucket w1 = bucket w).
  { unfold net_next in Hnet. destruct (net w) as [|[]]; try done;
      by apply run_ok_inv in Hnet as [_ <-]. }
  destruct e; [apply mret_inv in H as [-> _]; done|].
  step H as b w2 Hbucket. rewrite Hb in H.
  destruct (bucket w !! path) eqn:E; [apply mret_inv in H as [-> _]; done|].
  apply bind_ok_inv in H as (u & w3 & Hmod & H). apply mret_inv in H as [_ ->].
  unfold modify in Hmod. apply run_ok_inv in Hmod as [_ <-].
  cbn [bucket set_bucket]. by rewrite Hb.
Qed.

Lemma uploadToSupabase_inv f w url w1 :
  uploadToSupabase f w = (Ok url, w1) ->
  bucket w !! (js "products/" ++ fresh_uuid w ++ extname (originalname f)) = None
  /\ bucket w1
     = <[js "products/" ++ fresh_uuid w ++ extname (originalname f) := f]> (bucket w)
  /\ exists base,
       url = base ++ js "/storage/v1/object/public/product-images/"
             ++ js "products/" ++ fresh_uuid w ++ extname (originalname f).
Proof.
  intros H. unfold uploadToSupabase in H.
  step H as use w0 Huse. destruct (negb (useSupabase w)); [done|].
  step H as fileId w2 Huuid. cbv zeta in H.
  step H as r w3 Hupload.
  apply bind_ok_inv in H as (u & w4 & Hthrow & H).
  unfold throw_if_error in Hthrow. destruct (error_of r) eqn:Herr; [done|].
  apply mret_inv in Hthrow as [_ ->].
  unfold storage_public_url in H. step H as base w5 Hbase.
  apply mret_inv in H as [-> ->].
  destruct (storage_upload_inv _ _ _ _ _ Hupload Herr) as [Hfree Hbucket].
  split; [exact Hfree|]. split; [exact Hbucket|]. by eexists.
Qed.

Lemma remote_insert_bucket t row w r w' :
  remote_insert t row w = (r, w') -> bucket w' = bucket w.
Proof.
  unfold remote_insert, mbind, M_bind, gets, mret, M_ret, set_table, modify, net_next.
  destruct (net w) as [|[| |] ?]; cbn;
    try (destruct (negb _); [|destruct (existsb _ _)]); by intros [= <- <-].
Qed.

(** X22. With Supabase, a successful [POST /products] that comes with a file
    puts the file in the bucket, under [products/] and at a place that was
    free, and adds one row to the table: the row of the answer, whose
    [image] is the public address of that place. *)
Theorem remote_post_stores_the_upload req f w resp w' :
  useSupabase w = true ->
  upload req = Some f ->
  post_products req w = (Ok resp, w') ->
  status resp = 200 ->
  exists name url row,
    bucket w !! (js "products/" ++ name) = None
    /\ bucket w' = <[js "products/" ++ name := f]> (bucket w)
    /\ table (js "products") w' = table (js "products") w ++ [row]
    /\ resp = success_with (js "product") (VObj row)
    /\ field row (js "image") = VStr url
    /\ endsWith url (js "/product-images/products/" ++ name) = true.
Proof.
  intros Hremote Hup H Hstatus. unfold post_products in H.
  apply route_handler_inv in H as (_ & _ & H); [|done]. rewrite Hup in H.
  unfold post_products_handler in H.
  apply route_ok_inv in H; [|done]. cbv zeta in H.
  step H as use w0 Huse. rewrite Hremote in H.
  step H as imageUrl w1 Himage.
  step Himage as url w2 Hupload. apply mret_inv in Himage as [-> ->].
  pose proof (uploadToSupabase_same _ _ _ _ Hupload) as (Hsame & _).
  destruct (uploadToSupabase_inv _ _ _ _ Hupload) as (Hfree & Hbucket & base & ->).
  step H as uuid w3 Huuid. step H as link w4 Hlink.
  assert (product_link (body req) = Ok link /\ w4 = set_drawn (drawn w2 + 16)%nat w2)
    as [Hlink' ->].
  { unfold product_link. destruct (truthy _).
    - by apply mret_inv in Hlink as [-> ->].
    - step Hlink as enc w5 Henc. apply mret_inv in Hlink as [-> ->]. by rewrite Henc. }
  clear Hlink. step H as createdAt w5 HcreatedAt. step H as created_at w6 Hcreated_at.
  rewrite product_row_lit in H.
  step H as r w7 Hinsert.
  apply bind_ok_inv in H as (u & w8 & Hthrow & H). apply mret_inv in H as [-> ->].
  unfold throw_if_error in Hthrow. destruct (error_of r) eqn:Herr; [done|].
  apply mret_inv in Hthrow as [_ ->].
  pose proof (remote_insert_bucket _ _ _ _ _ Hinsert) as Hb.
  destruct (remote_insert_ok _ _ _ _ _ Hinsert Herr) as (Hdata & Htable & _).
  cbn [bucket set_ticks set_drawn] in Hb.
  eexists (fresh_uuid w ++ extname (originalname f)), _, _.
  split; [exact Hfree|]. split; [by rewrite Hb, Hbucket|].
  split.
  { rewrite Htable. f_equal.
    assert (Hs : same_data w (set_ticks (S (ticks (set_ticks (S (ticks (set_drawn (drawn w2 + 16)%nat w2))) (set_drawn (drawn w2 + 16)%nat w2)))) (set_ticks (S (ticks (set_drawn (drawn w2 + 16)%nat w2))) (set_drawn (drawn w2 + 16)%nat w2))))
      by (destruct Hsame as (?&?&?); done).
    by rewrite (table_same _ _ _ Hs). }
  split; [by rewrite Hdata|].
  split.
  { unfold field. rewrite wire_props, lookup_normalize_props by apply product_row_keys.
    reflexivity. }
  replace (js "/storage/v1/object/public/product-images/")
    with (js "/storage/v1/object/public" ++ js "/product-images/")
    by (vm_compute; reflexivity).
  replace (js "/product-images/products/") with (js "/product-images/" ++ js "products/")
    by (vm_compute; reflexivity).
  set (name := fresh_uuid w ++ extname (originalname f)).
  replace (base ++ (js "/storage/v1/object/public" ++ js "/product-images/")
           ++ js "products/" ++ name)
    with ((base ++ js "/storage/v1/object/public")
          ++ (js "/product-images/" ++ js "products/") ++ name)
    by (rewrite <- !app_assoc; reflexivity).
  apply endsWith_app.
Qed.

Lemma remote_select_single_run t cols x w row :
  online w ->
  List.filter (row_matches (js "id") x) (table t w) = [row] ->
  exists w1,
    remote_select_single t cols (js "id") x w
    = (Ok (mkReply
             (VObj match cols with
                   | None => row
                   | Some cs => map (fun c => (c, default VNull (lookup_prop row c))) cs
                   end) None), w1)
    /\ online w1 /\ same_data w w1 /\ bucket w1 = bucket w.
Proof.
  intros Hon Hrow. destruct (online_next w Hon) as (w1 & Hnet & Hon1 & Hsame & Hb).
  exists w1. unfold remote_select_single, mbind, M_bind, gets. rewrite Hnet.
  by rewrite (table_same _ _ _ Hsame), Hrow.
Qed.

Lemma deleteFromSupabase_run s w :
  useSupabase w = true ->
  online w ->
  s <> [] ->
  exists w1,
    deleteFromSupabase (VStr s) w = (Ok tt, w1)
    /\ bucket w1 = delete (join [47] (last_two (split 47 s))) (bucket w)
    /\ online w1 /\ same_data w w1.
Proof.
  intros Hremote Hon Hs. destruct (online_next w Hon) as (w1 & Hnet & Hon1 & Hsame & Hb).
  unfold deleteFromSupabase, mbind at 1, M_bind at 1, gets. rewrite Hremote.
  replace (truthy (VStr s)) with true by (by destruct s).
  cbn [negb orb]. unfold try_catch, storage_remove, mbind, M_bind, lift. rewrite Hnet.
  unfold modify, mret, M_ret. eexists. split; [reflexivity|].
  cbn [bucket set_bucket]. rewrite Hb. split; [done|]. split; [exact Hon1|].
  destruct Hsame as (?&?&?). done.
Qed.

Lemma remote_delete_run t x w :
  online w ->
  exists w1,
    remote_delete t (js "id") x w = (Ok (mkReply VNull None), w1)
    /\ table t w1 = List.filter (fun r => negb (row_matches (js "id") x r)) (table t w)
    /\ bucket w1 = bucket w.
Proof.
  intros Hon. destruct (online_next w Hon) as (w1 & Hnet & Hon1 & Hsame & Hb).
  unfold remote_delete, mbind, M_bind, gets, set_table, modify, mret, M_ret. rewrite Hnet.
  eexists. split; [reflexivity|].
  by rewrite table_set_table, (table_same _ _ _ Hsame).
Qed.

Lemma delete_handler_with_image tbl file_name plural singular req w row s :
  useSupabase w = true ->
  online w ->
  List.filter (fun r => has_id (params_id req) (VObj r)) (table tbl w) = [row] ->
  field row (js "image") = VStr s ->
  s <> [] ->
  exists w',
    delete_handler tbl file_name plural singular req w = (Ok deleted, w')
    /\ bucket w' = delete (join [47] (last_two (split 47 s))) (bucket w)
    /\ table tbl w'
       = List.filter (fun r => negb (has_id (params_id req) (VObj r))) (table tbl w).
Proof.
  intros Hremote Hon Hrow Himage Hs.
  assert (Hrow' : List.filter (row_matches (js "id") (VStr (params_id req))) (table tbl w)
                  = [row]).
  { rewrite <- Hrow. apply filter_ext. intros r. apply row_matches_id. }
  destruct (remote_select_single_run tbl (Some [js "image"]) _ w row Hon Hrow')
    as (w1 & Hselect & Hon1 & Hsame1 & Hb1).
  destruct (deleteFromSupabase_run s w1) as (w2 & Hdel & Hb2 & Hon2 & Hsame2);
    [by rewrite (useSupabase_same _ _ Hsame1) | done | done |].
  destruct (remote_delete_run tbl (VStr (params_id req)) w2 Hon2) as (w3 & Hrm & Ht3 & Hb3).
  exists w3. unfold delete_handler. cbv zeta. unfold try_catch.
  unfold mbind at 1, M_bind at 1, gets. rewrite Hremote.
  unfold mbind at 1, M_bind at 1. rewrite Hselect.
  cbn [data map get_opt lookup_prop]. rewrite decide_True by done.
  rewrite (field_lookup _ _ _ Himage). cbn [from_option]. unfold id.
  replace (truthy (VStr s)) with true by (by destruct s).
  unfold mbind at 1, M_bind at 1. rewrite Hdel.
  unfold mbind at 1, M_bind at 1. rewrite Hrm.
  unfold mbind, M_bind, throw_if_error, mret, M_ret. cbn [error_of].
  split; [reflexivity|]. split; [by rewrite Hb3, Hb2, Hb1|].
  rewrite Ht3, (table_same _ _ _ Hsame2), (table_same _ _ _ Hsame1).
  apply filter_ext. intros r. by rewrite row_matches_id.
Qed.

(** X23. With Supabase and a store that answers, a DELETE on the identifier of
    one row whose [image] is an address removes from the bucket the object
    that the last two segments of the address name, and removes the row;
    for the products and for the courses. *)
Theorem remote_delete_removes_the_image req w s :
  useSupabase w = true ->
  authenticated req = true ->
  online w ->
  s <> [] ->
  (forall row,
     List.filter (fun r => has_id (params_id req) (VObj r)) (table (js "products") w) = [row] ->
     field row (js "image") = VStr s ->
     exists w',
       delete_products req w = (Ok deleted, w')
       /\ bucket w' = delete (join [47] (last_two (split 47 s))) (bucket w)
       /\ table (js "products") w'
          = List.filter (fun r => negb (has_id (params_id req) (VObj r)))
              (table (js "products") w))
  /\ (forall row,
        List.filter (fun r => has_id (params_id req) (VObj r)) (table (js "courses") w) = [row] ->
        field row (js "image") = VStr s ->
        exists w',
          delete_courses req w = (Ok deleted, w')
          /\ bucket w' = delete (join [47] (last_two (split 47 s))) (bucket w)
          /\ table (js "courses") w'
             = List.filter (fun r => negb (has_id (params_id req) (VObj r)))
                 (table (js "courses") w)).
Proof.
  intros Hremote Hauth Hon Hs.
  split; intros row Hrow Himage; unfold delete_products, delete_courses, requireAuth;
    rewrite Hauth; by eapply delete_handler_with_image.
Qed.

Lemma remote_update_bucket t patch col x w r w' :
  remote_update t patch col x w = (r, w') -> bucket w' = bucket w.
Proof.
  unfold remote_update, mbind, M_bind, gets, mret, M_ret, set_table, modify, net_next.
  destruct (net w) as [|[| |] ?]; cbn;
    try (destruct (List.filter _ _) as [|? [|]]); by intros [= <- <-].
Qed.

(** X24. With Supabase and a store that answers, a successful PUT that comes
    with a file, on a product whose [image] is an address: the object that
    the address names leaves the bucket, the file of the request enters it
    under [products/], and the [image] of the product in the answer is the
    public address of the new object. *)
Theorem remote_put_replaces_the_image req f w resp w' old s :
  useSupabase w = true ->
  online w ->
  upload req = Some f ->
  List.filter (fun r => has_id (params_id req) (VObj r)) (table (js "products") w) = [old] ->
  field old (js "image") = VStr s ->
  s <> [] ->
  put_products req w = (Ok resp, w') ->
  status resp = 200 ->
  exists name url,
    bucket w'
    = <[js "products/" ++ name := f]>
        (delete (join [47] (last_two (split 47 s))) (bucket w))
    /\ get_opt (get_opt (payload resp) (js "product")) (js "image") = VStr url
    /\ endsWith url (js "/product-images/products/" ++ name) = true.
Proof.
  intros Hremote Hon Hup Hrow Himg Hs H Hstatus. unfold put_products in H.
  apply route_handler_inv in H as (_ & _ & H); [|done]. rewrite Hup in H.
  unfold put_products_handler in H.
  apply route_ok_inv in H; [|done]. cbv zeta in H.
  step H as use w0 Huse. rewrite Hremote in H.
  assert (Hrow' : List.filter (row_matches (js "id") (VStr (params_id req)))
                    (table (js "products") w) = [old]).
  { rewrite <- Hrow. apply filter_ext. intros r. apply row_matches_id. }
  destruct (remote_select_single_run (js "products") None _ w old Hon Hrow')
    as (w1 & Hselect & Hon1 & Hsame1 & Hb1).
  apply bind_ok_inv in H as (r & w1' & Hselect' & H).
  rewrite Hselect in Hselect'. apply run_ok_inv in Hselect' as [<- <-].
  cbn [data truthy negb] in H.
  step H as imageUrl0 w2 Hget. cbn [get] in Hget. injection Hget as <-.
  fold (field old (js "image")) in H. rewrite Himg in H.
  replace (truthy (VStr s)) with true in H by (by destruct s).
  step H as imageUrl w3 Himage.
  apply bind_ok_inv in Himage as (u & w4 & Hdel & Himage).
  destruct (deleteFromSupabase_run s w1) as (w4' & Hdel' & Hb4 & Hon4 & Hsame4);
    [by rewrite (useSupabase_same _ _ Hsame1) | done | done |].
  rewrite Hdel' in Hdel. apply run_ok_inv in Hdel as [_ <-].
  step Himage as url w5 Hupload. apply mret_inv in Himage as [-> ->].
  destruct (uploadToSupabase_inv _ _ _ _ Hupload) as (_ & Hb5 & base & ->).
  pose proof (uploadToSupabase_same _ _ _ _ Hupload) as (Hsame5 & _).
  step H as updated_at w6 Hnow. rewrite put_patch_lit in H.
  step H as r2 w7 Hupdate.
  apply bind_ok_inv in H as (u' & w8 & Hthrow & H). apply mret_inv in H as [-> ->].
  unfold throw_if_error in Hthrow. destruct (error_of r2) eqn:Herr; [done|].
  apply mret_inv in Hthrow as [_ ->].
  pose proof (remote_update_bucket _ _ _ _ _ _ _ Hupdate) as Hb7.
  destruct (remote_update_ok _ _ _ _ _ _ _ Hupdate Herr) as (row & _ & Hdata & _).
  cbn [bucket set_ticks] in Hb7.
  set (name := fresh_uuid w4' ++ extname (originalname f)) in *.
  exists name. eexists. split; [by rewrite Hb7, Hb5, Hb4, Hb1|].
  split.
  { cbn [success_with res_json payload get_opt lookup_prop].
    rewrite decide_False by (apply (bool_decide_unpack _); vm_compute; reflexivity).
    rewrite decide_True by done. cbn [from_option]. unfold id. rewrite Hdata.
    cbn [get_opt]. rewrite lookup_obj_assign by apply wire_keys.
    rewrite wire_props, lookup_normalize_props by apply put_patch_keys.
    reflexivity. }
  replace (js "/storage/v1/object/public/product-images/")
    with (js "/storage/v1/object/public" ++ js "/product-images/")
    by (vm_compute; reflexivity).
  replace (js "/product-images/products/") with (js "/product-images/" ++ js "products/")
    by (vm_compute; reflexivity).
  replace (base ++ (js "/storage/v1/object/public" ++ js "/product-images/")
           ++ js "products/" ++ name)
    with ((base ++ js "/storage/v1/object/public")
          ++ (js "/product-images/" ++ js "products/") ++ name)
    by (rewrite <- !app_assoc; reflexivity).
  apply endsWith_app.
Qed.

(** * POST on the local file *)

(** X25. In local mode [POST /products] looks at the file only to append to
    it. Whenever the link can be built and [products.json] holds an array,
    is absent or is unreadable, the answer is 200 and the record is added
    at the end, whatever the records before it: no identifier is compared
    with the new one. When the file holds JSON that is not an array, the
    answer is 500 and the file is left as it is. *)
Theorem local_post_appends req w link :
  useSupabase w = false ->
  authenticated req = true ->
  upload_accepted req ->
  product_link (body req) = Ok link ->
  (forall l,
     stored (files w) (js "products.json") = VArr l ->
     exists record w',
       post_products req w = (Ok (success_with (js "product") (VObj record)), w')
       /\ stored (files w') (js "products.json")
          = VArr (l ++ [VObj (normalize_props record)])
       /\ lookup_prop record (js "id")
          = Some (VStr (js "prod-" ++ substring0 8 (fresh_uuid w))))
  /\ (is_record (stored (files w) (js "products.json")) = true ->
      exists w',
        post_products req w
        = (Ok (res_status_json 500 (error_body (js "products.push is not a function"))), w')
        /\ files w' = files w).
Proof.
  intros Hlocal Hauth Hup Hlink.
  assert (Hrun : post_products req w = post_products_handler req (upload req) w).
  { unfold post_products, requireAuth. rewrite Hauth. by rewrite upload_single_accepted. }
  rewrite Hrun, post_products_local by done. rewrite Hlink. cbv zeta.
  split.
  - intros l Hl. rewrite Hl. cbn [method_target].
    eexists _, _. split; [reflexivity|]. cbn [files set_files].
    rewrite stored_after_push by (by apply (stored_array_json _ _ _ Hl)).
    unfold norm_elem. rewrite normalize_VObj_props. split; reflexivity.
  - intros Hobj. destruct (stored (files w) (js "products.json")); try done.
    cbn [method_target].
    exists (set_ticks (S (ticks w)) (set_drawn (drawn w + 16)%nat w)).
    split; [|reflexivity].
    replace (js "products.push is not a function")
      with (js "products" ++ 46 :: js "push" ++ js " is not a function")
      by (vm_compute; reflexivity).
    reflexivity.
Qed.

Lemma local_post_appends_witness :
  (forall l,
     stored (files shop_world) (js "products.json") = VArr l ->
     exists record w',
       post_products post_panel shop_world
       = (Ok (success_with (js "product") (VObj record)), w')
       /\ stored (files w') (js "products.json")
          = VArr (l ++ [VObj (normalize_props record)])
       /\ lookup_prop record (js "id")
          = Some (VStr (js "prod-" ++ substring0 8 (fresh_uuid shop_world))))
  /\ (is_record (stored (files shop_world) (js "products.json")) = true ->
      exists w',
        post_products post_panel shop_world
        = (Ok (res_status_json 500 (error_body (js "products.push is not a function"))), w')
        /\ files w' = files shop_world).
Proof.
  apply (local_post_appends post_panel shop_world
           (VStr (whatsapp_prefix ++ js "Panel%20A"))).
  - reflexivity.
  - reflexivity.
  - exact I.
  - vm_compute. reflexivity.
Defined.

(** The dice of the samples give the identifier of the product that the
    file has already: after the POST two records share it. *)
Example two_records_one_id :
  map (fun v => get_opt v (js "id"))
    (collection (post_products post_panel shop_world).2 (js "products"))
  = [VStr (js "prod-2a2a2a2a"); VStr (js "prod-2a2a2a2a")].
Proof. vm_compute. reflexivity. Qed.

(** * The file that DELETE unlinks *)

Lemma resolve_segments_app a : forall b stack,
  resolve_segments (a ++ b) stack = resolve_segments b (rev (resolve_segments a stack)).
Proof.
  induction a as [|seg a IH]; intros b stack.
  - cbn [app resolve_segments]. by rewrite rev_involutive.
  - cbn [app resolve_segments].
    destruct (bool_decide (seg = [] \/ seg = [46])); [apply IH|].
    destruct (bool_decide (seg = [46; 46])); [|apply IH].
    destruct stack as [|top stack']; [apply IH|].
    destruct (bool_decide (top = [46; 46])); apply IH.
Qed.

Lemma endsWith_slash x n :
  n <> [] -> Forall (fun c => c <> 47) n -> endsWith (x ++ n) [47] = false.
Proof.
  intros Hne Hn. unfold endsWith. rewrite rev_app_distr.
  destruct (rev n) as [|c r] eqn:E.
  { apply (f_equal (@rev N)) in E. rewrite rev_involutive in E. done. }
  assert (Hc : c <> 47).
  { apply Forall_rev in Hn. rewrite E in Hn. by apply Forall_cons in Hn as [? _]. }
  cbn [rev app startsWith]. by rewrite (proj2 (N.eqb_neq 47 c)) by done.
Qed.

(** [path.join] follows the [..] of an image that starts with
    [/uploads/]: the path leaves the [public] directory. *)
Lemma path_join_dot_dot n :
  file_name n ->
  path_join [js "public"; js "/uploads/../../data/" ++ n] = js "data/" ++ n.
Proof.
  intros (Hne & Hdot & Hdots & Hfree). unfold path_join.
  replace (base.filter (fun p => p <> []) [js "public"; js "/uploads/../../data/" ++ n])
    with [js "public"; js "/uploads/../../data/" ++ n].
  2:{ cbn. rewrite decide_True; [|by vm_compute].
      rewrite decide_True; [done|]. by destruct n. }
  cbn [join].
  replace (js "public" ++ [47] ++ js "/uploads/../../data/" ++ n)
    with (js "public//uploads/../../data" ++ 47 :: n).
  2:{ replace (js "/uploads/../../data/") with (js "/uploads/../../data" ++ [47])
        by (vm_compute; reflexivity).
      replace (js "public//uploads/../../data")
        with (js "public" ++ [47] ++ js "/uploads/../../data")
        by (vm_compute; reflexivity).
      rewrite <- !app_assoc. reflexivity. }
  assert (Hend : endsWith (js "public//uploads/../../data" ++ 47 :: n) [47] = false).
  { replace (js "public//uploads/../../data" ++ 47 :: n)
      with ((js "public//uploads/../../data" ++ [47]) ++ n)
      by (by rewrite <- app_assoc).
    by apply endsWith_slash. }
  cbv zeta. rewrite Hend.
  rewrite split_last by done. rewrite resolve_segments_app.
  replace (resolve_segments (split 47 (js "public//uploads/../../data")) [])
    with [js "data"] by (vm_compute; reflexivity).
  cbn [rev app resolve_segments].
  rewrite bool_decide_eq_false_2 by (intros [?|?]; done).
  rewrite bool_decide_eq_false_2 by done.
  cbn [rev app join].
  replace (js "data/") with (js "data" ++ [47]) by (vm_compute; reflexivity).
  rewrite <- app_assoc. cbn [app].
  destruct (js "data" ++ 47 :: n) eqn:E; [|done].
  by apply app_eq_nil in E as [_ ?].
Qed.

Lemma local_upload_dot_dot record n :
  file_name n ->
  get_opt record (js "image") = VStr (js "/uploads/../../data/" ++ n) ->
  local_upload record = Some (js "data/" ++ n).
Proof.
  intros Hn Himage. unfold local_upload. rewrite Himage.
  replace (startsWith (js "/uploads/../../data/" ++ n) (js "/uploads/")) with true.
  - by rewrite path_join_dot_dot.
  - symmetry.
    replace (js "/uploads/../../data/") with (js "/uploads/" ++ js "../../data/")
      by (vm_compute; reflexivity).
    rewrite <- app_assoc. apply startsWith_app.
Qed.

Lemma delete_handler_dot_dot tbl file_name' plural singular req w resp w' l n :
  useSupabase w = false ->
  file_name n ->
  stored (files w) file_name' = VArr l ->
  get_opt (first_with_id (params_id req) l) (js "image")
  = VStr (js "/uploads/../../data/" ++ n) ->
  js "data/" ++ n <> data_path file_name' ->
  delete_handler tbl file_name' plural singular req w = (Ok resp, w') ->
  status resp = 200 ->
  files w' !! (js "data/" ++ n) = None.
Proof.
  intros Hlocal Hn Hl Himage Hother H Hstatus.
  destruct (delete_handler_local _ _ _ _ _ _ _ _ Hlocal H Hstatus) as (l0 & Hl0 & Hf & _).
  rewrite Hl in Hl0. injection Hl0 as <-.
  rewrite Hf, (local_upload_dot_dot _ n Hn Himage).
  rewrite lookup_insert_ne by done. apply lookup_delete_eq.
Qed.

(** X26. The image of a record is joined to the [public] directory as it is:
    in local mode, a successful DELETE on a record whose [image] is
    [/uploads/../../data/] followed by the name of a file removes that file
    of the [data] directory, outside [public/uploads]. *)
Theorem delete_follows_dot_dot req w resp w' n :
  useSupabase w = false ->
  file_name n ->
  status resp = 200 ->
  (get_opt (first_with_id (params_id req) (collection w (js "products"))) (js "image")
   = VStr (js "/uploads/../../data/" ++ n) ->
   js "data/" ++ n <> data_path (js "products.json") ->
   delete_products req w = (Ok resp, w') ->
   files w' !! (js "data/" ++ n) = None)
  /\ (get_opt (first_with_id (params_id req) (collection w (js "courses"))) (js "image")
      = VStr (js "/uploads/../../data/" ++ n) ->
      js "data/" ++ n <> data_path (js "courses.json") ->
      delete_courses req w = (Ok resp, w') ->
      files w' !! (js "data/" ++ n) = None).
Proof.
  intros Hlocal Hn Hstatus. unfold collection. rewrite Hlocal.
  change (js "products" ++ js ".json") with (js "products.json").
  change (js "courses" ++ js ".json") with (js "courses.json").
  split; intros Himage Hother H; apply requireAuth_ok_inv in H as [_ H]; try done.
  - destruct (stored (files w) (js "products.json")) as [| | | | |l|] eqn:Hl;
      try (cbn in Himage; discriminate).
    by eapply delete_handler_dot_dot.
  - destruct (stored (files w) (js "courses.json")) as [| | | | |l|] eqn:Hl;
      try (cbn in Himage; discriminate).
    by eapply delete_handler_dot_dot.
Qed.

(** * A file with a null in it *)

Lemma filter_values_null id l :
  In VNull l -> exists e, filter_values (id_is_not id) l = Throw e.
Proof.
  induction l as [|x l IH]; [done|]. intros [->|Hin].
  - by eexists.
  - cbn [filter_values]. destruct (id_is_not id x) as [b|e]; [|by eexists].
    destruct (IH Hin) as [e ->]. by eexists.
Qed.

Lemma unlink_local_image_files image name w r w' :
  unlink_local_image image name w = (r, w') ->
  files w' = files w \/ exists p, files w' = delete p (files w).
Proof.
  unfold unlink_local_image. destruct (truthy image); [|intros [= <- <-]; by left].
  unfold mbind, M_bind, lift.
  destruct (call_startsWith image name (js "/uploads/")) as [[]|e];
    [|intros [= <- <-]; by left|intros [= <- <-]; by left].
  unfold try_catch, unlinkSync.
  destruct (files w !! _); intros [= <- <-]; [right; by eexists | by left].
Qed.

Lemma delete_handler_null tbl file_name' plural singular req w l :
  useSupabase w = false ->
  stored (files w) file_name' = VArr l ->
  In VNull l ->
  exists msg w',
    delete_handler tbl file_name' plural singular req w
    = (Ok (res_status_json 500 (error_body msg)), w')
    /\ (files w' = files w \/ exists p, files w' = delete p (files w)).
Proof.
  intros Hlocal Hl Hnull. unfold delete_handler. cbv zeta. unfold try_catch, catch_500.
  unfold mbind at 1, M_bind at 1, gets. rewrite Hlocal.
  unfold mbind at 1, M_bind at 1. rewrite readData_stored, Hl.
  unfold mbind at 1, M_bind at 1, lift at 1. cbn [method_target].
  unfold mbind at 1, M_bind at 1, lift at 1.
  destruct (find (id_is (params_id req)) l) as [record|e]; [|eexists _, _; split; [done|by left]].
  unfold mbind at 1, M_bind at 1.
  destruct (unlink_local_image _ _ w) as [[u|e] w1] eqn:Hunlink;
    apply unlink_local_image_files in Hunlink; [|by eexists _, _].
  unfold mbind at 1, M_bind at 1, lift at 1.
  destruct (filter_values_null (params_id req) l Hnull) as [e ->].
  by eexists _, _.
Qed.

(** X27. In local mode, when the file of a collection holds an array with a
    [null] in it, every DELETE on the collection is answered 500 and the
    file is not rewritten: no record can be deleted. (At most one file is
    removed: the upload of the record, when the record comes before the
    [null].) *)
Theorem null_record_blocks_delete req w l :
  useSupabase w = false ->
  authenticated req = true ->
  In VNull l ->
  (stored (files w) (js "products.json") = VArr l ->
   exists msg w',
     delete_products req w = (Ok (res_status_json 500 (error_body msg)), w')
     /\ (files w' = files w \/ exists p, files w' = delete p (files w)))
  /\ (stored (files w) (js "courses.json") = VArr l ->
      exists msg w',
        delete_courses req w = (Ok (res_status_json 500 (error_body msg)), w')
        /\ (files w' = files w \/ exists p, files w' = delete p (files w))).
Proof.
  intros Hlocal Hauth Hnull.
  split; intros Hl; unfold delete_products, delete_courses, requireAuth; rewrite Hauth;
    by apply delete_handler_null with (l := l).
Qed.

(** * The statements above on the samples *)

Lemma delete_unlinks_the_upload_witness :
  files (delete_products delete_panel gallery_world).2 !! js "public/uploads/a.png"
  = if decide (local_upload (first_with_id (params_id delete_panel)
                               (collection gallery_world (js "products")))
               = Some (js "public/uploads/a.png"))
    then None else files gallery_world !! js "public/uploads/a.png".
Proof.
  apply (proj1 (delete_unlinks_the_upload delete_panel gallery_world deleted
                  (delete_products delete_panel gallery_world).2
                  (js "public/uploads/a.png") eq_refl eq_refl)).
  - vm_compute. reflexivity.
  - vm_compute. discriminate.
Defined.

(** The image of the deleted product is gone, and it was there. *)
Example gallery_after_delete :
  files gallery_world !! js "public/uploads/a.png" = Some (js "PNG")
  /\ files (delete_products delete_panel gallery_world).2 !! js "public/uploads/a.png" = None
  /\ stored (files (delete_products delete_panel gallery_world).2) (js "products.json")
     = VArr [].
Proof. repeat split; vm_compute; reflexivity. Qed.

Lemma login_opens_a_session_witness :
  post_login login_clerk office_world
  = (Ok (login_successful, Some (session_for [] user2)), office_world)
  /\ forall req',
       session req' = Some (session_for [] user2) ->
       authenticated req' = truthy (field user2 (js "id"))
       /\ (truthy (field user2 (js "id")) = true ->
           get_auth_status req'
           = res_json (VObj [(js "authenticated", VBool true);
                             (js "username", field user2 (js "username"))])).
Proof.
  apply (login_opens_a_session login_clerk office_world [] [VObj user1] user2 []).
  - reflexivity.
  - reflexivity.
  - vm_compute. reflexivity.
  - vm_compute. reflexivity.
  - vm_compute. reflexivity.
Defined.

Lemma login_refuses_other_credentials_witness :
  post_login login_wrong office_world
  = (Ok (invalid_credentials, session login_wrong), office_world).
Proof.
  apply (login_refuses_other_credentials login_wrong office_world [VObj user1; VObj user2]).
  - reflexivity.
  - vm_compute. reflexivity.
  - vm_compute. reflexivity.
Defined.

Lemma login_remote_refuses_witness :
  post_login login_clerk remote_office
  = (Ok (invalid_credentials, session login_clerk), remote_office).
Proof.
  apply (login_remote_refuses login_clerk remote_office (mkReply (VArr []) None)
           remote_office eq_refl).
  - vm_compute. reflexivity.
  - right. left. reflexivity.
Defined.

Lemma logout_closes_the_session_witness :
  post_logout delete_panel shop_world = (Ok (logged_out, Some []), shop_world)
  /\ forall req' w',
       session req' = Some [] ->
       get_auth_status req' = res_json (VObj [(js "authenticated", VBool false)])
       /\ get_admin req' = Redirect (js "/admin-login.html")
       /\ Forall (fun route : request -> M response =>
                    route req' w' = (Ok unauthorized, w'))
            [post_products; put_products; delete_products; post_courses; delete_courses].
Proof.
  apply (logout_closes_the_session delete_panel shop_world
           [(js "userId", VStr (js "user-1")); (js "username", VStr (js "admin"))]).
  reflexivity.
Defined.

Lemma product_from_post_to_delete_witness :
  exists id record,
    answered_id (js "product") (answer (post_products post_panel shop_world)) = VStr id
    /\ has_id id (VObj record) = true
    /\ get_products (post_products post_panel shop_world).2
       = (Ok (res_json (VArr ([VObj panel] ++ [VObj record]))),
          (post_products post_panel shop_world).2)
    /\ forall req2,
         authenticated req2 = true ->
         params_id req2 = id ->
         exists w2,
           delete_products req2 (post_products post_panel shop_world).2 = (Ok deleted, w2)
           /\ get_products w2
              = (Ok (res_json (VArr (List.filter (fun v => negb (has_id id v)) [VObj panel]))),
                 w2).
Proof.
  apply (product_from_post_to_delete post_panel shop_world
           (answer (post_products post_panel shop_world))
           (post_products post_panel shop_world).2 [VObj panel]).
  - reflexivity.
  - vm_compute. reflexivity.
  - vm_compute. reflexivity.
  - reflexivity.
  - vm_compute. reflexivity.
  - reflexivity.
Defined.

Lemma failed_insert_answers_500_witness :
  (forall link, product_link (body post_panel) = Ok link ->
     exists w', post_products post_panel refusing_shop
                = (Ok (res_status_json 500 (error_body (js "timeout"))), w')
                /\ tables w' = tables refusing_shop /\ files w' = files refusing_shop)
  /\ exists w', post_courses post_panel refusing_shop
                = (Ok (res_status_json 500 (error_body (js "timeout"))), w')
                /\ tables w' = tables refusing_shop /\ files w' = files refusing_shop.
Proof.
  apply (failed_insert_answers_500 post_panel refusing_shop (js "timeout")).
  - reflexivity.
  - reflexivity.
  - reflexivity.
  - exists []. left. reflexivity.
Defined.

Lemma failed_lookup_is_not_reported_witness :
  (upload_accepted put_panel ->
   put_products put_panel refusing_shop = (Ok not_found, set_net [] refusing_shop))
  /\ (online (set_net [] refusing_shop) ->
      exists w',
        delete_products put_panel refusing_shop = (Ok deleted, w')
        /\ table (js "products") w'
           = List.filter (fun row => negb (has_id (params_id put_panel) (VObj row)))
               (table (js "products") refusing_shop)
        /\ bucket w' = bucket refusing_shop).
Proof.
  apply (failed_lookup_is_not_reported put_panel refusing_shop (js "timeout") []);
    reflexivity.
Defined.

(** The product is in the table, and PUT answers that it is not found. *)
Example refused_put :
  table (js "products") refusing_shop = [panel]
  /\ has_id (params_id put_panel) (VObj panel) = true
  /\ answer (put_products put_panel refusing_shop)
     = res_status_json 404 (error_body (js "Not found")).
Proof. repeat split; vm_compute; reflexivity. Qed.

Lemma uploaded_image_is_deleted_witness :
  exists name w2,
    bucket remote_shop !! (js "products/" ++ name) = None
    /\ bucket (uploadToSupabase photo remote_shop).2
       = <[js "products/" ++ name := photo]> (bucket remote_shop)
    /\ endsWith (js "https://nk.supabase.co/storage/v1/object/public/product-images/products/2a2a2a2a-2a2a-4a2a-aa2a-2a2a2a2a2a2a.png")
         (js "/product-images/products/" ++ name) = true
    /\ deleteFromSupabase
         (VStr (js "https://nk.supabase.co/storage/v1/object/public/product-images/products/2a2a2a2a-2a2a-4a2a-aa2a-2a2a2a2a2a2a.png"))
         (uploadToSupabase photo remote_shop).2 = (Ok tt, w2)
    /\ bucket w2 = bucket remote_shop.
Proof.
  apply (uploaded_image_is_deleted photo remote_shop
           (js "https://nk.supabase.co/storage/v1/object/public/product-images/products/2a2a2a2a-2a2a-4a2a-aa2a-2a2a2a2a2a2a.png")
           (uploadToSupabase photo remote_shop).2).
  - constructor.
  - vm_compute. reflexivity.
Defined.

Lemma put_keeps_and_drops_witness :
  exists i old kept,
    collection shop_world (js "products") !! i = Some (VObj old)
    /\ has_id (params_id put_panel) (VObj old) = true
    /\ collection (put_products put_panel shop_world).2 (js "products")
       = <[i := VObj kept]> (collection shop_world (js "products"))
    /\ (forall k,
          ~ In k [js "title"; js "price"; js "description"; js "image";
                  js "whatsappLink"; js "whatsapp_link"; js "updatedAt"; js "updated_at"] ->
          lookup_prop kept k = lookup_prop old k)
    /\ (forall k k',
          In (k, k') [(js "title", js "title"); (js "price", js "price");
                      (js "description", js "description");
                      (js "whatsappLink", link_key shop_world)] ->
          field (body put_panel) k = VUndefined ->
          lookup_prop kept k' = if useSupabase shop_world then lookup_prop old k' else None).
Proof.
  apply (put_keeps_and_drops put_panel shop_world
           (answer (put_products put_panel shop_world))).
  - vm_compute. reflexivity.
  - reflexivity.
  - vm_compute. reflexivity.
Defined.


Lemma local_mode_drops_the_upload_witness :
  bucket (post_products post_photo shop_world).2 = bucket shop_world
  /\ (forall p, p <> data_path (js "products.json") ->
      files (post_products post_photo shop_world).2 !! p = files shop_world !! p)
  /\ exists product,
       answer (post_products post_photo shop_world)
       = success_with (js "product") (VObj product)
       /\ lookup_prop product (js "image")
          = Some (js_or (field (body post_photo) (js "image")) (VStr [])).
Proof.
  apply (proj1 (local_mode_drops_the_upload post_photo photo shop_world
                  (answer (post_products post_photo shop_world))
                  (post_products post_photo shop_world).2 eq_refl eq_refl eq_refl)).
  vm_compute. reflexivity.
Defined.

(** The same file with a PUT: the image of the product is lost. *)
Example put_photo_image :
  get_opt (get_opt (payload (answer (put_products put_photo shop_world))) (js "product"))
    (js "image")
  = VStr (js "/uploads/undefined").
Proof. vm_compute. reflexivity. Qed.

Lemma post_courses_defaults_witness :
  exists course,
    answer (post_courses post_course local_world)
    = success_with (js "course") (VObj course)
    /\ lookup_prop course (js "comments") = Some (VNum (comments_of (body post_course)))
    /\ (truthy (field (body post_course) (js "date")) = false ->
        lookup_prop course (js "date")
        = Some (VStr (calendar local_world (ticks local_world))))
    /\ (forall s, field (body post_course) (js "date") = VStr s -> s <> [] ->
        lookup_prop course (js "date") = Some (VStr s)).
Proof.
  apply (post_courses_defaults post_course local_world
           (answer (post_courses post_course local_world))
           (post_courses post_course local_world).2).
  - vm_compute. reflexivity.
  - reflexivity.
Defined.

(** [parseInt] reads the digits at the head of the field. *)
Example post_course_comments : comments_of (body post_course) = 3%Z.
Proof. vm_compute. reflexivity. Qed.

Lemma refused_upserts_are_counted_witness :
  exists w',
    migrate_collection (js "users") upsert_user refusing_world = (Ok tt, w')
    /\ stdout w'
       = stdout refusing_world
         ++ [js "📦 Migrating " ++ js "users" ++ js "...";
             js "✓ Migrated " ++ Z_to_string (Z.of_nat (length [VObj user1; VObj user2]))
               ++ 32 :: js "users"]
    /\ tables w' = tables refusing_world.
Proof.
  apply (refused_upserts_are_counted (js "users") upsert_user refusing_world
           (default [] (JSON.stringify (VArr [VObj user1; VObj user2])))
           [VObj user1; VObj user2]).
  - left. reflexivity.
  - vm_compute. reflexivity.
  - vm_compute. reflexivity.
  - reflexivity.
  - cbn. lia.
  - repeat constructor; by eexists.
Defined.

(** The whole script on that store: two users reported, none written. *)
Example refused_migration :
  stdout (script refusing_world).1
  = [js "Starting migration..." ++ [10];
     js "📦 Migrating users..."; js "✓ Migrated 2 users";
     js "📦 Migrating products..."; js "  No products.json or empty";
     js "📦 Migrating courses..."; js "  No courses.json or empty";
     10 :: js "✅ Migration complete!"]
  /\ table (js "users") (script refusing_world).1 = []
  /\ (script refusing_world).2 = 0.
Proof. repeat split; vm_compute; reflexivity. Qed.

Lemma default_link_is_url_safe_witness :
  exists record enc,
    collection (post_products post_panel local_world).2 (js "products")
    = collection local_world (js "products") ++ [VObj record]
    /\ lookup_prop record (link_key local_world) = Some (VStr (whatsapp_prefix ++ enc))
    /\ forallb url_safe enc = true.
Proof.
  apply (default_link_is_url_safe post_panel local_world
           (answer (post_products post_panel local_world))
           (post_products post_panel local_world).2 (js "Panel A")).
  - vm_compute. reflexivity.
  - reflexivity.
  - reflexivity.
  - reflexivity.
  - apply (bool_decide_unpack _). vm_compute. reflexivity.
Defined.

(** * Uploads with Supabase, on the samples *)

Example remote_gallery_store :
  table (js "products") remote_gallery = [photo_row]
  /\ bucket remote_gallery
     = {[ js "products/2a2a2a2a-2a2a-4a2a-aa2a-2a2a2a2a2a2a.png" := photo ]}.
Proof. split; vm_compute; reflexivity. Qed.

Lemma remote_post_stores_the_upload_witness :
  exists name url row,
    bucket remote_empty !! (js "products/" ++ name) = None
    /\ bucket remote_gallery = <[js "products/" ++ name := photo]> (bucket remote_empty)
    /\ table (js "products") remote_gallery = table (js "products") remote_empty ++ [row]
    /\ answer (post_products post_photo remote_empty)
       = success_with (js "product") (VObj row)
    /\ field row (js "image") = VStr url
    /\ endsWith url (js "/product-images/products/" ++ name) = true.
Proof.
  apply (remote_post_stores_the_upload post_photo photo remote_empty
           (answer (post_products post_photo remote_empty)) remote_gallery).
  - reflexivity.
  - reflexivity.
  - vm_compute. reflexivity.
  - reflexivity.
Defined.

Lemma remote_delete_removes_the_image_witness :
  exists w',
    delete_products delete_panel remote_gallery = (Ok deleted, w')
    /\ bucket w' = delete (join [47] (last_two (split 47 photo_url))) (bucket remote_gallery)
    /\ table (js "products") w'
       = List.filter (fun r => negb (has_id (params_id delete_panel) (VObj r)))
           (table (js "products") remote_gallery).
Proof.
  apply (proj1 (remote_delete_removes_the_image delete_panel remote_gallery photo_url
                  eq_refl eq_refl ltac:(constructor) ltac:(discriminate)) photo_row).
  - vm_compute. reflexivity.
  - reflexivity.
Defined.

(** After the DELETE the store is empty again. *)
Example remote_gallery_deleted :
  bucket (delete_products delete_panel remote_gallery).2 = ∅
  /\ table (js "products") (delete_products delete_panel remote_gallery).2 = [].
Proof. split; vm_compute; reflexivity. Qed.

Lemma remote_put_replaces_the_image_witness :
  exists name url,
    bucket (put_products put_photo remote_gallery).2
    = <[js "products/" ++ name := photo]>
        (delete (join [47] (last_two (split 47 photo_url))) (bucket remote_gallery))
    /\ get_opt (get_opt (payload (answer (put_products put_photo remote_gallery)))
                  (js "product")) (js "image") = VStr url
    /\ endsWith url (js "/product-images/products/" ++ name) = true.
Proof.
  apply (remote_put_replaces_the_image put_photo photo remote_gallery
           (answer (put_products put_photo remote_gallery))
           (put_products put_photo remote_gallery).2 photo_row photo_url).
  - reflexivity.
  - constructor.
  - reflexivity.
  - vm_compute. reflexivity.
  - reflexivity.
  - discriminate.
  - vm_compute. reflexivity.
  - reflexivity.
Defined.

(** * Odd files, on the samples *)

Lemma delete_follows_dot_dot_witness :
  files (delete_products delete_panel trap_world).2 !! (js "data/" ++ js "users.json") = None.
Proof.
  apply (proj1 (delete_follows_dot_dot delete_panel trap_world deleted
                  (delete_products delete_panel trap_world).2 (js "users.json")
                  eq_refl
                  ltac:(repeat split; [discriminate | discriminate | discriminate
                                       | apply (bool_decide_unpack _); vm_compute; reflexivity])
                  eq_refl)).
  - vm_compute. reflexivity.
  - vm_compute. discriminate.
  - vm_compute. reflexivity.
Defined.

(** The file of the users was there before the DELETE. *)
Example trap_world_users :
  is_Some (files trap_world !! js "data/users.json")
  /\ files (delete_products delete_panel trap_world).2 !! js "data/users.json" = None.
Proof. split; [vm_compute; by eexists | vm_compute; reflexivity]. Qed.

Lemma null_record_blocks_delete_witness :
  exists msg w',
    delete_products delete_panel broken_world
    = (Ok (res_status_json 500 (error_body msg)), w')
    /\ (files w' = files broken_world \/ exists p, files w' = delete p (files broken_world)).
Proof.
  apply (proj1 (null_record_blocks_delete delete_panel broken_world [VNull]
                  eq_refl eq_refl ltac:(by left))).
  vm_compute. reflexivity.
Defined.

Example broken_world_delete :
  answer (delete_products delete_panel broken_world)
  = res_status_json 500
      (error_body (js "Cannot read properties of null (reading 'id')")).
Proof. vm_compute. reflexivity. Qed.

